(** * MCP server with custom tools: schema compiler, registry cache,
      parameter router and script runner

    A shallow embedding of [src/app/api/[transport]/route.ts],
    [src/lib/database.ts] and [src/app/api/tools/route.ts].  JavaScript values
    are an inductive type, objects are association lists in property order,
    the module-level variables ([toolsCache], [pool], [dbInitialized]) are
    threaded through a state-and-exception monad, and everything the host
    provides (clock, environment, database, script engine, [fetch], [JSON])
    is read from an explicit [World]. *)

From Stdlib Require Import ZArith QArith String Ascii List Bool Lia.
From Stdlib Require Import Qround.
From stdpp Require Import base option gmap strings.
Import ListNotations.

Local Open Scope string_scope.
Local Open Scope Z_scope.

Set Warnings "-register-all".

(** ** JavaScript values *)

Inductive JsValue : Type :=
| JsUndefined
| JsNull
| JsBoolean (b : bool)
| JsNumber (q : Q)
| JsString (s : string)
| JsArray (items : list JsValue)
| JsObject (fields : list (string * JsValue)).

(** Numbers are rationals: the server only compares numbers and tests them
    for a fractional part; [NaN] and the infinities have no counterpart
    here. *)

(** [typeof value === 'string' || ... 'number' || ... 'boolean'] *)
Definition isValidParamValue (value : JsValue) : bool :=
  match value with
  | JsString _ | JsNumber _ | JsBoolean _ => true
  | _ => false
  end.

(** [value === ''] *)
Definition is_empty_string (value : JsValue) : bool :=
  match value with
  | JsString s => String.eqb s ""
  | _ => false
  end.

(** [value === undefined] *)
Definition is_undefined (value : JsValue) : bool :=
  match value with
  | JsUndefined => true
  | _ => false
  end.

(** What [value || other] and [value ? a : b] test: every value is truthy but
    [undefined], [null], [false], zero and the empty string. *)
Definition js_truthy (value : JsValue) : bool :=
  match value with
  | JsUndefined | JsNull => false
  | JsBoolean b => b
  | JsNumber q => negb (Qeq_bool q 0)
  | JsString s => negb (String.eqb s "")
  | JsArray _ | JsObject _ => true
  end.

(** *** Objects as property lists

    An object is the list of its own enumerable properties, in the order
    [Object.keys] and [Object.entries] give them; no key occurs twice.  (For
    the keys that are not array indices this is the order of creation, which
    is the order the functions below keep.) *)

Abbreviation Props V := (list (string * V)) (only parsing).

(** [obj[key]] on an own property. *)
Fixpoint get_prop {V} (key : string) (obj : Props V) : option V :=
  match obj with
  | [] => None
  | (k, v) :: rest => if String.eqb k key then Some v else get_prop key rest
  end.

(** Defining an own property, as an object literal, a spread or
    [URLSearchParams.set] does: an existing property keeps its position and
    takes the new value, a new property goes last. *)
Fixpoint set_prop {V} (key : string) (value : V) (obj : Props V) : Props V :=
  match obj with
  | [] => [(key, value)]
  | (k, v) :: rest =>
      if String.eqb k key then (k, value) :: rest
      else (k, v) :: set_prop key value rest
  end.

(** [Object.keys(obj)] *)
Definition Object_keys {V} (obj : Props V) : list string := map fst obj.

(** [keys.includes(key)] *)
Definition includes (keys : list string) (key : string) : bool :=
  existsb (String.eqb key) keys.

(** [obj[key] = value] on an ordinary object.  The assignment defines the
    property, except for the name [__proto__] on an object that has no own
    property of that name: it then reaches the accessor that
    [Object.prototype] holds under that name, which replaces the prototype of
    [obj] when [value] is an object or [null] and does nothing otherwise.  In
    both cases [obj] gains no property.  (The prototype is not part of the
    model: the server reads the objects it builds through [Object.keys],
    [Object.entries], a spread or [JSON.stringify], which see own properties
    only.) *)
Definition assign {V} (key : string) (value : V) (obj : Props V) : Props V :=
  if String.eqb key "__proto__" && negb (includes (Object_keys obj) key)
  then obj
  else set_prop key value obj.

(** [delete obj[key]] *)
Definition delete_prop {V} (key : string) (obj : Props V) : Props V :=
  List.filter (fun entry => negb (String.eqb (fst entry) key)) obj.

(** ** Strings

    A string stands for a JavaScript string through its UTF-8 encoding. *)

(** [haystack.includes(needle)] on strings. *)
Fixpoint string_includes (needle haystack : string) : bool :=
  String.prefix needle haystack
  || match haystack with
     | EmptyString => false
     | String _ rest => string_includes needle rest
     end.

(** A double quote and a line feed, for the texts the server builds. *)
Definition dquote : string := String (ascii_of_nat 34) EmptyString.
Definition newline : string := String (ascii_of_nat 10) EmptyString.

Definition bytes (codes : list nat) : string :=
  string_of_list_ascii (map ascii_of_nat codes).

(** What [trim] strips: the white space and the line terminators of
    ECMAScript.  These are TAB, LF, VT, FF, CR and SPACE, then U+00A0, U+1680,
    U+2000 to U+200A, U+2028, U+2029, U+202F, U+205F, U+3000 and U+FEFF, each
    by its encoding. *)
Definition WHITE_SPACE : list string :=
  map bytes
    [ [9]; [10]; [11]; [12]; [13]; [32];
      [194; 160];
      [225; 154; 128];
      [226; 128; 128]; [226; 128; 129]; [226; 128; 130]; [226; 128; 131];
      [226; 128; 132]; [226; 128; 133]; [226; 128; 134]; [226; 128; 135];
      [226; 128; 136]; [226; 128; 137]; [226; 128; 138];
      [226; 128; 168]; [226; 128; 169];
      [226; 128; 175];
      [226; 129; 159];
      [227; 128; 128];
      [239; 187; 191] ]%nat.

(** [text] without the prefix [prefix], if it starts with it. *)
Fixpoint strip_prefix (prefix text : string) : option string :=
  match prefix, text with
  | EmptyString, _ => Some text
  | String a prefix, String b text =>
      if Ascii.eqb a b then strip_prefix prefix text else None
  | String _ _, EmptyString => None
  end.

(** [text] without the first of [spaces] it starts with, if any. *)
Fixpoint strip_one (spaces : list string) (text : string) : option string :=
  match spaces with
  | [] => None
  | space :: others =>
      match strip_prefix space text with
      | Some rest => Some rest
      | None => strip_one others text
      end
  end.

(** Stripping from the front until no element of [spaces] is left there;
    [rounds] bounds the number of characters stripped. *)
Fixpoint strip_all (rounds : nat) (spaces : list string) (text : string) : string :=
  match rounds with
  | O => text
  | S rounds =>
      match strip_one spaces text with
      | Some rest => strip_all rounds spaces rest
      | None => text
      end
  end.

Definition reversed (text : string) : string :=
  string_of_list_ascii (rev (list_ascii_of_string text)).

(** [text.trimStart()], [text.trimEnd()] and [text.trim()] *)
Definition trim_start (text : string) : string :=
  strip_all (String.length text) WHITE_SPACE text.

Definition trim_end (text : string) : string :=
  reversed (strip_all (String.length text) (map reversed WHITE_SPACE) (reversed text)).

Definition trim (text : string) : string := trim_end (trim_start text).

(** [!text.trim()]: nothing but white space. *)
Definition blank (text : string) : bool := String.eqb (trim text) "".

(** [text.split(',')] *)
Fixpoint split_commas (text : string) : list string :=
  match text with
  | EmptyString => [EmptyString]
  | String c rest =>
      if Ascii.eqb c ","%char then EmptyString :: split_commas rest
      else match split_commas rest with
           | [] => [String c EmptyString]
           | first :: others => String c first :: others
           end
  end.

(** ** The zod schemas the compiler builds

    zod is a dependency of the repository, not part of it.  Its schema
    objects are modelled as a syntax tree and [safeParse] as an interpreter
    of that tree, after zod 3.  A value that is [undefined] stands for an
    omitted argument: [default] replaces it by the default before
    validation, [optional] lets it through.

    The issues are those of zod 3: [issue_type] and [issue_enum_type] are its
    [invalid_type] (for an enumeration the expected type is the list of
    options, and the issue is raised for every value that is not a string),
    [issue_enum] is [invalid_enum_value] (a string that is not an option),
    [issue_int] is the [invalid_type] of [int()], [issue_min] is [too_small]
    and [issue_max] is [too_big]. *)

Module Zod.

Inductive ParsedType : Type :=
| pt_undefined | pt_null | pt_boolean | pt_number | pt_string | pt_array | pt_object.

Definition getParsedType (v : JsValue) : ParsedType :=
  match v with
  | JsUndefined => pt_undefined
  | JsNull => pt_null
  | JsBoolean _ => pt_boolean
  | JsNumber _ => pt_number
  | JsString _ => pt_string
  | JsArray _ => pt_array
  | JsObject _ => pt_object
  end.

Inductive NumberCheck : Type :=
| check_int
| check_min (minimum : Q)
| check_max (maximum : Q).

Inductive Issue : Type :=
| issue_type (expected received : ParsedType)
| issue_enum_type (options : list string) (received : ParsedType)
| issue_enum (options : list string) (received : JsValue)
| issue_int (received : Q)
| issue_min (minimum received : Q)
| issue_max (maximum received : Q).

Inductive ZodType : Type :=
| string_                                   (* z.string() *)
| enum_ (values : list string)              (* z.enum(values) *)
| number_ (checks : list NumberCheck)       (* z.number().int().min(a).max(b) *)
| boolean_                                  (* z.boolean() *)
| describe_ (inner : ZodType) (text : string)
| default_ (inner : ZodType) (value : JsValue)
| optional_ (inner : ZodType).

Inductive ParseResult : Type :=
| success (data : JsValue)
| failure (issues : list Issue).

(** [Number.isInteger] *)
Definition is_integer (q : Q) : bool := (Qnum q mod Zpos (Qden q) =? 0)%Z.

Definition run_check (q : Q) (c : NumberCheck) : list Issue :=
  match c with
  | check_int => if is_integer q then [] else [issue_int q]
  | check_min a => if Qle_bool a q then [] else [issue_min a q]
  | check_max b => if Qle_bool q b then [] else [issue_max b q]
  end.

Fixpoint safeParse (t : ZodType) (v : JsValue) : ParseResult :=
  match t with
  | string_ =>
      match v with
      | JsString _ => success v
      | _ => failure [issue_type pt_string (getParsedType v)]
      end
  | enum_ values =>
      match v with
      | JsString s => if includes values s then success v
                      else failure [issue_enum values v]
      | _ => failure [issue_enum_type values (getParsedType v)]
      end
  | number_ checks =>
      match v with
      | JsNumber q =>
          match flat_map (run_check q) checks with
          | [] => success v
          | issues => failure issues
          end
      | _ => failure [issue_type pt_number (getParsedType v)]
      end
  | boolean_ =>
      match v with
      | JsBoolean _ => success v
      | _ => failure [issue_type pt_boolean (getParsedType v)]
      end
  | describe_ inner _ => safeParse inner v
  | default_ inner d =>
      if is_undefined v then safeParse inner d else safeParse inner v
  | optional_ inner =>
      if is_undefined v then success JsUndefined else safeParse inner v
  end.

End Zod.

(** ** Descriptors (the [ParameterSchema] and [CustomTool] interfaces) *)

Record ParameterSchema : Type := {
  param_type : string;
  param_description : option string;
  param_enum : option (list string);
  param_minimum : option Q;
  param_maximum : option Q;
  param_default : option JsValue
}.

Record ToolSchema : Type := {
  schema_properties : option (Props ParameterSchema);
  schema_required : option (list string)
}.

Inductive HttpMethod : Type := GET | POST | PUT | DELETE | PATCH.

Definition is_GET (m : HttpMethod) : bool :=
  match m with GET => true | _ => false end.

Record ApiConfig : Type := {
  api_url : string;
  api_method : HttpMethod;
  api_headers : option (Props string)
}.

Inductive CustomType : Type := normal | api.

Record CustomTool : Type := {
  tool_name : string;
  tool_description : option string;
  inputSchema : option ToolSchema;
  querySchema : option ToolSchema;
  isCustom : option bool;
  customType : option CustomType;
  apiConfig : option ApiConfig;
  customLogic : option string
}.

(** ** Schema compiler *)

(** A JavaScript string is truthy unless it is empty. *)
Definition truthy_string (s : option string) : bool :=
  match s with
  | Some s => negb (String.eqb s "")
  | None => false
  end.

Definition number_bounds (param : ParameterSchema) : list Zod.NumberCheck :=
  match param_minimum param with Some a => [Zod.check_min a] | None => [] end
  ++ match param_maximum param with Some b => [Zod.check_max b] | None => [] end.

Definition parameterToZodSchema (param : ParameterSchema) : Zod.ZodType :=
  let schema :=
    if String.eqb (param_type param) "string" then
      match param_enum param with
      | Some values => Zod.enum_ values
      | None => Zod.string_
      end
    else if String.eqb (param_type param) "number" then
      Zod.number_ (number_bounds param)
    else if String.eqb (param_type param) "integer" then
      Zod.number_ (Zod.check_int :: number_bounds param)
    else if String.eqb (param_type param) "boolean" then
      Zod.boolean_
    else Zod.string_ in
  let schema :=
    if truthy_string (param_description param)
    then Zod.describe_ schema (default "" (param_description param))
    else schema in
  match param_default param with
  | Some d => Zod.default_ schema d
  | None => schema
  end.

(** [buildZodSchema]: the compiled validator of every declared property,
    made optional unless the property is listed in [required], assigned to
    [zodSchema] under the property's name. *)
Definition buildZodSchema (toolSchema : option ToolSchema) : Props Zod.ZodType :=
  match toolSchema with
  | None => []
  | Some ts =>
      match schema_properties ts with
      | None => []
      | Some properties =>
          fold_left
            (fun zodSchema '(key, param) =>
               let schema := parameterToZodSchema param in
               let schema :=
                 if includes (default [] (schema_required ts)) key
                 then schema else Zod.optional_ schema in
               assign key schema zodSchema)
            properties []
      end
  end.

(** ** Exceptions and the process state *)

(** What a [throw] carries: an [Error] object with its [message], or any other
    value. *)
Inductive Thrown : Type :=
| ErrorInstance (message : string)
| NonError (value : JsValue).

Inductive Completion (A : Type) : Type :=
| Normal (a : A)
| Throw (e : Thrown).
Arguments Normal {A} a.
Arguments Throw {A} e.

(** The module-level [toolsCache] of route.ts. *)
Record ToolsCache : Type := {
  tools : list CustomTool;
  timestamp : Z;
  registered : gset string
}.

Definition initial_toolsCache : ToolsCache :=
  {| tools := []; timestamp := 0; registered := ∅ |}.

(** Cache duration in milliseconds. *)
Definition CACHE_DURATION : Z := 5 * 1000.

(** [new Pool({connectionString, ssl})] *)
Record Pool : Type := {
  connectionString : string;
  ssl : bool
}.

(** A row of the [custom_tools] table, columns already decoded. *)
Record Row : Type := {
  row_name : string;
  row_description : option string;
  row_custom_type : option CustomType;
  row_input_schema : option ToolSchema;
  row_query_schema : option ToolSchema;
  row_api_config : option ApiConfig;
  row_custom_logic : option string
}.

(** The descriptors of the snapshot are objects, and the server writes into
    one of them (the [Content-Type] that [executeApiTool] assigns lands in
    the [headers] object of the descriptor it was handed).  A descriptor
    object is named by the array it was created in, the arrays being numbered
    as [toolsCache.tools] receives them, and by its position in that
    array. *)
Definition ObjectId : Type := nat * nat.

(** What a tool callback is bound to once registered on the server. *)
Inductive Handler : Type :=
| builtin_handler (name : string)
| custom_handler (tool : CustomTool).

(** An entry of the server's table.  [reg_object] names the descriptor object
    the callback of a custom tool closes over ([tool] in the [forEach] of
    [registerCustomTools]); a builtin has none. *)
Record RegisteredTool : Type := {
  reg_description : string;
  reg_params : Props Zod.ZodType;
  reg_callback : Handler;
  reg_object : option ObjectId
}.

(** What the MCP server object does when [server.tool(name, ...)] is called
    with a name it already holds.  The SDK is not part of the repository; its
    [McpServer.tool] raises [Tool <name> is already registered]
    ([reject_duplicate]).  The two silent alternatives are kept so that the
    results about name collisions can be read off for each of them. *)
Inductive DuplicatePolicy : Type :=
| reject_duplicate
| replace_existing
| keep_existing.

Inductive LogLevel : Type := level_log | level_error | level_warn.

Record HttpRequest : Type := {
  req_url : string;
  req_method : HttpMethod;
  req_headers : Props string;
  req_body : option string
}.

Record HttpResponse : Type := {
  resp_ok : bool;
  resp_status : string;
  resp_statusText : string;
  resp_text : string
}.

(** One run of a script: the calls it made to the [console] object it was
    handed, in order, and how it ended: with a value returned, with a value
    thrown (a syntax error of the source included), or not at all
    ([None]: the script loops, or the promise it returned never settles). *)
Record ScriptRun : Type := {
  script_writes : list LogLevel;
  script_outcome : option (Completion JsValue)
}.

(** The [TypeError]s the handlers of the tools API can run into; the engine
    words their messages. *)
Inductive TypeErrorCause : Type :=
| reads_property_of (value : JsValue) (key : string)   (* value.key, value null or undefined *)
| destructures (value : JsValue)                       (* const { ... } = value, likewise *)
| calls_trim_of (value : JsValue).                     (* value.trim(), value.trim no function *)

(** Everything the process reads from outside itself.  The clock, the
    database, the script engine and the network answer by call number: the
    k-th [Date.now()] returns [Date_now k], the k-th [SELECT] resolves or
    rejects as [store_select k], the k-th other statement as
    [store_execute k], the k-th request resolves or rejects as [fetch k]
    (with the response text read), and [run_function k source params] is what
    the k-th [new Function(...)] followed by the awaited call does for a
    script body.  The database and the network are taken to answer; a script
    may not.  A script is taken to act on the process through the [console]
    it is handed only: it leaves the built-ins and the environment as they
    are.  [on_duplicate] is the server's treatment of a name registered
    twice.  The remaining fields are the JavaScript built-ins the server
    calls: [JSON.stringify] without and with indentation, [JSON.parse]
    ([None] when it throws), [String(...)],
    [URLSearchParams.prototype.toString] and the messages of the engine's
    [TypeError]s. *)
Record World : Type := {
  env_USEDB : option string;
  env_DATABASE_URL : option string;
  env_NODE_ENV : option string;
  Date_now : nat -> Z;
  store_select : nat -> Completion (list Row);
  store_execute : nat -> Completion unit;
  on_duplicate : DuplicatePolicy;
  run_function : nat -> string -> Props JsValue -> ScriptRun;
  fetch : nat -> HttpRequest -> Completion HttpResponse;
  JSON_stringify : JsValue -> string;
  JSON_stringify_pretty : JsValue -> string;
  JSON_parse : string -> option JsValue;
  String_ : JsValue -> string;
  URLSearchParams_toString : Props string -> string;
  TypeError_message : TypeErrorCause -> string
}.

(** The mutable state of the process: the module variables [toolsCache]
    (route.ts), [pool] (database.ts) and [dbInitialized] (api/tools/route.ts),
    the table of tools of the server object, the console, the number of the
    array [toolsCache.tools] holds, the descriptor objects whose headers had
    [Content-Type] written into them, and the counters that number the
    readings of the clock, the statements sent to the database, the scripts
    run and the requests sent. *)
Record Process : Type := {
  toolsCache : ToolsCache;
  pool : option Pool;
  registeredTools : gmap string RegisteredTool;
  clock_reads : nat;
  store_calls : nat;
  store_statements : nat;
  dbInitialized : bool;
  console : list (LogLevel * string);
  snapshot_id : nat;
  written : gset ObjectId;
  script_runs : nat;
  fetch_calls : nat
}.

Definition initial_process : Process :=
  {| toolsCache := initial_toolsCache; pool := None; registeredTools := ∅;
     clock_reads := 0; store_calls := 0; store_statements := 0;
     dbInitialized := false; console := [];
     snapshot_id := 0; written := ∅; script_runs := 0; fetch_calls := 0 |}.

(** *** The monad: state of the process, and exceptions *)

Definition M (A : Type) : Type := Process -> Completion A * Process.

#[export] Instance M_ret : MRet M := fun A a s => (Normal a, s).

#[export] Instance M_bind : MBind M := fun A B f m s =>
  match m s with
  | (Normal a, s') => f a s'
  | (Throw e, s') => (Throw e, s')
  end.

Definition throw {A} (e : Thrown) : M A := fun s => (Throw e, s).

(** [try { body } catch (error) { handler(error) }]: the state changes made by
    [body] before it threw are kept. *)
Definition try_catch {A} (body : M A) (handler : Thrown -> M A) : M A := fun s =>
  match body s with
  | (Normal a, s') => (Normal a, s')
  | (Throw e, s') => handler e s'
  end.

Definition gets {A} (f : Process -> A) : M A := fun s => (Normal (f s), s).

Definition modify (f : Process -> Process) : M unit := fun s => (Normal tt, f s).

(** [await promise], for a promise that settles. *)
Definition await {A} (settled : Completion A) : M A :=
  match settled with
  | Normal a => mret a
  | Throw e => throw e
  end.

Definition set_toolsCache (c : ToolsCache) (s : Process) : Process :=
  {| toolsCache := c; pool := pool s; registeredTools := registeredTools s;
     clock_reads := clock_reads s; store_calls := store_calls s;
     store_statements := store_statements s; dbInitialized := dbInitialized s;
     console := console s; snapshot_id := snapshot_id s; written := written s;
     script_runs := script_runs s; fetch_calls := fetch_calls s |}.

Definition set_pool (p : option Pool) (s : Process) : Process :=
  {| toolsCache := toolsCache s; pool := p; registeredTools := registeredTools s;
     clock_reads := clock_reads s; store_calls := store_calls s;
     store_statements := store_statements s; dbInitialized := dbInitialized s;
     console := console s; snapshot_id := snapshot_id s; written := written s;
     script_runs := script_runs s; fetch_calls := fetch_calls s |}.

Definition set_registeredTools (r : gmap string RegisteredTool) (s : Process) : Process :=
  {| toolsCache := toolsCache s; pool := pool s; registeredTools := r;
     clock_reads := clock_reads s; store_calls := store_calls s;
     store_statements := store_statements s; dbInitialized := dbInitialized s;
     console := console s; snapshot_id := snapshot_id s; written := written s;
     script_runs := script_runs s; fetch_calls := fetch_calls s |}.

Definition tick_clock (s : Process) : Process :=
  {| toolsCache := toolsCache s; pool := pool s; registeredTools := registeredTools s;
     clock_reads := S (clock_reads s); store_calls := store_calls s;
     store_statements := store_statements s; dbInitialized := dbInitialized s;
     console := console s; snapshot_id := snapshot_id s; written := written s;
     script_runs := script_runs s; fetch_calls := fetch_calls s |}.

Definition tick_store (s : Process) : Process :=
  {| toolsCache := toolsCache s; pool := pool s; registeredTools := registeredTools s;
     clock_reads := clock_reads s; store_calls := S (store_calls s);
     store_statements := store_statements s; dbInitialized := dbInitialized s;
     console := console s; snapshot_id := snapshot_id s; written := written s;
     script_runs := script_runs s; fetch_calls := fetch_calls s |}.

Definition tick_statements (s : Process) : Process :=
  {| toolsCache := toolsCache s; pool := pool s; registeredTools := registeredTools s;
     clock_reads := clock_reads s; store_calls := store_calls s;
     store_statements := S (store_statements s); dbInitialized := dbInitialized s;
     console := console s; snapshot_id := snapshot_id s; written := written s;
     script_runs := script_runs s; fetch_calls := fetch_calls s |}.

(** [console.log], [console.error] and [console.warn]: the lines are appended. *)
Definition write_console (lines : list (LogLevel * string)) (s : Process) : Process :=
  {| toolsCache := toolsCache s; pool := pool s; registeredTools := registeredTools s;
     clock_reads := clock_reads s; store_calls := store_calls s;
     store_statements := store_statements s; dbInitialized := dbInitialized s;
     console := (console s ++ lines)%list; snapshot_id := snapshot_id s;
     written := written s; script_runs := script_runs s; fetch_calls := fetch_calls s |}.

Definition set_dbInitialized (b : bool) (s : Process) : Process :=
  {| toolsCache := toolsCache s; pool := pool s; registeredTools := registeredTools s;
     clock_reads := clock_reads s; store_calls := store_calls s;
     store_statements := store_statements s; dbInitialized := b; console := console s;
     snapshot_id := snapshot_id s; written := written s; script_runs := script_runs s;
     fetch_calls := fetch_calls s |}.

(** A new array takes the place of [toolsCache.tools]. *)
Definition next_snapshot (s : Process) : Process :=
  {| toolsCache := toolsCache s; pool := pool s; registeredTools := registeredTools s;
     clock_reads := clock_reads s; store_calls := store_calls s;
     store_statements := store_statements s; dbInitialized := dbInitialized s;
     console := console s; snapshot_id := S (snapshot_id s); written := written s;
     script_runs := script_runs s; fetch_calls := fetch_calls s |}.

(** [Content-Type] is written into the headers a descriptor holds. *)
Definition mark_written (object : ObjectId) (s : Process) : Process :=
  {| toolsCache := toolsCache s; pool := pool s; registeredTools := registeredTools s;
     clock_reads := clock_reads s; store_calls := store_calls s;
     store_statements := store_statements s; dbInitialized := dbInitialized s;
     console := console s; snapshot_id := snapshot_id s;
     written := {[ object ]} ∪ written s; script_runs := script_runs s;
     fetch_calls := fetch_calls s |}.

Definition tick_script (s : Process) : Process :=
  {| toolsCache := toolsCache s; pool := pool s; registeredTools := registeredTools s;
     clock_reads := clock_reads s; store_calls := store_calls s;
     store_statements := store_statements s; dbInitialized := dbInitialized s;
     console := console s; snapshot_id := snapshot_id s; written := written s;
     script_runs := S (script_runs s); fetch_calls := fetch_calls s |}.

Definition tick_fetch (s : Process) : Process :=
  {| toolsCache := toolsCache s; pool := pool s; registeredTools := registeredTools s;
     clock_reads := clock_reads s; store_calls := store_calls s;
     store_statements := store_statements s; dbInitialized := dbInitialized s;
     console := console s; snapshot_id := snapshot_id s; written := written s;
     script_runs := script_runs s; fetch_calls := S (fetch_calls s) |}.

Definition push_console (line : LogLevel * string) (s : Process) : Process :=
  {| toolsCache := toolsCache s; pool := pool s; registeredTools := registeredTools s;
     clock_reads := clock_reads s; store_calls := store_calls s;
     store_statements := store_statements s; dbInitialized := dbInitialized s;
     console := console s ++ [line]; snapshot_id := snapshot_id s; written := written s;
     script_runs := script_runs s; fetch_calls := fetch_calls s |}.

Definition console_log (text : string) : M unit := modify (push_console (level_log, text)).
Definition console_error (text : string) : M unit := modify (push_console (level_error, text)).

(** [error instanceof Error ? error.message : 'Unknown error'] *)
Definition message_or_unknown (error : Thrown) : string :=
  match error with
  | ErrorInstance message => message
  | NonError _ => "Unknown error"
  end.

Section Server.

Context (w : World).

(** ** database.ts *)

Definition isDatabaseEnabled : bool :=
  match env_USEDB w with
  | Some v => String.eqb v "true"
  | None => false
  end && truthy_string (env_DATABASE_URL w).

(** [new Pool({ connectionString: process.env.DATABASE_URL, ssl: ... })] *)
Definition new_pool : Pool :=
  {| connectionString := default "" (env_DATABASE_URL w);
     ssl := match env_NODE_ENV w with
            | Some v => String.eqb v "production"
            | None => false
            end |}.

Definition getPool : M Pool :=
  p ← gets pool;
  match p with
  | Some p => mret p
  | None =>
      if negb (truthy_string (env_DATABASE_URL w))
      then throw (ErrorInstance "DATABASE_URL environment variable is not set")
      else modify (set_pool (Some new_pool));; mret new_pool
  end.

(** [client.query] with a statement that returns no rows. *)
Definition client_execute : M unit :=
  k ← gets store_statements;
  modify tick_statements;;
  match store_execute w k with
  | Normal _ => mret tt
  | Throw e => throw e
  end.

(** [client.query('SELECT * FROM custom_tools ORDER BY created_at DESC')] *)
Definition client_select : M (list Row) :=
  k ← gets store_calls;
  modify tick_store;;
  match store_select w k with
  | Normal rows => mret rows
  | Throw e => throw e
  end.

Definition initializeDatabase : M unit :=
  if negb isDatabaseEnabled then mret tt
  else
    _ ← getPool;
    try_catch
      (client_execute;; client_execute;;
       console_log "Database initialized successfully")
      (fun error => console_error "Error initializing database:";; throw error).

Definition row_to_tool (row : Row) : CustomTool :=
  {| tool_name := row_name row;
     tool_description := row_description row;
     isCustom := Some true;
     customType := row_custom_type row;
     inputSchema := row_input_schema row;
     querySchema := row_query_schema row;
     apiConfig := row_api_config row;
     customLogic := row_custom_logic row |}.

Definition getToolsFromDatabase : M (list CustomTool) :=
  if negb isDatabaseEnabled then throw (ErrorInstance "Database is not enabled")
  else
    _ ← getPool;
    try_catch
      (rows ← client_select; mret (map row_to_tool rows))
      (fun error => console_error "Error getting tools from database:";; throw error).

(** ** api/tools/route.ts: listing the stored tools *)

Inductive ToolsReply : Type :=
| reply_tools (tools : list CustomTool) (source : string)
| reply_error (status : Z) (error details : string).

Definition ensureDbInitialized : M unit :=
  done ← gets dbInitialized;
  if negb done && isDatabaseEnabled then
    try_catch
      (initializeDatabase;; modify (set_dbInitialized true))
      (fun error => console_error "Failed to initialize database:";; throw error)
  else mret tt.

(** [GET /api/tools] *)
Definition tools_GET : M ToolsReply :=
  try_catch
    (if isDatabaseEnabled then
       ensureDbInitialized;;
       tools ← getToolsFromDatabase;
       mret (reply_tools tools "database")
     else mret (reply_tools [] "localStorage"))
    (fun error =>
       console_error "Error fetching tools:";;
       mret (reply_error 500 "Failed to fetch tools" (message_or_unknown error))).

(** ** route.ts: the registry cache *)

Definition Date_now_read : M Z :=
  k ← gets clock_reads;
  modify tick_clock;;
  mret (Date_now w k).

(** The test that guards the cached snapshot:
    [toolsCache.timestamp > 0 && (now - toolsCache.timestamp) < CACHE_DURATION]. *)
Definition is_fresh (cache : ToolsCache) (now : Z) : bool :=
  (0 <? timestamp cache) && (now - timestamp cache <? CACHE_DURATION).

(** [toolsCache = { tools, timestamp, registered }]: a new array, the next in
    number, takes the place of [toolsCache.tools]. *)
Definition install (cache : ToolsCache) (s : Process) : Process :=
  next_snapshot (set_toolsCache cache s).

Definition loadCustomTools (forceReload : bool) : M (list CustomTool) :=
  try_catch
    (now ← Date_now_read;
     cache ← gets toolsCache;
     if negb forceReload && is_fresh cache now
     then mret (tools cache)
     else
       tools ← (if isDatabaseEnabled then getToolsFromDatabase else mret []);
       modify (install {| tools := tools; timestamp := now; registered := ∅ |});;
       mret tools)
    (fun error =>
       console_error "Error loading custom tools for MCP:";;
       cache ← gets toolsCache;
       mret (tools cache)).

(** ** route.ts: the two executors of custom tools *)

(** [{ content: [{ type: "text", text }] }] *)
Definition text_result (text : string) : JsValue :=
  JsObject [("content",
             JsArray [JsObject [("type", JsString "text"); ("text", JsString text)]])].

(** [{ content: [{ type: "text", text }], isError: true }] *)
Definition error_result (text : string) : JsValue :=
  JsObject [("content",
             JsArray [JsObject [("type", JsString "text"); ("text", JsString text)]]);
            ("isError", JsBoolean true)].

(** [result.content && Array.isArray(result.content)] *)
Definition has_content_array (fields : Props JsValue) : bool :=
  match get_prop "content" fields with
  | Some (JsArray _) => true
  | _ => false
  end.

(** [!tool.customLogic || tool.customLogic.trim() === '']: the source text
    is absent, empty or made of white space only. *)
Definition no_logic (source : option string) : bool :=
  match source with
  | None => true
  | Some text => blank text
  end.

(** The arguments of a call, as the object they are. *)
Definition params_object (params : Props JsValue) : JsValue := JsObject params.

(** The line a call to the [console] of [safeGlobals] leaves on the console:
    [console.log(`[${tool.name}]`, ...args)], and likewise for [error] and
    [warn].  (Of a console line the model keeps the level and the first
    argument.) *)
Definition script_line (tool : CustomTool) (level : LogLevel) : LogLevel * string :=
  (level, "[" ++ tool_name tool ++ "]").

(** [await userFunction(params, safeGlobals)], the function being built from
    the source by [new Function]: the lines the script writes reach the
    console, then the call returns a value, throws, or never returns
    ([None]). *)
Definition run_script (tool : CustomTool) (params : Props JsValue) : M (option JsValue) :=
  k ← gets script_runs;
  modify tick_script;;
  let run := run_function w k (default "" (customLogic tool)) params in
  modify (write_console (map (script_line tool) (script_writes run)));;
  match script_outcome run with
  | Some (Normal value) => mret (Some value)
  | Some (Throw error) => throw error
  | None => mret None
  end.

(** The envelope [executeCustomLogic] builds around what a script returned. *)
Definition script_result (tool : CustomTool) (result : JsValue) : JsValue :=
  match result with
  | JsString text => text_result text
  | JsObject fields =>
      if has_content_array fields then result
      else text_result
             ("🛠️ " ++ tool_name tool ++ " Result:" ++ newline
              ++ JSON_stringify_pretty w result)
  | JsArray _ =>
      text_result
        ("🛠️ " ++ tool_name tool ++ " Result:" ++ newline
         ++ JSON_stringify_pretty w result)
  | _ =>
      text_result ("🛠️ " ++ tool_name tool ++ " Result: " ++ String_ w result)
  end.

(** [executeCustomLogic]; the result is [None] when the call never returns,
    which happens when the script does not. *)
Definition executeCustomLogic (tool : CustomTool) (params : Props JsValue)
    : M (option JsValue) :=
  try_catch
    (if no_logic (customLogic tool) then
       mret (Some (text_result
                     ("🛠️ Custom Tool " ++ dquote ++ tool_name tool ++ dquote
                      ++ " executed with parameters:" ++ newline
                      ++ JSON_stringify_pretty w (params_object params)
                      ++ newline ++ newline
                      ++ "⚠️ No custom logic defined for this tool.")))
     else
       result ← run_script tool params;
       mret (script_result tool <$> result))
    (fun error =>
       mret (Some (text_result
                     ("❌ Error executing custom logic: " ++ message_or_unknown error
                      ++ newline ++ newline
                      ++ "Please check your JavaScript code for syntax errors.")))).

(** [tool.querySchema?.properties ? Object.keys(...) : []] *)
Definition schema_keys (schema : option ToolSchema) : list string :=
  match schema with
  | Some ts =>
      match schema_properties ts with
      | Some properties => Object_keys properties
      | None => []
      end
  | None => []
  end.

(** One round of the loop that distributes the arguments over
    [queryParams] and [bodyParams]. *)
Definition distribute_step (queryKeys bodyKeys : list string) (method : HttpMethod)
    (buckets : Props JsValue * Props JsValue) (entry : string * JsValue)
    : Props JsValue * Props JsValue :=
  let '(queryParams, bodyParams) := buckets in
  let '(key, value) := entry in
  if negb (is_undefined value) && negb (is_empty_string value) && isValidParamValue value
  then
    if includes queryKeys key then (assign key value queryParams, bodyParams)
    else if includes bodyKeys key then (queryParams, assign key value bodyParams)
    else if is_GET method then (assign key value queryParams, bodyParams)
    else (queryParams, assign key value bodyParams)
  else buckets.

(** [Object.entries(params).forEach(...)], from two empty objects. *)
Definition distribute_params (tool : CustomTool) (method : HttpMethod)
    (params : Props JsValue) : Props JsValue * Props JsValue :=
  fold_left
    (distribute_step (schema_keys (querySchema tool)) (schema_keys (inputSchema tool)) method)
    params ([], []).

(** [url.split('?')[0]] *)
Fixpoint before_question_mark (url : string) : string :=
  match url with
  | EmptyString => EmptyString
  | String c rest =>
      if Ascii.eqb c "?"%char then EmptyString
      else String c (before_question_mark rest)
  end.

(** [urlParams.set(key, String(value))] for every entry of [queryParams]. *)
Definition search_params (queryParams : Props JsValue) : Props string :=
  fold_left (fun urlParams '(key, value) => set_prop key (String_ w value) urlParams)
            queryParams [].

(** The request handed to [fetch]: final URL, method, headers and body.
    [config] is [tool.apiConfig] as the call finds it. *)
Definition build_request (tool : CustomTool) (config : ApiConfig)
    (params : Props JsValue) : HttpRequest :=
  let url := api_url config in
  let method := api_method config in
  let headers := default [] (api_headers config) in
  let '(queryParams, bodyParams) := distribute_params tool method params in
  let baseUrl := before_question_mark url in
  let finalUrl :=
    if (0 <? length (Object_keys queryParams))%nat
    then baseUrl ++ "?" ++ URLSearchParams_toString w (search_params queryParams)
    else baseUrl in
  if negb (is_GET method) && (0 <? length (Object_keys bodyParams))%nat
  then {| req_url := finalUrl; req_method := method;
          req_headers := assign "Content-Type" "application/json" headers;
          req_body := Some (JSON_stringify w (JsObject bodyParams)) |}
  else {| req_url := finalUrl; req_method := method;
          req_headers := headers; req_body := None |}.

(** [tool.apiConfig] of the descriptor object [object], given as loaded: the
    [Content-Type] an earlier call assigned is in its headers. *)
Definition current_config (marks : gset ObjectId) (object : ObjectId)
    (loaded : ApiConfig) : ApiConfig :=
  if bool_decide (object ∈ marks)
  then {| api_url := api_url loaded; api_method := api_method loaded;
          api_headers := assign "Content-Type" "application/json" <$> api_headers loaded |}
  else loaded.

(** The envelope [executeApiTool] builds around a response. *)
Definition api_result (response : HttpResponse) : JsValue :=
  let responseText := resp_text response in
  let responseJson :=
    match JSON_parse w responseText with
    | Some v => v
    | None => JsString responseText
    end in
  if negb (resp_ok response) then
    error_result
      ("API Error " ++ resp_status response ++ ": " ++ resp_statusText response
       ++ newline
       ++ match responseJson with
          | JsString text => text
          | _ => JSON_stringify_pretty w responseJson
          end)
  else
    match responseJson with
    | JsString text => text_result text
    | JsObject fields =>
        if has_content_array fields then responseJson
        else text_result (JSON_stringify_pretty w responseJson)
    | JsArray _ => text_result (JSON_stringify_pretty w responseJson)
    | _ => text_result (String_ w responseJson)
    end.

(** [headers] is the descriptor's own object when the descriptor has one
    ([headers = {}] stands in only for a missing one), so the [Content-Type]
    assigned for a request with a body is written into the descriptor. *)
Definition writes_header (config : ApiConfig) (request : HttpRequest) : bool :=
  match req_body request, api_headers config with
  | Some _, Some _ => true
  | _, _ => false
  end.

(** [executeApiTool(tool, params)], [tool] being the descriptor object
    [object], given as loaded. *)
Definition executeApiTool (object : ObjectId) (tool : CustomTool) (params : Props JsValue)
    : M JsValue :=
  match apiConfig tool with
  | None => throw (ErrorInstance "API configuration missing")
  | Some loaded =>
      marks ← gets written;
      let config := current_config marks object loaded in
      let request := build_request tool config params in
      (if writes_header config request then modify (mark_written object) else mret tt);;
      k ← gets fetch_calls;
      modify tick_fetch;;
      response ← await (fetch w k request);
      mret (api_result response)
  end.

(** ** route.ts: registration on the MCP server *)

(** [server.tool(name, description, params, callback)], [object] naming the
    descriptor the callback closes over.  A free name is taken; a name
    already held is handled as [on_duplicate] says. *)
Definition server_tool (name description : string)
    (params : Props Zod.ZodType) (callback : Handler) (object : option ObjectId)
    : M unit :=
  let entry := {| reg_description := description; reg_params := params;
                  reg_callback := callback; reg_object := object |} in
  r ← gets registeredTools;
  match r !! name with
  | None => modify (set_registeredTools (<[name := entry]> r))
  | Some _ =>
      match on_duplicate w with
      | reject_duplicate =>
          throw (ErrorInstance ("Tool " ++ name ++ " is already registered"))
      | replace_existing => modify (set_registeredTools (<[name := entry]> r))
      | keep_existing => mret tt
      end
  end.

(** [list.forEach(f)] with a callback that may throw. *)
Fixpoint forEach {A} (l : list A) (f : A -> M unit) : M unit :=
  match l with
  | [] => mret tt
  | x :: rest => f x;; forEach rest f
  end.

(** The elements of a list with their positions, counted from [index]. *)
Fixpoint indexed_from {A} (index : nat) (l : list A) : list (nat * A) :=
  match l with
  | [] => []
  | x :: rest => (index, x) :: indexed_from (S index) rest
  end.

(** [{ ...a, ...b }] *)
Definition spread {V} (a b : Props V) : Props V :=
  fold_left (fun obj '(key, value) => set_prop key value obj) b a.

(** [toolsCache.registered.add(name)] *)
Definition mark_registered (name : string) (s : Process) : Process :=
  set_toolsCache
    {| tools := tools (toolsCache s); timestamp := timestamp (toolsCache s);
       registered := {[ name ]} ∪ registered (toolsCache s) |} s.

(** [`${tool.customType}`] for a tool of the snapshot, whose [customType] is
    the column of its row: [null] when the column is. *)
Definition custom_type_label (t : option CustomType) : string :=
  match t with
  | Some normal => "normal"
  | Some api => "api"
  | None => "null"
  end.

(** The body of the [forEach] of [registerCustomTools], for the tool at
    position [index] of the array numbered [snapshot]. *)
Definition register_one (forceReload : bool) (snapshot : nat)
    (entry : nat * CustomTool) : M unit :=
  let '(index, tool) := entry in
  try_catch
    (cache ← gets toolsCache;
     if negb forceReload && bool_decide (tool_name tool ∈ registered cache)
     then mret tt
     else
       let allParams :=
         spread (buildZodSchema (inputSchema tool)) (buildZodSchema (querySchema tool)) in
       server_tool (tool_name tool)
         (if truthy_string (tool_description tool)
          then default "" (tool_description tool)
          else "Custom tool: " ++ tool_name tool)
         allParams (custom_handler tool) (Some (snapshot, index));;
       modify (mark_registered (tool_name tool));;
       console_log ("✅ Registered custom tool: " ++ tool_name tool
                    ++ " (" ++ custom_type_label (customType tool) ++ ")"))
    (fun error =>
       console_error ("❌ Failed to register custom tool " ++ tool_name tool ++ ":")).

(** [registerCustomTools]: the array the load returns is the one
    [toolsCache.tools] holds when the load is over. *)
Definition registerCustomTools (forceReload : bool) : M unit :=
  customTools ← loadCustomTools forceReload;
  snapshot ← gets snapshot_id;
  forEach (indexed_from 0 customTools) (register_one forceReload snapshot);;
  if (0 <? length customTools)%nat
  then console_log ("🛠️ Loaded "
                    ++ String_ w (JsNumber (inject_Z (Z.of_nat (length customTools))))
                    ++ " custom tools into MCP server")
  else mret tt.

(** [tools.find(t => t.name === name)], with the position of the tool
    found; [index] is the position of the head of the list. *)
Fixpoint find_from (name : string) (index : nat) (l : list CustomTool)
    : option (nat * CustomTool) :=
  match l with
  | [] => None
  | t :: rest =>
      if String.eqb (tool_name t) name then Some (index, t)
      else find_from name (S index) rest
  end.

(** [currentTools.find(t => t.name === tool.name) || tool]: the descriptor
    the callback goes on with, and the object it is. *)
Definition current_object (object : ObjectId) (tool : CustomTool)
    (snapshot : nat) (currentTools : list CustomTool) : ObjectId * CustomTool :=
  match find_from (tool_name tool) 0 currentTools with
  | Some (index, found) => ((snapshot, index), found)
  | None => (object, tool)
  end.

(** The callback registered for a custom tool: the closure over [tool], the
    descriptor object [object].  The result is [None] when the call never
    returns. *)
Definition custom_tool_callback (object : ObjectId) (tool : CustomTool)
    (params : Props JsValue) : M (option JsValue) :=
  now ← Date_now_read;
  cache ← gets toolsCache;
  (if (timestamp cache =? 0) || (CACHE_DURATION <=? now - timestamp cache)
   then registerCustomTools true else mret tt);;
  currentTools ← loadCustomTools false;
  snapshot ← gets snapshot_id;
  let '(currentObject, currentTool) :=
    current_object object tool snapshot currentTools in
  match customType currentTool with
  | Some api =>
      result ← executeApiTool currentObject currentTool params;
      mret (Some result)
  | _ => executeCustomLogic currentTool params
  end.

(** [toolsCache.timestamp = 0; toolsCache.registered.clear()] *)
Definition invalidate (s : Process) : Process :=
  set_toolsCache
    {| tools := tools (toolsCache s); timestamp := 0; registered := ∅ |} s.

Fixpoint join (separator : string) (parts : list string) : string :=
  match parts with
  | [] => ""
  | [x] => x
  | x :: rest => x ++ separator ++ join separator rest
  end.

(** The callback of the builtin [refresh_custom_tools]. *)
Definition refresh_custom_tools_callback : M JsValue :=
  try_catch
    (modify invalidate;;
     registerCustomTools true;;
     currentTools ← loadCustomTools true;
     mret (text_result
             ("🔄 Custom tools cache refreshed successfully!" ++ newline
              ++ "📊 Currently loaded: "
              ++ String_ w (JsNumber (inject_Z (Z.of_nat (length currentTools))))
              ++ " custom tools" ++ newline ++ newline
              ++ (if (0 <? length currentTools)%nat
                  then join newline
                         (map (fun t => "• " ++ tool_name t ++ " ("
                                        ++ match customType t with
                                           | Some api => "api"
                                           | _ => "normal"
                                           end ++ ")")
                              currentTools)
                  else "No custom tools found."))))
    (fun error =>
       mret (text_result
               ("❌ Failed to refresh tools cache: " ++ message_or_unknown error))).

(** The builtin tools, in the order the initializer registers them. *)
Definition BUILTIN_TOOLS : list (string * string) :=
  [ ("refresh_custom_tools",
     "Refresh the cache of custom tools to pick up newly added tools");
    ("url_validator", "Validate and analyze URLs");
    ("json_formatter", "Format, validate and minify JSON");
    ("base64_converter", "Encode or decode Base64 strings");
    ("hash_generator", "Generate various hash types for text");
    ("timestamp_converter", "Convert between timestamps and human-readable dates");
    ("qr_code_data", "Generate QR code data and URL for text");
    ("email_validator", "Validate email addresses and extract information");
    ("slug_generator", "Generate URL-friendly slugs from text");
    ("random_number", "Generate a random number within a specified range");
    ("text_transform", "Transform text with various operations");
    ("generate_color", "Generate random colors in various formats");
    ("generate_uuid", "Generate UUIDs (v4)");
    ("generate_password", "Generate secure passwords") ].

Definition BUILTIN_NAMES : list string := map fst BUILTIN_TOOLS.

(** One [server.tool(...)] call of the initializer for a builtin.  (The
    parameter shapes of the builtins use zod features outside
    [Zod.ZodType] and are left empty.) *)
Definition register_builtin (builtin : string * string) : M unit :=
  let '(name, description) := builtin in
  server_tool name description [] (builtin_handler name) None.

(** The initializer handed to [createMcpHandler]: the custom tools first,
    then every builtin. *)
Definition initializeServer : M unit :=
  registerCustomTools false;;
  forEach BUILTIN_TOOLS register_builtin.

(** The handler a name resolves to on the server. *)
Definition resolve (s : Process) (name : string) : option Handler :=
  reg_callback <$> registeredTools s !! name.

End Server.

(** ** Sample descriptors and worlds used by the examples *)

(** A string parameter restricted to two colours, defaulting to the first. *)
Definition color_param : ParameterSchema :=
  {| param_type := "string"; param_description := Some "a colour";
     param_enum := Some ["red"; "green"]; param_minimum := None;
     param_maximum := None; param_default := Some (JsString "red") |}.

(** A parameter whose declared type is none of the four kinds, carrying
    constraints of every sort. *)
Definition array_param : ParameterSchema :=
  {| param_type := "array"; param_description := None;
     param_enum := Some ["x"]; param_minimum := Some (1 # 1);
     param_maximum := Some (2 # 1); param_default := None |}.

(** A value is a member of an enumeration when it is a string equal to one of
    the listed strings, character for character. *)
Definition enum_member (values : list string) (v : JsValue) : Prop :=
  exists s, v = JsString s /\ In s values.

Definition known_type (t : string) : Prop :=
  t = "string" \/ t = "number" \/ t = "integer" \/ t = "boolean".

(** The parameter with its type set to [string] and its [enum], [minimum]
    and [maximum] erased. *)
Definition as_plain_string (param : ParameterSchema) : ParameterSchema :=
  {| param_type := "string"; param_description := param_description param;
     param_enum := None; param_minimum := None; param_maximum := None;
     param_default := param_default param |}.

(** *** A custom API tool: [querySchema = {a}], [inputSchema = {b}], POST *)

Definition number_param : ParameterSchema :=
  {| param_type := "number"; param_description := None; param_enum := None;
     param_minimum := None; param_maximum := None; param_default := None |}.

Definition schema_of (keys : list string) : ToolSchema :=
  {| schema_properties := Some (map (fun key => (key, number_param)) keys);
     schema_required := None |}.

Definition router_config : ApiConfig :=
  {| api_url := "https://example.test/items?stale=1"; api_method := POST;
     api_headers := Some [("Content-Type", "text/plain"); ("X-API-Key", "k")] |}.

Definition router_tool : CustomTool :=
  {| tool_name := "router_demo"; tool_description := None;
     inputSchema := Some (schema_of ["b"]); querySchema := Some (schema_of ["a"]);
     isCustom := Some true; customType := Some api; apiConfig := Some router_config; customLogic := None |}.

(** [{a: 1, b: 2, c: 3}] *)
Definition router_args : Props JsValue :=
  [("a", JsNumber (1 # 1)); ("b", JsNumber (2 # 1)); ("c", JsNumber (3 # 1))].

(** *** A custom script tool whose source is [throw new Error("boom")] *)

Definition boom_source : string := "throw new Error(" ++ dquote ++ "boom" ++ dquote ++ ")".

(** [throw "boom"]: the thrown value is a string, not an [Error]. *)
Definition boom_string_source : string := "throw " ++ dquote ++ "boom" ++ dquote.

Definition script_tool (name source : string) : CustomTool :=
  {| tool_name := name; tool_description := None; inputSchema := None;
     querySchema := None; isCustom := Some true; customType := Some normal;
     apiConfig := None;
     customLogic := Some source |}.

(** [console.log("about to fail"); throw new Error("boom")] *)
Definition log_and_boom_source : string :=
  "console.log(" ++ dquote ++ "about to fail" ++ dquote ++ "); " ++ boom_source.

(** [while (true) {}] *)
Definition loop_source : string := "while (true) {}".

(** A script engine that knows five function bodies and answers for them, at
    every run, as JavaScript does. *)
Definition sample_engine (run : nat) (source : string) (params : Props JsValue)
    : ScriptRun :=
  if String.eqb source boom_source then
    {| script_writes := []; script_outcome := Some (Throw (ErrorInstance "boom")) |}
  else if String.eqb source boom_string_source then
    {| script_writes := [];
       script_outcome := Some (Throw (NonError (JsString "boom"))) |}
  else if String.eqb source log_and_boom_source then
    {| script_writes := [level_log];
       script_outcome := Some (Throw (ErrorInstance "boom")) |}
  else if String.eqb source loop_source then
    {| script_writes := []; script_outcome := None |}
  else if String.eqb source "return 'pong'" then
    {| script_writes := []; script_outcome := Some (Normal (JsString "pong")) |}
  else {| script_writes := []; script_outcome := Some (Normal JsUndefined) |}.

(** The messages of V8 for the [TypeError]s of the tools API. *)
Definition sample_TypeError_message (cause : TypeErrorCause) : string :=
  match cause with
  | reads_property_of JsNull key =>
      "Cannot read properties of null (reading '" ++ key ++ "')"
  | reads_property_of _ key =>
      "Cannot read properties of undefined (reading '" ++ key ++ "')"
  | destructures _ => "Cannot destructure the request body as it is null."
  | calls_trim_of _ => "trim is not a function"
  end.

(** *** A world: database selected and configured, holding [rows] *)

Definition sample_world (usedb url : option string) (policy : DuplicatePolicy)
    (select : nat -> Completion (list Row)) : World :=
  {| env_USEDB := usedb; env_DATABASE_URL := url; env_NODE_ENV := None;
     Date_now := fun k => 1700000000000 + Z.of_nat k;
     store_select := select;
     store_execute := fun _ => Normal tt;
     on_duplicate := policy;
     run_function := sample_engine;
     fetch := fun _ _ => Normal {| resp_ok := true; resp_status := "200";
                                   resp_statusText := "OK"; resp_text := "ok" |};
     JSON_stringify := fun _ => "{...}";
     JSON_stringify_pretty := fun _ => "{ ... }";
     JSON_parse := fun _ => None;
     String_ := fun _ => "value";
     URLSearchParams_toString := fun _ => "query";
     TypeError_message := sample_TypeError_message |}.

Definition database_url : option string := Some "postgresql://localhost:5432/mcp_tools".

(** The database is selected and reachable, and holds no tool. *)
Definition plain_world : World :=
  sample_world (Some "true") database_url reject_duplicate (fun _ => Normal []).

(** The persistent backend is selected, the connection string is absent. *)
Definition unconfigured_world : World :=
  sample_world (Some "true") None reject_duplicate (fun _ => Normal []).

(** The persistent backend is not selected. *)
Definition local_world : World :=
  sample_world None None reject_duplicate (fun _ => Normal []).

(** The database is selected and configured, and every query fails. *)
Definition failing_world : World :=
  sample_world (Some "true") database_url reject_duplicate
    (fun _ => Throw (ErrorInstance "connection refused")).

(** A process whose cache holds one tool, loaded long ago. *)
Definition stale_process : Process :=
  set_toolsCache
    {| tools := [script_tool "ping" "return 'pong'"]; timestamp := 1600000000000;
       registered := {[ "ping" ]} |}
    initial_process.

(** *** Reading a result *)

(** The value a computation completed with, if it did not throw. *)
Definition returned {A} (r : Completion A * Process) : option A :=
  match fst r with
  | Normal a => Some a
  | Throw _ => None
  end.

(** [result.isError] *)
Definition isError_of (result : JsValue) : option JsValue :=
  match result with
  | JsObject fields => get_prop "isError" fields
  | _ => None
  end.


(** The text of the result built when a script throws. *)
Definition script_error_text (error : Thrown) : string :=
  "❌ Error executing custom logic: " ++ message_or_unknown error
  ++ newline ++ newline ++ "Please check your JavaScript code for syntax errors.".

(** The text of the result built for a tool without script. *)
Definition no_logic_result (w : World) (tool : CustomTool) (params : Props JsValue)
    : JsValue :=
  text_result
    ("🛠️ Custom Tool " ++ dquote ++ tool_name tool ++ dquote
     ++ " executed with parameters:" ++ newline
     ++ JSON_stringify_pretty w (params_object params) ++ newline ++ newline
     ++ "⚠️ No custom logic defined for this tool.").

(** The run of the script of [tool] that a call made in state [s] starts. *)
Definition script_run (w : World) (tool : CustomTool) (params : Props JsValue)
    (s : Process) : ScriptRun :=
  run_function w (script_runs s) (default "" (customLogic tool)) params.

(** What [executeCustomLogic] answers after a run of the script: an envelope
    for a value returned or thrown, nothing for a script that never
    returns. *)
Definition script_answer (w : World) (tool : CustomTool) (run : ScriptRun)
    : option JsValue :=
  match script_outcome run with
  | Some (Normal value) => Some (script_result w tool value)
  | Some (Throw error) => Some (text_result (script_error_text error))
  | None => None
  end.

(** The process once a script of [tool] has run: the run is counted and the
    lines it wrote are on the console. *)
Definition after_script (tool : CustomTool) (run : ScriptRun) (s : Process) : Process :=
  write_console (map (script_line tool) (script_writes run)) (tick_script s).

(** Two states of the process that differ by the console and the count of
    scripts run at most. *)
Definition same_but_console (s s' : Process) : Prop :=
  toolsCache s' = toolsCache s /\ pool s' = pool s
  /\ registeredTools s' = registeredTools s /\ clock_reads s' = clock_reads s
  /\ store_calls s' = store_calls s /\ store_statements s' = store_statements s
  /\ dbInitialized s' = dbInitialized s /\ snapshot_id s' = snapshot_id s
  /\ written s' = written s /\ fetch_calls s' = fetch_calls s.

(** The process once [executeApiTool] has sent [request] for the descriptor
    [object], whose [apiConfig] was [config]. *)
Definition after_request (object : ObjectId) (config : ApiConfig) (request : HttpRequest)
    (s : Process) : Process :=
  tick_fetch (if writes_header config request then mark_written object s else s).

(** *** The states a refresh leads to *)

(** The process once [getPool] has run with the database enabled. *)
Definition with_pool (w : World) (s : Process) : Process :=
  match pool s with
  | Some _ => s
  | None => set_pool (Some (new_pool w)) s
  end.

(** The cache object a load installs. *)
Definition refreshed (w : World) (s : Process) (tools : list CustomTool) : ToolsCache :=
  {| tools := tools; timestamp := Date_now w (clock_reads s); registered := ∅ |}.

(** *** Registration, step by step *)

(** The entry [registerCustomTools] hands to [server.tool] for a custom tool,
    the descriptor object [object]. *)
Definition custom_entry (object : ObjectId) (tool : CustomTool) : RegisteredTool :=
  {| reg_description :=
       if truthy_string (tool_description tool)
       then default "" (tool_description tool)
       else "Custom tool: " ++ tool_name tool;
     reg_params :=
       spread (buildZodSchema (inputSchema tool)) (buildZodSchema (querySchema tool));
     reg_callback := custom_handler tool;
     reg_object := Some object |}.

Definition registered_line (tool : CustomTool) : LogLevel * string :=
  (level_log, "✅ Registered custom tool: " ++ tool_name tool
              ++ " (" ++ custom_type_label (customType tool) ++ ")").

Definition failed_line (tool : CustomTool) : LogLevel * string :=
  (level_error, "❌ Failed to register custom tool " ++ tool_name tool ++ ":").

Definition loaded_line (w : World) (tools : list CustomTool) : LogLevel * string :=
  (level_log, "🛠️ Loaded "
              ++ String_ w (JsNumber (inject_Z (Z.of_nat (length tools))))
              ++ " custom tools into MCP server").

(** The server's table with [name] bound to [entry]. *)
Definition bind_tool (name : string) (entry : RegisteredTool) (s : Process) : Process :=
  set_registeredTools (<[name := entry]> (registeredTools s)) s.

(** The process after one round of the loop of [registerCustomTools]. *)
Definition register_step (w : World) (forceReload : bool) (snapshot : nat) (s : Process)
    (entry : nat * CustomTool) : Process :=
  snd (register_one w forceReload snapshot entry s).

(** A step of the process that leaves every name of the server's table bound
    to the entry it had. *)
Definition keeps_registrations (f : Process -> Process) : Prop :=
  forall s name entry,
    registeredTools s !! name = Some entry -> registeredTools (f s) !! name = Some entry.

(** [tool.name === name] *)
Definition named (name : string) (tool : CustomTool) : bool :=
  String.eqb (tool_name tool) name.

(** *** A stored tool that bears the name of a builtin *)

Definition shadow_row : Row :=
  {| row_name := "url_validator"; row_description := Some "shadow";
     row_custom_type := Some normal; row_input_schema := None; row_query_schema := None;
     row_api_config := None; row_custom_logic := Some "return 'pong'" |}.

(** The database holds [shadow_row] from the start. *)
Definition shadow_world (policy : DuplicatePolicy) : World :=
  sample_world (Some "true") database_url policy (fun _ => Normal [shadow_row]).

(** The database is empty at the first query and holds [shadow_row] after. *)
Definition late_shadow_world (policy : DuplicatePolicy) : World :=
  sample_world (Some "true") database_url policy
    (fun k => match k with O => Normal [] | _ => Normal [shadow_row] end).

(** *** The router, rule by rule *)

(** The test an argument has to pass to be routed at all:
    [value !== undefined && value !== '' && isValidParamValue(value)]. *)
Definition routable (value : JsValue) : bool :=
  negb (is_undefined value) && negb (is_empty_string value) && isValidParamValue value.

Inductive Bucket : Type := to_query | to_body.

(** The three rules, first match wins: declared in [querySchema], declared
    in [inputSchema], else by method. *)
Definition bucket_of (tool : CustomTool) (method : HttpMethod) (key : string) : Bucket :=
  if includes (schema_keys (querySchema tool)) key then to_query
  else if includes (schema_keys (inputSchema tool)) key then to_body
  else if is_GET method then to_query
  else to_body.

Definition goes_to_query (tool : CustomTool) (method : HttpMethod)
    (entry : string * JsValue) : bool :=
  routable (snd entry)
  && match bucket_of tool method (fst entry) with to_query => true | to_body => false end.

Definition goes_to_body (tool : CustomTool) (method : HttpMethod)
    (entry : string * JsValue) : bool :=
  routable (snd entry)
  && match bucket_of tool method (fst entry) with to_body => true | to_query => false end.

(** The assignment [bucket[key] = value] stores the argument unless its key is
    [__proto__]: the buckets start empty and never have a property of that
    name. *)
Definition storable (key : string) : bool := negb (String.eqb key "__proto__").

(** The arguments that end up in each bucket. *)
Definition lands_in_query (tool : CustomTool) (method : HttpMethod)
    (entry : string * JsValue) : bool :=
  goes_to_query tool method entry && storable (fst entry).

Definition lands_in_body (tool : CustomTool) (method : HttpMethod)
    (entry : string * JsValue) : bool :=
  goes_to_body tool method entry && storable (fst entry).

(** *** Reading the bounds of a numeric parameter *)

(** [v] respects the declared [minimum] and [maximum], bounds included. *)
Definition within_bounds (param : ParameterSchema) (v : Q) : Prop :=
  (forall a, param_minimum param = Some a -> (a <= v)%Q)
  /\ (forall b, param_maximum param = Some b -> (v <= b)%Q).

(** A number between 1 and 10, and an integer between 1 and 10. *)
Definition bounded_param (type : string) : ParameterSchema :=
  {| param_type := type; param_description := Some "a count"; param_enum := None;
     param_minimum := Some (1 # 1); param_maximum := Some (10 # 1);
     param_default := None |}.

(** A schema with a required [count] and a free [label]. *)
Definition count_schema : ToolSchema :=
  {| schema_properties :=
       Some [("count", bounded_param "integer");
             ("label", {| param_type := "string"; param_description := None;
                          param_enum := None; param_minimum := None;
                          param_maximum := None; param_default := None |})];
     schema_required := Some ["count"] |}.

(** The validator [buildZodSchema] stores for one declared parameter. *)
Definition compiled_property (ts : ToolSchema) (key : string) (param : ParameterSchema)
    : Zod.ZodType :=
  if includes (default [] (schema_required ts)) key
  then parameterToZodSchema param
  else Zod.optional_ (parameterToZodSchema param).

Definition is_failure (r : Zod.ParseResult) : Prop :=
  exists issues, r = Zod.failure issues.

(** *** Worlds and processes for the registry examples *)

Definition ping_row : Row :=
  {| row_name := "ping"; row_description := None; row_custom_type := Some normal;
     row_input_schema := None; row_query_schema := None; row_api_config := None;
     row_custom_logic := Some "return 'pong'" |}.

(** The database is selected and reachable, and holds the tool [ping]. *)
Definition ping_world : World :=
  sample_world (Some "true") database_url reject_duplicate (fun _ => Normal [ping_row]).

(** The process right after a first initialization in [ping_world]. *)
Definition started_process : Process := snd (initializeServer ping_world initial_process).

(** The same process seen by a server object created afterwards: the module
    state is shared, the table of tools starts empty. *)
Definition new_server (s : Process) : Process := set_registeredTools ∅ s.

(** The tool a custom callback ends up running: the snapshot's tool of that
    name if there is one, else the tool the callback was registered with. *)
Definition current_definition (tool : CustomTool) (snapshot : list CustomTool)
    : CustomTool :=
  default tool (find (fun t => String.eqb (tool_name t) (tool_name tool)) snapshot).

(** The dispatch of the callback on [currentTool.customType], [tool] being
    the descriptor object [object]. *)
Definition run_tool (w : World) (object : ObjectId) (tool : CustomTool)
    (params : list (string * JsValue)) : M (option JsValue) :=
  match customType tool with
  | Some api => result ← executeApiTool w object tool params; mret (Some result)
  | _ => executeCustomLogic w tool params
  end.

(** The text [refresh_custom_tools] answers with for a snapshot. *)
Definition refresh_report (w : World) (current : list CustomTool) : string :=
  "🔄 Custom tools cache refreshed successfully!" ++ newline
  ++ "📊 Currently loaded: "
  ++ String_ w (JsNumber (inject_Z (Z.of_nat (length current))))
  ++ " custom tools" ++ newline ++ newline
  ++ (if (0 <? length current)%nat
      then join newline
             (map (fun t => "• " ++ tool_name t ++ " ("
                            ++ match customType t with
                               | Some api => "api"
                               | _ => "normal"
                               end ++ ")")
                  current)
      else "No custom tools found.").

(** *** Reading envelopes and requests *)

(** An object with a [content] array: the shape of every tool result. *)
Definition is_envelope (result : JsValue) : Prop :=
  exists fields, result = JsObject fields /\ has_content_array fields = true.

(** The text of the result built for a response that is not [ok]. *)
Definition api_error_text (w : World) (response : HttpResponse) : string :=
  "API Error " ++ resp_status response ++ ": " ++ resp_statusText response ++ newline
  ++ match JSON_parse w (resp_text response) with
     | Some (JsString text) => text
     | Some other => JSON_stringify_pretty w other
     | None => resp_text response
     end.

(** The query string built from the query bucket. *)
Definition query_string (w : World) (queryParams : list (string * JsValue)) : string :=
  match queryParams with
  | [] => ""
  | _ => "?" ++ URLSearchParams_toString w
                  (map (fun entry => (fst entry, String_ w (snd entry))) queryParams)
  end.

(** A GET tool that declares [b] as a body parameter and [a] as a query
    parameter. *)
Definition get_config : ApiConfig :=
  {| api_url := "https://example.test/items?stale=1"; api_method := GET;
     api_headers := None |}.

Definition get_tool : CustomTool :=
  {| tool_name := "get_demo"; tool_description := None;
     inputSchema := Some (schema_of ["b"]); querySchema := Some (schema_of ["a"]);
     isCustom := Some true; customType := Some api; apiConfig := Some get_config;
     customLogic := None |}.

(** A world in which every request is answered [503 Service Unavailable]. *)
Definition unavailable_world : World :=
  {| env_USEDB := None; env_DATABASE_URL := None; env_NODE_ENV := None;
     Date_now := fun k => 1700000000000 + Z.of_nat k;
     store_select := fun _ => Normal [];
     store_execute := fun _ => Normal tt;
     on_duplicate := reject_duplicate;
     run_function := sample_engine;
     fetch := fun _ _ => Normal {| resp_ok := false; resp_status := "503";
                                   resp_statusText := "Service Unavailable";
                                   resp_text := "down" |};
     JSON_stringify := fun _ => "{...}";
     JSON_stringify_pretty := fun _ => "{ ... }";
     JSON_parse := fun _ => None;
     String_ := fun _ => "value";
     URLSearchParams_toString := fun _ => "query";
     TypeError_message := sample_TypeError_message |}.

(** ** database.ts: the statements that write, and api/tools/route.ts

    The handlers of the tools API work on what [request.json()] gives: the
    value of whatever JSON text the client sent.  Nothing checks it against
    the [Tool] interface, so the tool of a request is a [JsValue]. *)

(** [value.key] on a value that is neither [null] nor [undefined], for the
    keys the handlers and database.ts read ([name], [oldName], [tool],
    [description], [customType], ...).  None of them names a property of a
    prototype: the result is the own property of an object, and [undefined]
    for an object without it, an array or a primitive value. *)
Definition member_of (key : string) (value : JsValue) : JsValue :=
  match value with
  | JsObject fields => default JsUndefined (get_prop key fields)
  | _ => JsUndefined
  end.

Definition nullish (value : JsValue) : bool :=
  match value with
  | JsUndefined | JsNull => true
  | _ => false
  end.

(** [value.key]: reading a property of [null] or [undefined] throws. *)
Definition member (w : World) (key : string) (value : JsValue) : M JsValue :=
  if nullish value
  then throw (ErrorInstance (TypeError_message w (reads_property_of value key)))
  else mret (member_of key value).

(** [const { key } = value]: destructuring [null] or [undefined] throws. *)
Definition destructured (w : World) (key : string) (value : JsValue) : M JsValue :=
  if nullish value
  then throw (ErrorInstance (TypeError_message w (destructures value)))
  else mret (member_of key value).

(** [!value?.trim()]: [true] for [null] and [undefined], which [?.] stops
    at, and for a string of white space; a [TypeError] for every other value
    that is not a string, as it has no method [trim]. *)
Definition is_blank (w : World) (value : JsValue) : M bool :=
  match value with
  | JsUndefined | JsNull => mret true
  | JsString text => mret (blank text)
  | _ => throw (ErrorInstance (TypeError_message w (calls_trim_of value)))
  end.

(** [value || other] *)
Definition or_else (value other : JsValue) : JsValue :=
  if js_truthy value then value else other.

(** [value ? JSON.stringify(value) : null] *)
Definition json_or_null (w : World) (value : JsValue) : JsValue :=
  if js_truthy value then JsString (JSON_stringify w value) else JsNull.

(** The values [saveToolToDatabase] and [updateToolInDatabase] bind to their
    statement: [tool.name], [tool.description || null],
    [tool.customType || 'normal'], the three JSON columns and
    [tool.customLogic || null]. *)
Record SavedValues : Type := {
  saved_name : JsValue;
  saved_description : JsValue;
  saved_custom_type : JsValue;
  saved_input_schema : JsValue;
  saved_query_schema : JsValue;
  saved_api_config : JsValue;
  saved_custom_logic : JsValue
}.

(** The values bound for a tool that is neither [null] nor [undefined]. *)
Definition saved_values (w : World) (tool : JsValue) : SavedValues :=
  {| saved_name := member_of "name" tool;
     saved_description := or_else (member_of "description" tool) JsNull;
     saved_custom_type := or_else (member_of "customType" tool) (JsString "normal");
     saved_input_schema := json_or_null w (member_of "inputSchema" tool);
     saved_query_schema := json_or_null w (member_of "querySchema" tool);
     saved_api_config := json_or_null w (member_of "apiConfig" tool);
     saved_custom_logic := or_else (member_of "customLogic" tool) JsNull |}.

(** The array of values, as the call to [client.query] evaluates it: the
    first element reads [tool.name]. *)
Definition bound_values (w : World) (tool : JsValue) : M SavedValues :=
  _ ← member w "name" tool;
  mret (saved_values w tool).

Inductive Statement : Type :=
| insert_or_update (values : SavedValues)          (* INSERT ... ON CONFLICT (name) DO UPDATE *)
| delete_by_name (name : string)                   (* DELETE ... WHERE name = $1 *)
| update_by_name (values : SavedValues) (oldName : JsValue).  (* UPDATE ... WHERE name = $8 *)

(** The database as the writing statements see it: the k-th statement sent
    by the process resolves or rejects as [db k statement]. *)
Definition WriteOracle : Type := nat -> Statement -> Completion unit.

(** [client.query(statement, values)] for a statement that writes. *)
Definition client_write (db : WriteOracle) (statement : Statement) : M unit :=
  k ← gets store_statements;
  modify tick_statements;;
  match db k statement with
  | Normal _ => mret tt
  | Throw e => throw e
  end.

(** The common shape of the three writing functions of database.ts; the
    values of the statement are computed inside the [try]. *)
Definition database_write (w : World) (db : WriteOracle) (statement : M Statement)
    (failure : string) : M unit :=
  if negb (isDatabaseEnabled w) then throw (ErrorInstance "Database is not enabled")
  else
    _ ← getPool w;
    try_catch (st ← statement; client_write db st)
      (fun error => console_error failure;; throw error).

Definition saveToolToDatabase (w : World) (db : WriteOracle) (tool : JsValue) : M unit :=
  database_write w db (values ← bound_values w tool; mret (insert_or_update values))
    "Error saving tool to database:".

Definition deleteToolFromDatabase (w : World) (db : WriteOracle) (toolName : string)
    : M unit :=
  database_write w db (mret (delete_by_name toolName))
    "Error deleting tool from database:".

Definition updateToolInDatabase (w : World) (db : WriteOracle) (oldName : JsValue)
    (tool : JsValue) : M unit :=
  database_write w db
    (values ← bound_values w tool; mret (update_by_name values oldName))
    "Error updating tool in database:".

(** The JSON replies of the writing handlers: [{ message, tool?, source }],
    [{ error }] with status 400, [{ error, details }] with status 500. *)
Inductive WriteReply : Type :=
| reply_done (message : string) (tool : option JsValue) (source : string)
| reply_rejected (status : Z) (error : string)
| reply_failed (status : Z) (error details : string).

(** The body of a handler, with its [catch]. *)
Definition handled (failure_log failure_reply : string) (body : M WriteReply)
    : M WriteReply :=
  try_catch body
    (fun error =>
       console_error failure_log;;
       mret (reply_failed 500 failure_reply (message_or_unknown error))).

(** [POST /api/tools].  [body] is what [request.json()] gives: a value, or
    the exception raised for a text that is not JSON. *)
Definition tools_POST (w : World) (db : WriteOracle) (body : Completion JsValue)
    : M WriteReply :=
  handled "Error saving tool:" "Failed to save tool"
    (tool ← await body;
     name ← member w "name" tool;
     nameless ← is_blank w name;
     if (nameless : bool) then mret (reply_rejected 400 "Tool name is required")
     else if isDatabaseEnabled w then
       ensureDbInitialized w;;
       saveToolToDatabase w db tool;;
       mret (reply_done "Tool saved successfully" (Some tool) "database")
     else mret (reply_done "Tool received (localStorage mode)" (Some tool) "localStorage")).

(** [PUT /api/tools], with a body [{ oldName, tool }].  The test is
    [!oldName?.trim() || !tool.name?.trim()]: [tool.name] is read only when
    [oldName] passes. *)
Definition tools_PUT (w : World) (db : WriteOracle) (body : Completion JsValue)
    : M WriteReply :=
  handled "Error updating tool:" "Failed to update tool"
    (request ← await body;
     oldName ← destructured w "oldName" request;
     tool ← destructured w "tool" request;
     unnamed ← is_blank w oldName;
     nameless ← (if (unnamed : bool) then mret true
                 else name ← member w "name" tool; is_blank w name);
     if (nameless : bool)
     then mret (reply_rejected 400 "Old name and new tool name are required")
     else if isDatabaseEnabled w then
       ensureDbInitialized w;;
       updateToolInDatabase w db oldName tool;;
       mret (reply_done "Tool updated successfully" (Some tool) "database")
     else mret (reply_done "Tool update received (localStorage mode)" (Some tool)
                  "localStorage")).

(** [DELETE /api/tools?name=...]; [toolName] is [searchParams.get('name')]. *)
Definition tools_DELETE (w : World) (db : WriteOracle) (toolName : option string)
    : M WriteReply :=
  handled "Error deleting tool:" "Failed to delete tool"
    (if match toolName with Some name => blank name | None => true end
     then mret (reply_rejected 400 "Tool name is required")
     else if isDatabaseEnabled w then
       ensureDbInitialized w;;
       deleteToolFromDatabase w db (default "" toolName);;
       mret (reply_done "Tool deleted successfully" None "database")
     else mret (reply_done "Tool deletion received (localStorage mode)" None
                  "localStorage")).

(** A database that accepts every statement, and one that refuses them. *)
Definition accepting_db : WriteOracle := fun _ _ => Normal tt.
Definition refusing_db : WriteOracle := fun _ _ => Throw (ErrorInstance "disk full").

(** The body of a request that stores a script tool. *)
Definition tool_body (name source : string) : JsValue :=
  JsObject [("name", JsString name); ("customType", JsString "normal");
            ("customLogic", JsString source)].

(** A value counts as no name when [!value?.trim()] holds of it. *)
Definition no_name (value : JsValue) : Prop :=
  value = JsUndefined \/ value = JsNull
  \/ exists text, value = JsString text /\ blank text = true.

(** A value is a name when it is a string with more than white space. *)
Definition is_name (value : JsValue) : Prop :=
  exists text, value = JsString text /\ blank text = false.

(** A value has no method [trim]: it is a number, a boolean, an array or an
    object. *)
Definition cannot_trim (value : JsValue) : Prop :=
  nullish value = false /\ forall text, value <> JsString text.

(** ** utils/toolStorage.ts: the tools kept in the browser

    [localStorage] holds, under the key [customTools], the JSON text of an
    array of tools.  The entry is modelled by what it decodes to: nothing
    (no entry, or the empty text), an array of tools, or a text that
    [JSON.parse] refuses.  [accepts tools] tells whether [setItem] goes
    through for the text of [tools] (a browser may refuse it, for lack of
    room). *)

Inductive StoredEntry : Type :=
| entry_absent
| entry_tools (tools : list CustomTool)
| entry_corrupt.

Record Browser : Type := {
  customTools_entry : StoredEntry;
  browser_console : list string
}.

Definition browser_log (line : string) (b : Browser) : Browser :=
  {| customTools_entry := customTools_entry b;
     browser_console := browser_console b ++ [line] |}.

Definition loadFromLocalStorage (b : Browser) : list CustomTool * Browser :=
  match customTools_entry b with
  | entry_absent => ([], b)
  | entry_tools tools => (tools, b)
  | entry_corrupt => ([], browser_log "Error loading tools from localStorage:" b)
  end.

Definition saveToLocalStorage (accepts : list CustomTool -> bool)
    (tools : list CustomTool) (b : Browser) : Browser :=
  if accepts tools
  then {| customTools_entry := entry_tools tools; browser_console := browser_console b |}
  else browser_log "Error saving tools to localStorage:" b.

Definition getCustomTools (b : Browser) : list CustomTool * Browser :=
  loadFromLocalStorage b.

(** [{ ...tool, isCustom: true }] *)
Definition as_custom (tool : CustomTool) : CustomTool :=
  {| tool_name := tool_name tool; tool_description := tool_description tool;
     inputSchema := inputSchema tool; querySchema := querySchema tool;
     isCustom := Some true; customType := customType tool;
     apiConfig := apiConfig tool; customLogic := customLogic tool |}.

Definition addCustomTool (accepts : list CustomTool -> bool) (tool : CustomTool)
    (b : Browser) : Browser :=
  let '(tools, b) := loadFromLocalStorage b in
  saveToLocalStorage accepts (tools ++ [as_custom tool]) b.

(** [tools.findIndex(t => t.name === name)], [None] for [-1]. *)
Fixpoint findIndex (name : string) (tools : list CustomTool) : option nat :=
  match tools with
  | [] => None
  | t :: rest =>
      if String.eqb (tool_name t) name then Some O
      else S <$> findIndex name rest
  end.

Definition updateCustomTool (accepts : list CustomTool -> bool) (oldName : string)
    (tool : CustomTool) (b : Browser) : Browser :=
  let '(tools, b) := loadFromLocalStorage b in
  match findIndex oldName tools with
  | Some index => saveToLocalStorage accepts (<[index := as_custom tool]> tools) b
  | None => b
  end.

Definition deleteCustomTool (accepts : list CustomTool -> bool) (toolName : string)
    (b : Browser) : Browser :=
  let '(tools, b) := loadFromLocalStorage b in
  saveToLocalStorage accepts
    (List.filter (fun t => negb (String.eqb (tool_name t) toolName)) tools) b.

(** A browser that stores anything, and a browser with two tools in store. *)
Definition roomy : list CustomTool -> bool := fun _ => true.

Definition two_tools_browser : Browser :=
  {| customTools_entry :=
       entry_tools [as_custom (script_tool "ping" "return 'pong'");
                    as_custom (script_tool "echo" "return params.text")];
     browser_console := [] |}.

(** ** The parameter builder of the tool editor

    The component keeps the schema under edition as [{ properties, required }]
    and a small form; [addParameter] and [removeParameter] compute the next
    schema. *)

Record FormSchema : Type := {
  form_properties : list (string * ParameterSchema);
  form_required : list string
}.

Record ParameterForm : Type := {
  paramName : string;
  paramType : string;
  paramDescription : string;
  paramRequired : bool;
  enumValues : string
}.

(** The schema of one parameter, as the form describes it. *)
Definition form_parameter (form : ParameterForm) : ParameterSchema :=
  {| param_type := paramType form;
     param_description :=
       if String.eqb (paramDescription form) "" then None
       else Some (paramDescription form);
     param_enum :=
       if String.eqb (paramType form) "string"
          && negb (String.eqb (trim (enumValues form)) "")
       then Some (List.filter (fun v => negb (String.eqb v ""))
                    (map trim (split_commas (enumValues form))))
       else None;
     param_minimum := None; param_maximum := None; param_default := None |}.

Definition addParameter (form : ParameterForm) (inputSchema : FormSchema) : FormSchema :=
  if String.eqb (trim (paramName form)) "" then inputSchema
  else
    {| form_properties :=
         assign (paramName form) (form_parameter form) (form_properties inputSchema);
       form_required :=
         if paramRequired form && negb (includes (form_required inputSchema) (paramName form))
         then (form_required inputSchema ++ [paramName form])%list
         else form_required inputSchema |}.

Definition removeParameter (name : string) (inputSchema : FormSchema) : FormSchema :=
  {| form_properties := delete_prop name (form_properties inputSchema);
     form_required :=
       List.filter (fun n => negb (String.eqb n name)) (form_required inputSchema) |}.

(** Every required name is a declared parameter, and no name is declared or
    required twice. *)
Definition well_formed (schema : FormSchema) : Prop :=
  (forall name, In name (form_required schema) ->
                In name (Object_keys (form_properties schema)))
  /\ NoDup (Object_keys (form_properties schema))
  /\ NoDup (form_required schema).

Definition empty_form_schema : FormSchema :=
  {| form_properties := []; form_required := [] |}.

Definition color_form : ParameterForm :=
  {| paramName := "color"; paramType := "string"; paramDescription := "";
     paramRequired := true; enumValues := " red, green ,,blue " |}.

(** A required parameter named [__proto__]. *)
Definition proto_form : ParameterForm :=
  {| paramName := "__proto__"; paramType := "string"; paramDescription := "";
     paramRequired := true; enumValues := "" |}.

(** ** route.ts: the generators among the builtin tools

    [Math.random()] is read from a sequence: its k-th call returns
    [random k], a rational; the engine promises a value from 0 (included) to
    1 (excluded). *)

Definition in_unit_interval (random : nat -> Q) : Prop :=
  forall k, (0 <= random k)%Q /\ (random k < 1)%Q.

(** [Math.floor(Math.random() * n)] at the k-th call. *)
Definition random_below (random : nat -> Q) (k : nat) (n : Z) : Z :=
  Qfloor (random k * inject_Z n).

(** *** [generate_password] *)

Definition password_charset (includeNumbers includeSymbols includeUppercase
    includeLowercase : bool) : string :=
  (if includeLowercase then "abcdefghijklmnopqrstuvwxyz" else "")
  ++ (if includeUppercase then "ABCDEFGHIJKLMNOPQRSTUVWXYZ" else "")
  ++ (if includeNumbers then "0123456789" else "")
  ++ (if includeSymbols then "!@#$%^&*()_+-=[]{}|;:,.<>?" else "").

(** [charset.charAt(index)]: the empty string outside the string. *)
Definition charAt (text : string) (index : Z) : string :=
  if (index <? 0)%Z then ""
  else match String.get (Z.to_nat index) text with
       | Some c => String c EmptyString
       | None => ""
       end.

(** The loop [for (let i = 0; i < length; i++) password += ...], with [rounds]
    rounds left and [k] calls to [Math.random] made so far. *)
Fixpoint password_loop (random : nat -> Q) (charset : string) (rounds k : nat)
    (password : string) : string :=
  match rounds with
  | O => password
  | S rounds =>
      password_loop random charset rounds (S k)
        (password
         ++ charAt charset (random_below random k (Z.of_nat (String.length charset))))
  end.

(** The callback of [generate_password]; [length] is the integer the schema
    let through. *)
Definition generate_password (random : nat -> Q) (length : Z)
    (includeNumbers includeSymbols includeUppercase includeLowercase : bool) : JsValue :=
  let charset :=
    password_charset includeNumbers includeSymbols includeUppercase includeLowercase in
  if String.eqb charset ""
  then text_result "❌ Error: At least one character type must be selected"
  else text_result
         ("🔐 Generated password: "
          ++ password_loop random charset (Z.to_nat length) 0 "").

(** *** [generate_uuid] *)

(** [v.toString(16)] for a value from 0 to 15. *)
Definition hex_digit (v : Z) : ascii :=
  match v with
  | 0 => "0" | 1 => "1" | 2 => "2" | 3 => "3" | 4 => "4" | 5 => "5" | 6 => "6"
  | 7 => "7" | 8 => "8" | 9 => "9" | 10 => "a" | 11 => "b" | 12 => "c" | 13 => "d"
  | 14 => "e" | _ => "f"
  end%char.

(** The replacement of the template, character by character: every [x] and
    [y] draws [r = Math.random() * 16 | 0] and becomes the digit of [r], or
    of [r & 0x3 | 0x8]; the other characters stay. *)
Fixpoint fill_template (random : nat -> Q) (template : string) (k : nat) : string :=
  match template with
  | EmptyString => EmptyString
  | String c rest =>
      if Ascii.eqb c "x"%char then
        String (hex_digit (random_below random k 16)) (fill_template random rest (S k))
      else if Ascii.eqb c "y"%char then
        String (hex_digit (Z.lor (Z.land (random_below random k 16) 3) 8))
               (fill_template random rest (S k))
      else String c (fill_template random rest k)
  end.

Definition uuid_template : string := "xxxxxxxx-xxxx-4xxx-yxxx-xxxxxxxxxxxx".

(** The uuid generated when [k] calls to [Math.random] were made before. *)
Definition uuid_from (random : nat -> Q) (k : nat) : string :=
  fill_template random uuid_template k.

(** The uuids of one call: each takes 31 draws. *)
Fixpoint uuids_loop (random : nat -> Q) (rounds k : nat) : list string :=
  match rounds with
  | O => []
  | S rounds => uuid_from random k :: uuids_loop random rounds (k + 31)
  end.

Definition generate_uuid (random : nat -> Q) (count : Z) : JsValue :=
  text_result
    ("🆔 Generated UUID" ++ (if (1 <? count)%Z then "s" else "") ++ ": "
     ++ join newline (uuids_loop random (Z.to_nat count) 0)).

(** A character fits its place in the template: a hexadecimal digit for [x],
    one of [8 9 a b] for [y], the template's own character elsewhere. *)
Definition is_hex (c : ascii) : bool :=
  existsb (Ascii.eqb c) (list_ascii_of_string "0123456789abcdef").

Definition fits (template_char c : ascii) : bool :=
  if Ascii.eqb template_char "x"%char then is_hex c
  else if Ascii.eqb template_char "y"%char
       then existsb (Ascii.eqb c) (list_ascii_of_string "89ab")
       else Ascii.eqb c template_char.

Fixpoint matches_template (template text : string) : bool :=
  match template, text with
  | EmptyString, EmptyString => true
  | String t template, String c text => fits t c && matches_template template text
  | _, _ => false
  end.

(** A source of numbers that alternates between 0 and values close to 1. *)
Definition sample_random (k : nat) : Q :=
  if Nat.even k then 0 else (999 # 1000).

(** ** route.ts: the builtin [json_formatter]

    Besides the [JSON] functions of the world, the callback depends on the
    message of the [SyntaxError] that [JSON.parse] throws for a text, on the
    message of the [TypeError] that [Object.keys] throws for [null], and on
    the length of a string in UTF-16 code units. *)

Record JsonHost : Type := {
  syntax_error_message : string -> string;
  null_keys_message : string;
  utf16_length : string -> nat
}.

(** [Object.keys(value).length], or the exception [Object.keys] throws. *)
Definition keys_count (host : JsonHost) (value : JsValue) : Completion nat :=
  match value with
  | JsUndefined | JsNull => Throw (ErrorInstance (null_keys_message host))
  | JsBoolean _ | JsNumber _ => Normal 0%nat
  | JsString text => Normal (utf16_length host text)
  | JsArray items => Normal (length items)
  | JsObject fields => Normal (length fields)
  end.

Definition invalid_json (message : string) : JsValue :=
  text_result ("❌ Invalid JSON: " ++ message).

Definition json_formatter (w : World) (host : JsonHost) (json action : string) : JsValue :=
  match JSON_parse w json with
  | None => invalid_json (syntax_error_message host json)
  | Some parsed =>
      if String.eqb action "format" then
        text_result ("✅ Valid JSON (Formatted):" ++ newline
                     ++ JSON_stringify_pretty w parsed)
      else if String.eqb action "minify" then
        text_result ("✅ Valid JSON (Minified):" ++ newline ++ JSON_stringify w parsed)
      else if String.eqb action "validate" then
        match keys_count host parsed with
        | Normal count =>
            text_result ("✅ JSON is valid!" ++ newline ++ "📊 Object has "
                         ++ String_ w (JsNumber (inject_Z (Z.of_nat count)))
                         ++ " top-level properties")
        | Throw error => invalid_json (message_or_unknown error)
        end
      else
        text_result ("✅ Valid JSON:" ++ newline ++ JSON_stringify_pretty w parsed)
  end.

(** A world whose [JSON.parse] knows the texts [null] and [{}]. *)
Definition json_world : World :=
  {| env_USEDB := None; env_DATABASE_URL := None; env_NODE_ENV := None;
     Date_now := fun k => 1700000000000 + Z.of_nat k;
     store_select := fun _ => Normal [];
     store_execute := fun _ => Normal tt;
     on_duplicate := reject_duplicate;
     run_function := sample_engine;
     fetch := fun _ _ => Throw (ErrorInstance "offline");
     JSON_stringify := fun _ => "{...}";
     JSON_stringify_pretty := fun _ => "{ ... }";
     JSON_parse := fun text =>
                     if String.eqb text "null" then Some JsNull
                     else if String.eqb text "{}" then Some (JsObject [])
                     else None;
     String_ := fun _ => "0";
     URLSearchParams_toString := fun _ => "query";
     TypeError_message := sample_TypeError_message |}.

Definition json_host : JsonHost :=
  {| syntax_error_message := fun _ => "Unexpected token";
     null_keys_message := "Cannot convert undefined or null to object";
     utf16_length := String.length |}.

(** * Properties *)

(** ** Property lists *)

Lemma includes_In (keys : list string) (key : string) :
  includes keys key = true <-> In key keys.
Proof.
  unfold includes. rewrite existsb_exists. split.
  - intros (x & Hin & Heq). apply String.eqb_eq in Heq. now subst.
  - intros Hin. exists key. split; [assumption | apply String.eqb_refl].
Qed.

Lemma includes_not_In (keys : list string) (key : string) :
  includes keys key = false <-> ~ In key keys.
Proof.
  rewrite <- includes_In. destruct (includes keys key); split; congruence.
Qed.

(** ** Schema compiler *)

(** A provided value goes through [describe] and [default] untouched. *)
Lemma safeParse_wrappers (param : ParameterSchema) (inner : Zod.ZodType) (v : JsValue) :
  v <> JsUndefined ->
  Zod.safeParse
    (match param_default param with
     | Some d =>
         Zod.default_
           (if truthy_string (param_description param)
            then Zod.describe_ inner (default "" (param_description param))
            else inner) d
     | None =>
         if truthy_string (param_description param)
         then Zod.describe_ inner (default "" (param_description param))
         else inner
     end) v
  = Zod.safeParse inner v.
Proof.
  intros Hv.
  destruct (param_default param), (truthy_string (param_description param));
    cbn; destruct v; try reflexivity; contradiction.
Qed.

Lemma safeParse_enum (values : list string) (v : JsValue) :
  (Zod.safeParse (Zod.enum_ values) v = Zod.success v <-> enum_member values v)
  /\ (forall s, v = JsString s -> ~ In s values ->
      Zod.safeParse (Zod.enum_ values) v = Zod.failure [Zod.issue_enum values v])
  /\ ((forall s, v <> JsString s) ->
      Zod.safeParse (Zod.enum_ values) v
      = Zod.failure [Zod.issue_enum_type values (Zod.getParsedType v)]).
Proof.
  split; [| split].
  - split.
    + destruct v as [| | b | q | s | items | fields]; cbn; try discriminate.
      destruct (includes values s) eqn:E; [| discriminate].
      intros _. exists s. split; [reflexivity | now apply includes_In].
    + intros (s & -> & Hin). cbn. apply includes_In in Hin. now rewrite Hin.
  - intros s -> Hout. cbn. apply includes_not_In in Hout. now rewrite Hout.
  - intros Hno. destruct v as [| | b | q | s | items | fields]; cbn; try reflexivity.
    now destruct (Hno s).
Qed.

(** C7 (amended). For a parameter of type [string] with [enum] set, the
    compiled validator returns a provided value unchanged exactly when it is
    a member of the enumeration (a string equal to a listed one, case
    included).  A string that is not a member is rejected with the
    enumeration's issue; a value that is not a string is rejected as a
    mismatch of type. *)
Theorem enum_validator_accepts_exactly_members
    (param : ParameterSchema) (values : list string) (v : JsValue) :
  param_type param = "string" ->
  param_enum param = Some values ->
  v <> JsUndefined ->
  (Zod.safeParse (parameterToZodSchema param) v = Zod.success v
   <-> enum_member values v)
  /\ (forall s, v = JsString s -> ~ In s values ->
      Zod.safeParse (parameterToZodSchema param) v
      = Zod.failure [Zod.issue_enum values v])
  /\ ((forall s, v <> JsString s) ->
      Zod.safeParse (parameterToZodSchema param) v
      = Zod.failure [Zod.issue_enum_type values (Zod.getParsedType v)]).
Proof.
  intros Ht He Hv. unfold parameterToZodSchema.
  rewrite Ht, He. cbn [String.eqb Ascii.eqb Bool.eqb].
  rewrite (safeParse_wrappers param (Zod.enum_ values) v Hv).
  apply safeParse_enum.
Qed.

Lemma enum_validator_witness :
  Zod.safeParse (parameterToZodSchema color_param) (JsString "green")
  = Zod.success (JsString "green")
  /\ Zod.safeParse (parameterToZodSchema color_param) (JsString "Green")
     = Zod.failure [Zod.issue_enum ["red"; "green"] (JsString "Green")].
Proof.
  destruct (enum_validator_accepts_exactly_members color_param ["red"; "green"]
              (JsString "green") eq_refl eq_refl) as (H1 & _ & _); [discriminate |].
  destruct (enum_validator_accepts_exactly_members color_param ["red"; "green"]
              (JsString "Green") eq_refl eq_refl) as (_ & H2 & _); [discriminate |].
  split.
  - apply H1. exists "green". split; [reflexivity | simpl; tauto].
  - apply (H2 "Green" eq_refl).
    simpl. intros [H | [H | []]]; discriminate.
Defined.

(** C7, as stated, fails for the values that are not strings: the number 3
    is no member of the enumeration, and is rejected as a number where a
    string was expected, not as a value outside the enumeration. *)
Lemma non_string_is_a_type_mismatch :
  param_enum color_param = Some ["red"; "green"]
  /\ Zod.safeParse (parameterToZodSchema color_param) (JsNumber (3 # 1))
     = Zod.failure [Zod.issue_enum_type ["red"; "green"] Zod.pt_number]
  /\ Zod.safeParse (parameterToZodSchema color_param) JsNull
     = Zod.failure [Zod.issue_enum_type ["red"; "green"] Zod.pt_null].
Proof. repeat split. Qed.

Lemma unknown_type_schema (param : ParameterSchema) :
  ~ known_type (param_type param) ->
  parameterToZodSchema param = parameterToZodSchema (as_plain_string param).
Proof.
  intros Hk. unfold parameterToZodSchema, as_plain_string; cbn.
  destruct (String.eqb_spec (param_type param) "string") as [E | _];
    [exfalso; apply Hk; left; exact E |].
  destruct (String.eqb_spec (param_type param) "number") as [E | _];
    [exfalso; apply Hk; right; left; exact E |].
  destruct (String.eqb_spec (param_type param) "integer") as [E | _];
    [exfalso; apply Hk; right; right; left; exact E |].
  destruct (String.eqb_spec (param_type param) "boolean") as [E | _];
    [exfalso; apply Hk; right; right; right; exact E |].
  reflexivity.
Qed.

(** C10. A parameter whose declared type is none of [string], [number],
    [integer], [boolean] still compiles: its validator is the one of a plain
    string parameter with the same description and default ([enum],
    [minimum], [maximum] play no part), and it returns every string
    unchanged. *)
Theorem unknown_type_compiles_to_plain_string (param : ParameterSchema) (s : string) :
  ~ known_type (param_type param) ->
  parameterToZodSchema param = parameterToZodSchema (as_plain_string param)
  /\ Zod.safeParse (parameterToZodSchema param) (JsString s) = Zod.success (JsString s).
Proof.
  intros Hk. split; [now apply unknown_type_schema |].
  rewrite (unknown_type_schema param Hk).
  unfold parameterToZodSchema, as_plain_string; cbn.
  rewrite (safeParse_wrappers _ Zod.string_ (JsString s)); [reflexivity | discriminate].
Qed.

Lemma unknown_type_witness :
  parameterToZodSchema array_param = parameterToZodSchema (as_plain_string array_param)
  /\ Zod.safeParse (parameterToZodSchema array_param) (JsString "y")
     = Zod.success (JsString "y").
Proof.
  apply (unknown_type_compiles_to_plain_string array_param "y").
  intros [H | [H | [H | H]]]; discriminate.
Defined.

(** ** Parameter router *)

Lemma get_prop_None {V} (key : string) (obj : Props V) :
  get_prop key obj = None <-> key ∉ Object_keys obj.
Proof.
  induction obj as [| [k v] rest IH]; cbn.
  - split; [intros _; apply not_elem_of_nil | reflexivity].
  - destruct (String.eqb_spec k key) as [-> | Hne].
    + split; [discriminate | intros H; exfalso; apply H; left].
    + rewrite IH. rewrite not_elem_of_cons.
      split; [intros H; split; [congruence | exact H] | tauto].
Qed.

Lemma get_prop_In {V} (key : string) (value : V) (obj : Props V) :
  NoDup (Object_keys obj) -> (key, value) ∈ obj -> get_prop key obj = Some value.
Proof.
  induction obj as [| [k v] rest IH]; cbn; intros Hnd Hin.
  - now apply elem_of_nil in Hin.
  - apply NoDup_cons in Hnd as [Hk Hnd].
    apply elem_of_cons in Hin as [Heq | Hin].
    + injection Heq as <- <-. now rewrite String.eqb_refl.
    + destruct (String.eqb_spec k key) as [-> | Hne]; [| now apply IH].
      exfalso. apply Hk. change key with (fst (key, value)).
      now apply list_elem_of_fmap_2.
Qed.

(** Assigning a property the object does not have appends it. *)
Lemma set_prop_fresh {V} (key : string) (value : V) (obj : Props V) :
  key ∉ Object_keys obj -> set_prop key value obj = (obj ++ [(key, value)])%list.
Proof.
  induction obj as [| [k v] rest IH]; cbn; intros Hk; [reflexivity |].
  apply not_elem_of_cons in Hk as [Hne Hk].
  destruct (String.eqb_spec k key) as [-> | _]; [congruence |].
  now rewrite IH.
Qed.

Lemma keys_filter_subset {V} (f : string * V -> bool) (obj : Props V) (key : string) :
  key ∈ Object_keys (List.filter f obj) -> key ∈ Object_keys obj.
Proof.
  unfold Object_keys. intros Hin.
  apply list_elem_of_fmap in Hin as (entry & -> & Hin).
  apply list_elem_of_fmap_2.
  apply list_elem_of_In in Hin. apply filter_In in Hin as [Hin _].
  now apply list_elem_of_In.
Qed.

Lemma keys_app {V} (a b : Props V) :
  Object_keys (a ++ b)%list = (Object_keys a ++ Object_keys b)%list.
Proof. apply map_app. Qed.

Lemma get_prop_set_prop_eq {V} (key : string) (value : V) (obj : Props V) :
  get_prop key (set_prop key value obj) = Some value.
Proof.
  induction obj as [| [k v] rest IH]; cbn.
  - now rewrite String.eqb_refl.
  - destruct (String.eqb_spec k key) as [-> | Hne]; cbn.
    + now rewrite String.eqb_refl.
    + destruct (String.eqb_spec k key); [contradiction | exact IH].
Qed.

Lemma get_prop_set_prop_ne {V} (key other : string) (value : V) (obj : Props V) :
  other <> key -> get_prop other (set_prop key value obj) = get_prop other obj.
Proof.
  intros Hne. induction obj as [| [k v] rest IH]; cbn.
  - destruct (String.eqb_spec key other); [congruence | reflexivity].
  - destruct (String.eqb_spec k key) as [-> | Hk]; cbn.
    + destruct (String.eqb_spec key other); [congruence | reflexivity].
    + destruct (String.eqb_spec k other); [reflexivity | exact IH].
Qed.

(** An assignment under a name other than [__proto__] defines the
    property. *)
Lemma assign_ordinary {V} (key : string) (value : V) (obj : Props V) :
  key <> "__proto__" -> assign key value obj = set_prop key value obj.
Proof.
  intros Hne. unfold assign.
  destruct (String.eqb_spec key "__proto__"); [contradiction | reflexivity].
Qed.

(** An assignment under a name the object does not have appends the
    property, or does nothing when the name is [__proto__]. *)
Lemma assign_fresh {V} (key : string) (value : V) (obj : Props V) :
  key ∉ Object_keys obj ->
  assign key value obj = if storable key then (obj ++ [(key, value)])%list else obj.
Proof.
  intros Hk. unfold assign, storable.
  assert (Hinc : includes (Object_keys obj) key = false).
  { apply includes_not_In. intros Hin. apply Hk. now apply list_elem_of_In. }
  rewrite Hinc. cbn [negb]. rewrite andb_true_r.
  destruct (String.eqb key "__proto__"); cbn [negb]; [reflexivity |].
  now apply set_prop_fresh.
Qed.

(** An assignment never creates a property [__proto__]. *)
Lemma assign_keeps_no_proto {V} (key : string) (value : V) (obj : Props V) :
  get_prop "__proto__" obj = None -> get_prop "__proto__" (assign key value obj) = None.
Proof.
  intros Hnone. unfold assign.
  destruct (String.eqb_spec key "__proto__") as [-> | Hne]; cbn [andb].
  - assert (Hinc : includes (Object_keys obj) "__proto__" = false).
    { apply includes_not_In. intros Hin. apply list_elem_of_In in Hin.
      now apply get_prop_None in Hnone. }
    now rewrite Hinc.
  - rewrite get_prop_set_prop_ne; [exact Hnone | congruence].
Qed.

(** One round on a key that neither bucket holds yet. *)
Lemma distribute_step_fresh (tool : CustomTool) (method : HttpMethod)
    (q0 b0 : Props JsValue) (key : string) (value : JsValue) :
  key ∉ Object_keys q0 -> key ∉ Object_keys b0 ->
  distribute_step (schema_keys (querySchema tool)) (schema_keys (inputSchema tool)) method
    (q0, b0) (key, value)
  = ((q0 ++ if lands_in_query tool method (key, value) then [(key, value)] else [])%list,
     (b0 ++ if lands_in_body tool method (key, value) then [(key, value)] else [])%list).
Proof.
  intros Hq Hb.
  unfold distribute_step, lands_in_query, lands_in_body, goes_to_query, goes_to_body,
    bucket_of.
  cbn [fst snd]. fold (routable value).
  destruct (routable value); cbn [andb]; [| now rewrite !app_nil_r].
  destruct (includes (schema_keys (querySchema tool)) key);
    [| destruct (includes (schema_keys (inputSchema tool)) key);
       [| destruct (is_GET method)]];
    rewrite ?(assign_fresh key value q0 Hq), ?(assign_fresh key value b0 Hb);
    destruct (storable key); now rewrite ?app_nil_r.
Qed.

(** The loop, started from buckets that hold none of the keys still to come,
    appends to each bucket the entries that land in it, in order. *)
Lemma distribute_fold (tool : CustomTool) (method : HttpMethod)
    (params q0 b0 : Props JsValue) :
  NoDup (Object_keys params) ->
  (forall key, key ∈ Object_keys params -> (key ∉ Object_keys q0) /\ (key ∉ Object_keys b0)) ->
  fold_left
    (distribute_step (schema_keys (querySchema tool)) (schema_keys (inputSchema tool)) method)
    params (q0, b0)
  = ((q0 ++ List.filter (lands_in_query tool method) params)%list,
     (b0 ++ List.filter (lands_in_body tool method) params)%list).
Proof.
  revert q0 b0.
  induction params as [| [key value] rest IH]; intros q0 b0 Hnd Hfresh.
  - cbn. now rewrite !app_nil_r.
  - change (NoDup (key :: Object_keys rest)) in Hnd.
    apply NoDup_cons in Hnd as [Hkey Hnd].
    destruct (Hfresh key) as [Hq Hb]; [left |].
    cbn [fold_left List.filter].
    rewrite (distribute_step_fresh tool method q0 b0 key value Hq Hb).
    rewrite IH; [| assumption |].
    + destruct (lands_in_query tool method (key, value)),
               (lands_in_body tool method (key, value));
        now rewrite <- ?app_assoc, ?app_nil_r.
    + intros k Hk.
      destruct (Hfresh k) as [Hkq Hkb]; [right; exact Hk |].
      assert (Hne : k <> key) by (intros ->; now apply Hkey).
      split; intros Hin; rewrite keys_app in Hin;
        apply elem_of_app in Hin as [Hin | Hin]; try contradiction;
        (destruct (lands_in_query tool method (key, value)),
                  (lands_in_body tool method (key, value));
         cbn in Hin;
         first [ now apply elem_of_nil in Hin
               | apply list_elem_of_singleton in Hin; contradiction ]).
Qed.

(** The buckets are two filters of the argument list. *)
Lemma distribute_params_filter (tool : CustomTool) (method : HttpMethod)
    (params : Props JsValue) :
  NoDup (Object_keys params) ->
  distribute_params tool method params
  = (List.filter (lands_in_query tool method) params,
     List.filter (lands_in_body tool method) params).
Proof.
  intros Hnd. unfold distribute_params.
  rewrite distribute_fold; [reflexivity | assumption |].
  intros key _. split; apply not_elem_of_nil.
Qed.

Lemma NoDup_keys_filter {V} (f : string * V -> bool) (obj : Props V) :
  NoDup (Object_keys obj) -> NoDup (Object_keys (List.filter f obj)).
Proof.
  induction obj as [| [k v] rest IH]; cbn; intros Hnd; [constructor |].
  apply NoDup_cons in Hnd as [Hk Hnd].
  destruct (f (k, v)); cbn; [| now apply IH].
  apply NoDup_cons. split; [| now apply IH].
  intros Hin. apply Hk. now apply keys_filter_subset in Hin.
Qed.

Lemma get_prop_filter (f : string * JsValue -> bool) (obj : Props JsValue)
    (key : string) (value : JsValue) :
  NoDup (Object_keys obj) -> (key, value) ∈ obj ->
  get_prop key (List.filter f obj) = if f (key, value) then Some value else None.
Proof.
  intros Hnd Hin. destruct (f (key, value)) eqn:E.
  - apply get_prop_In; [now apply NoDup_keys_filter |].
    apply list_elem_of_In, filter_In. split; [now apply list_elem_of_In | exact E].
  - apply get_prop_None. intros Hk.
    unfold Object_keys in Hk. apply list_elem_of_fmap in Hk as ([k v] & Hkey & Hin').
    cbn in Hkey. subst k.
    apply list_elem_of_In, filter_In in Hin' as [Hin' Hf].
    apply list_elem_of_In in Hin'.
    assert (v = value) as ->.
    { pose proof (get_prop_In key v obj Hnd Hin') as H1.
      pose proof (get_prop_In key value obj Hnd Hin) as H2. congruence. }
    congruence.
Qed.

(** No argument named [__proto__] lands in a bucket. *)
Lemma get_prop_no_proto (f : string * JsValue -> bool) (obj : Props JsValue) :
  get_prop "__proto__" (List.filter (fun entry => f entry && storable (fst entry)) obj)
  = None.
Proof.
  induction obj as [| [k v] rest IH]; cbn [List.filter]; [reflexivity |].
  unfold storable at 1. cbn [fst].
  destruct (String.eqb_spec k "__proto__") as [-> | Hne].
  - rewrite andb_false_r. exact IH.
  - destruct (f (k, v)); cbn [andb negb]; [| exact IH].
    cbn [get_prop]. destruct (String.eqb_spec k "__proto__"); [contradiction | exact IH].
Qed.

(** An argument that fails the test leaves both buckets as they are. *)
Lemma distribute_step_unroutable (queryKeys bodyKeys : list string) (method : HttpMethod)
    (buckets : Props JsValue * Props JsValue) (key : string) (value : JsValue) :
  routable value = false ->
  distribute_step queryKeys bodyKeys method buckets (key, value) = buckets.
Proof.
  intros Hr. destruct buckets as [q b]. unfold distribute_step.
  fold (routable value). now rewrite Hr.
Qed.

Lemma unroutable_cases (value : JsValue) :
  is_empty_string value = true \/ isValidParamValue value = false ->
  routable value = false.
Proof.
  unfold routable. intros [H | H]; rewrite H; cbn.
  - now rewrite andb_false_r.
  - now rewrite andb_false_r.
Qed.

Lemma distribute_params_skip (tool : CustomTool) (method : HttpMethod)
    (before after : Props JsValue) (key : string) (value : JsValue) :
  routable value = false ->
  distribute_params tool method (before ++ (key, value) :: after)
  = distribute_params tool method (before ++ after).
Proof.
  intros Hr. unfold distribute_params.
  rewrite !fold_left_app. cbn [fold_left].
  now rewrite distribute_step_unroutable.
Qed.

(** C5 (amended). For an API tool and an argument object, the two buckets are
    the arguments that pass the test (defined, not the empty string, of type
    string, number or boolean) and are named otherwise than [__proto__],
    split by the three rules: declared in [querySchema], else declared in
    [inputSchema], else by method.  Each such argument is in the bucket its
    rule names and not in the other; an argument named [__proto__] is in
    neither. *)
Theorem router_places_routable_arguments
    (tool : CustomTool) (method : HttpMethod) (params : Props JsValue) :
  NoDup (Object_keys params) ->
  distribute_params tool method params
  = (List.filter (lands_in_query tool method) params,
     List.filter (lands_in_body tool method) params)
  /\ (forall key value,
        (key, value) ∈ params -> routable value = true -> key <> "__proto__" ->
        match bucket_of tool method key with
        | to_query =>
            get_prop key (fst (distribute_params tool method params)) = Some value
            /\ get_prop key (snd (distribute_params tool method params)) = None
        | to_body =>
            get_prop key (snd (distribute_params tool method params)) = Some value
            /\ get_prop key (fst (distribute_params tool method params)) = None
        end)
  /\ get_prop "__proto__" (fst (distribute_params tool method params)) = None
  /\ get_prop "__proto__" (snd (distribute_params tool method params)) = None.
Proof.
  intros Hnd. split; [now apply distribute_params_filter |].
  rewrite (distribute_params_filter tool method params Hnd). cbn [fst snd].
  split; [| split].
  - intros key value Hin Hr Hne.
    rewrite !(get_prop_filter _ params key value Hnd Hin).
    unfold lands_in_query, lands_in_body, goes_to_query, goes_to_body, storable.
    cbn [fst snd]. rewrite Hr.
    destruct (String.eqb_spec key "__proto__"); [contradiction |].
    destruct (bucket_of tool method key); cbn; split; reflexivity.
  - apply get_prop_no_proto.
  - apply get_prop_no_proto.
Qed.

Lemma router_example :
  distribute_params router_tool POST router_args
  = ([("a", JsNumber (1 # 1))], [("b", JsNumber (2 # 1)); ("c", JsNumber (3 # 1))]).
Proof.
  assert (Hnd : NoDup (Object_keys router_args)).
  { cbn. repeat (apply NoDup_cons_2 || apply NoDup_nil_2);
      rewrite ?not_elem_of_cons; repeat split; try discriminate; apply not_elem_of_nil. }
  destruct (router_places_routable_arguments router_tool POST router_args Hnd) as [H _].
  exact H.
Defined.

(** C5, as stated, fails: an argument whose value is the empty string, or
    [null], is defined and yet lands in no bucket, declared or not. *)
Lemma router_leaves_out_empty_string :
  is_undefined (JsString "") = false
  /\ is_undefined JsNull = false
  /\ includes (schema_keys (querySchema router_tool)) "a" = true
  /\ distribute_params router_tool POST [("a", JsString ""); ("c", JsNull)] = ([], []).
Proof. repeat split. Qed.

(** So does an argument named [__proto__], whatever its value: of the
    arguments [{"__proto__": 1, "c": 3}], as [JSON.parse] gives them, only
    [c] reaches the body. *)
Example router_leaves_out_proto :
  routable (JsNumber (1 # 1)) = true
  /\ distribute_params router_tool POST
       [("__proto__", JsNumber (1 # 1)); ("c", JsNumber (3 # 1))]
     = ([], [("c", JsNumber (3 # 1))]).
Proof. repeat split. Qed.

(** C9. An argument whose value is the empty string, or is not a string, a
    number or a boolean, is in neither bucket, and the request built for
    [fetch] is the one built without it. *)
Theorem router_drops_unroutable_arguments
    (w : World) (tool : CustomTool) (config : ApiConfig)
    (before after : Props JsValue) (key : string) (value : JsValue) :
  NoDup (Object_keys (before ++ (key, value) :: after)%list) ->
  is_empty_string value = true \/ isValidParamValue value = false ->
  get_prop key
    (fst (distribute_params tool (api_method config) (before ++ (key, value) :: after)))
  = None
  /\ get_prop key
       (snd (distribute_params tool (api_method config) (before ++ (key, value) :: after)))
     = None
  /\ build_request w tool config (before ++ (key, value) :: after)
     = build_request w tool config (before ++ after).
Proof.
  intros Hnd Hv. apply unroutable_cases in Hv.
  assert (Hin : (key, value) ∈ (before ++ (key, value) :: after)%list).
  { apply elem_of_app. right. left. }
  rewrite (distribute_params_filter _ _ _ Hnd). cbn [fst snd].
  rewrite !(get_prop_filter _ _ key value Hnd Hin).
  unfold lands_in_query, lands_in_body, goes_to_query, goes_to_body.
  cbn [fst snd]. rewrite Hv. cbn.
  repeat split.
  unfold build_request.
  now rewrite (distribute_params_skip tool (api_method config) before after key value Hv).
Qed.

Lemma router_drops_witness :
  get_prop "b"
    (fst (distribute_params router_tool POST
            [("a", JsNumber (1 # 1)); ("b", JsObject []); ("c", JsNumber (3 # 1))])) = None
  /\ get_prop "b"
       (snd (distribute_params router_tool POST
               [("a", JsNumber (1 # 1)); ("b", JsObject []); ("c", JsNumber (3 # 1))])) = None
  /\ build_request plain_world router_tool router_config
       [("a", JsNumber (1 # 1)); ("b", JsObject []); ("c", JsNumber (3 # 1))]
     = build_request plain_world router_tool router_config
         [("a", JsNumber (1 # 1)); ("c", JsNumber (3 # 1))].
Proof.
  apply (router_drops_unroutable_arguments plain_world router_tool router_config
           [("a", JsNumber (1 # 1))] [("c", JsNumber (3 # 1))] "b" (JsObject [])).
  - cbn. repeat (apply NoDup_cons_2 || apply NoDup_nil_2);
      rewrite ?not_elem_of_cons; repeat split; try discriminate; apply not_elem_of_nil.
  - right. reflexivity.
Defined.

(** C6 (amended). For a method other than GET and a non-empty [bodyParams],
    the body is the JSON text of [bodyParams] and the request carries
    [Content-Type: application/json] whatever the descriptor declared for
    that header; every other declared header is passed on as it is. *)
Theorem body_request_sets_json_content_type
    (w : World) (tool : CustomTool) (config : ApiConfig) (params : Props JsValue) :
  is_GET (api_method config) = false ->
  snd (distribute_params tool (api_method config) params) <> [] ->
  req_body (build_request w tool config params)
  = Some (JSON_stringify w
            (JsObject (snd (distribute_params tool (api_method config) params))))
  /\ get_prop "Content-Type" (req_headers (build_request w tool config params))
     = Some "application/json"
  /\ forall name, name <> "Content-Type" ->
       get_prop name (req_headers (build_request w tool config params))
       = get_prop name (default [] (api_headers config)).
Proof.
  intros Hm Hb. unfold build_request.
  destruct (distribute_params tool (api_method config) params) as [q b] eqn:E.
  cbn [snd] in *. rewrite Hm. cbn [negb andb].
  destruct b as [| entry b]; [contradiction |]. cbn [Object_keys map length Nat.ltb Nat.leb].
  cbn. split; [reflexivity |]. split.
  - apply get_prop_set_prop_eq.
  - intros name Hne. now apply get_prop_set_prop_ne.
Qed.

Lemma body_request_witness :
  req_body (build_request plain_world router_tool router_config router_args)
  = Some (JSON_stringify plain_world
            (JsObject (snd (distribute_params router_tool POST router_args))))
  /\ get_prop "Content-Type"
       (req_headers (build_request plain_world router_tool router_config router_args))
     = Some "application/json"
  /\ get_prop "X-API-Key"
       (req_headers (build_request plain_world router_tool router_config router_args))
     = Some "k".
Proof.
  destruct (body_request_sets_json_content_type plain_world router_tool router_config
              router_args eq_refl) as (H1 & H2 & H3).
  - discriminate.
  - split; [exact H1 |]. split; [exact H2 |].
    rewrite (H3 "X-API-Key"); [reflexivity | discriminate].
Defined.

(** C6, as stated, fails: a [Content-Type] the descriptor declares does not
    survive a request with a body. *)
Lemma declared_content_type_is_replaced :
  get_prop "Content-Type" (default [] (api_headers router_config)) = Some "text/plain"
  /\ is_GET (api_method router_config) = false
  /\ snd (distribute_params router_tool POST router_args)
     = [("b", JsNumber (2 # 1)); ("c", JsNumber (3 # 1))]
  /\ get_prop "Content-Type"
       (req_headers (build_request plain_world router_tool router_config router_args))
     = Some "application/json".
Proof. repeat split. Qed.

(** ** Registry cache *)

(** Running the monad by hand. *)
Ltac run_M :=
  unfold try_catch, mbind, M_bind, mret, M_ret, gets, modify, throw, await,
    console_error, console_log in *;
  cbn [fst snd] in *.

Lemma isDatabaseEnabled_url (w : World) :
  isDatabaseEnabled w = true -> truthy_string (env_DATABASE_URL w) = true.
Proof. unfold isDatabaseEnabled. intros H. now apply andb_true_iff in H as [_ H]. Qed.

Lemma with_pool_toolsCache (w : World) (s : Process) :
  toolsCache (with_pool w s) = toolsCache s.
Proof. unfold with_pool. now destruct (pool s). Qed.

Lemma with_pool_store_calls (w : World) (s : Process) :
  store_calls (with_pool w s) = store_calls s.
Proof. unfold with_pool. now destruct (pool s). Qed.

Lemma with_pool_clock_reads (w : World) (s : Process) :
  clock_reads (with_pool w s) = clock_reads s.
Proof. unfold with_pool. now destruct (pool s). Qed.

Lemma with_pool_registeredTools (w : World) (s : Process) :
  registeredTools (with_pool w s) = registeredTools s.
Proof. unfold with_pool. now destruct (pool s). Qed.

Lemma with_pool_console (w : World) (s : Process) :
  console (with_pool w s) = console s.
Proof. unfold with_pool. now destruct (pool s). Qed.

Lemma with_pool_snapshot_id (w : World) (s : Process) :
  snapshot_id (with_pool w s) = snapshot_id s.
Proof. unfold with_pool. now destruct (pool s). Qed.

Lemma with_pool_written (w : World) (s : Process) :
  written (with_pool w s) = written s.
Proof. unfold with_pool. now destruct (pool s). Qed.

Lemma with_pool_script_runs (w : World) (s : Process) :
  script_runs (with_pool w s) = script_runs s.
Proof. unfold with_pool. now destruct (pool s). Qed.

Lemma with_pool_fetch_calls (w : World) (s : Process) :
  fetch_calls (with_pool w s) = fetch_calls s.
Proof. unfold with_pool. now destruct (pool s). Qed.

(** With the database enabled, [getPool] returns a pool and touches nothing
    but the [pool] variable. *)
Lemma getPool_enabled (w : World) (s : Process) :
  isDatabaseEnabled w = true ->
  exists p, getPool w s = (Normal p, with_pool w s).
Proof.
  intros Hdb. apply isDatabaseEnabled_url in Hdb.
  unfold getPool, with_pool. run_M. destruct (pool s) as [p |] eqn:E.
  - exists p. reflexivity.
  - rewrite Hdb. cbn. eexists. reflexivity.
Qed.

Lemma getToolsFromDatabase_enabled (w : World) (s : Process) :
  isDatabaseEnabled w = true ->
  getToolsFromDatabase w s
  = match store_select w (store_calls s) with
    | Normal rows => (Normal (map row_to_tool rows), tick_store (with_pool w s))
    | Throw e =>
        (Throw e,
         push_console (level_error, "Error getting tools from database:")
           (tick_store (with_pool w s)))
    end.
Proof.
  intros Hdb. unfold getToolsFromDatabase. rewrite Hdb. cbn [negb].
  unfold client_select. run_M.
  destruct (getPool_enabled w s Hdb) as [p ->].
  rewrite with_pool_store_calls.
  now destruct (store_select w (store_calls s)).
Qed.

(** [loadCustomTools], case by case: served from the cache; refreshed from
    the database; refresh failed; database not enabled. *)
Lemma loadCustomTools_eq (w : World) (forceReload : bool) (s : Process) :
  loadCustomTools w forceReload s
  = if negb forceReload && is_fresh (toolsCache s) (Date_now w (clock_reads s))
    then (Normal (tools (toolsCache s)), tick_clock s)
    else if isDatabaseEnabled w then
      match store_select w (store_calls s) with
      | Normal rows =>
          (Normal (map row_to_tool rows),
           install (refreshed w s (map row_to_tool rows))
             (tick_store (with_pool w (tick_clock s))))
      | Throw e =>
          (Normal (tools (toolsCache s)),
           push_console (level_error, "Error loading custom tools for MCP:")
             (push_console (level_error, "Error getting tools from database:")
                (tick_store (with_pool w (tick_clock s)))))
      end
    else (Normal [], install (refreshed w s []) (tick_clock s)).
Proof.
  unfold loadCustomTools, Date_now_read. run_M.
  change (toolsCache (tick_clock s)) with (toolsCache s).
  destruct (negb forceReload && is_fresh (toolsCache s) (Date_now w (clock_reads s)));
    [reflexivity |].
  destruct (isDatabaseEnabled w) eqn:Hdb; [| reflexivity].
  rewrite (getToolsFromDatabase_enabled w (tick_clock s) Hdb).
  change (store_calls (tick_clock s)) with (store_calls s).
  destruct (store_select w (store_calls s)); [reflexivity |].
  cbn. now rewrite with_pool_toolsCache.
Qed.

(** A load returns the snapshot the cache holds once it is over. *)
Lemma loadCustomTools_returns_cache (w : World) (forceReload : bool) (s : Process) :
  fst (loadCustomTools w forceReload s)
  = Normal (tools (toolsCache (snd (loadCustomTools w forceReload s)))).
Proof.
  rewrite loadCustomTools_eq.
  destruct (negb forceReload && is_fresh (toolsCache s) (Date_now w (clock_reads s)));
    [reflexivity |].
  destruct (isDatabaseEnabled w); [| reflexivity].
  destruct (store_select w (store_calls s)); cbn; [reflexivity |].
  now rewrite with_pool_toolsCache.
Qed.

(** C3. When the snapshot is stale (or a reload is forced), the database is
    enabled and the query fails, [loadCustomTools] returns the cached
    snapshot and does not throw; the cache is what it was, one query was
    sent, and the failure is on the console. *)
Theorem failed_refresh_returns_stale_snapshot
    (w : World) (s : Process) (forceReload : bool) (e : Thrown) :
  forceReload = true \/ is_fresh (toolsCache s) (Date_now w (clock_reads s)) = false ->
  isDatabaseEnabled w = true ->
  store_select w (store_calls s) = Throw e ->
  fst (loadCustomTools w forceReload s) = Normal (tools (toolsCache s))
  /\ toolsCache (snd (loadCustomTools w forceReload s)) = toolsCache s
  /\ store_calls (snd (loadCustomTools w forceReload s)) = S (store_calls s)
  /\ console (snd (loadCustomTools w forceReload s))
     = (console s ++ [(level_error, "Error getting tools from database:");
                      (level_error, "Error loading custom tools for MCP:")])%list.
Proof.
  intros Hstale Hdb Hsel.
  assert (Hguard : negb forceReload
                   && is_fresh (toolsCache s) (Date_now w (clock_reads s)) = false).
  { destruct Hstale as [-> | ->]; [reflexivity | apply andb_false_r]. }
  rewrite loadCustomTools_eq, Hguard, Hdb, Hsel. cbn.
  rewrite with_pool_toolsCache, with_pool_store_calls, with_pool_console.
  cbn. rewrite <- app_assoc. repeat split.
Qed.

Lemma failed_refresh_witness :
  fst (loadCustomTools failing_world false stale_process)
  = Normal [script_tool "ping" "return 'pong'"]
  /\ toolsCache (snd (loadCustomTools failing_world false stale_process))
     = toolsCache stale_process
  /\ store_calls (snd (loadCustomTools failing_world false stale_process)) = 1%nat
  /\ console (snd (loadCustomTools failing_world false stale_process))
     = [(level_error, "Error getting tools from database:");
        (level_error, "Error loading custom tools for MCP:")].
Proof.
  apply (failed_refresh_returns_stale_snapshot failing_world stale_process false
           (ErrorInstance "connection refused")).
  - right. reflexivity.
  - reflexivity.
  - reflexivity.
Defined.

(** C4 (amended). When a second [loadCustomTools()] finds the snapshot left
    by the first one still inside the window, it sends no query, returns the
    snapshot the first call returned and leaves the cache as it is.  The two
    calls together send one query if the first call found the snapshot stale
    and the database is enabled, and none otherwise. *)
Theorem second_load_within_window_is_served_from_cache (w : World) (s0 : Process) :
  is_fresh (toolsCache (snd (loadCustomTools w false s0)))
    (Date_now w (clock_reads (snd (loadCustomTools w false s0)))) = true ->
  let s1 := snd (loadCustomTools w false s0) in
  let s2 := snd (loadCustomTools w false s1) in
  fst (loadCustomTools w false s1) = fst (loadCustomTools w false s0)
  /\ fst (loadCustomTools w false s1) = Normal (tools (toolsCache s1))
  /\ toolsCache s2 = toolsCache s1
  /\ store_calls s2 = store_calls s1
  /\ store_calls s2
     = (store_calls s0
        + if is_fresh (toolsCache s0) (Date_now w (clock_reads s0)) then 0
          else if isDatabaseEnabled w then 1 else 0)%nat.
Proof.
  intros Hfresh s1 s2. subst s2.
  rewrite (loadCustomTools_eq w false s1). fold s1 in Hfresh.
  cbn [negb andb]. rewrite Hfresh. cbn [fst snd].
  change (toolsCache (tick_clock s1)) with (toolsCache s1).
  change (store_calls (tick_clock s1)) with (store_calls s1).
  subst s1. rewrite (loadCustomTools_eq w false s0). cbn [negb andb].
  destruct (is_fresh (toolsCache s0) (Date_now w (clock_reads s0))).
  - cbn. repeat split. lia.
  - destruct (isDatabaseEnabled w).
    + destruct (store_select w (store_calls s0)); cbn;
        rewrite ?with_pool_toolsCache, ?with_pool_store_calls; cbn;
        repeat split; lia.
    + cbn. repeat split. lia.
Qed.

Lemma second_load_witness :
  fst (loadCustomTools plain_world false
         (snd (loadCustomTools plain_world false stale_process)))
  = fst (loadCustomTools plain_world false stale_process)
  /\ store_calls
       (snd (loadCustomTools plain_world false
               (snd (loadCustomTools plain_world false stale_process))))
     = 1%nat.
Proof.
  destruct (second_load_within_window_is_served_from_cache plain_world stale_process
              eq_refl) as (H1 & _ & _ & _ & H5).
  split; [exact H1 | exact H5].
Defined.

(** C4, as stated, fails: with the database not enabled, or with a snapshot
    that was fresh before the first call, two calls inside the window send no
    query at all. *)
Lemma two_loads_without_any_query :
  is_fresh
    (toolsCache (snd (loadCustomTools local_world false initial_process)))
    (Date_now local_world
       (clock_reads (snd (loadCustomTools local_world false initial_process))))
  = true
  /\ store_calls
       (snd (loadCustomTools local_world false
               (snd (loadCustomTools local_world false initial_process))))
     = 0%nat
  /\ store_calls
       (snd (loadCustomTools plain_world false
               (snd (loadCustomTools plain_world false
                       (snd (loadCustomTools plain_world false initial_process))))))
     = store_calls (snd (loadCustomTools plain_world false initial_process)).
Proof. repeat split. Qed.

(** ** Configuration of the persistent backend *)

(** C8 (amended). With [USEDB] set to [true] and no connection string, the
    database counts as not enabled and nothing is raised: initialization
    returns at once, the tool listing answers as in local-storage mode, a
    load yields the empty list without a query.  The only errors are raised
    when a store operation is called directly: [Database is not enabled], and
    from [getPool], when no pool exists, [DATABASE_URL environment variable
    is not set]. *)
Theorem missing_connection_string_disables_database (w : World) (s : Process) :
  env_USEDB w = Some "true" ->
  truthy_string (env_DATABASE_URL w) = false ->
  isDatabaseEnabled w = false
  /\ initializeDatabase w s = (Normal tt, s)
  /\ tools_GET w s = (Normal (reply_tools [] "localStorage"), s)
  /\ (forall forceReload,
      negb forceReload && is_fresh (toolsCache s) (Date_now w (clock_reads s)) = false ->
      loadCustomTools w forceReload s
      = (Normal [], install (refreshed w s []) (tick_clock s)))
  /\ getToolsFromDatabase w s = (Throw (ErrorInstance "Database is not enabled"), s)
  /\ (pool s = None ->
      getPool w s
      = (Throw (ErrorInstance "DATABASE_URL environment variable is not set"), s)).
Proof.
  intros Hsel Hurl.
  assert (Hdb : isDatabaseEnabled w = false).
  { unfold isDatabaseEnabled. rewrite Hurl. apply andb_false_r. }
  split; [exact Hdb |].
  split; [unfold initializeDatabase; now rewrite Hdb |].
  split; [unfold tools_GET; run_M; now rewrite Hdb |].
  split; [intros forceReload Hguard; rewrite loadCustomTools_eq, Hguard, Hdb; reflexivity |].
  split; [unfold getToolsFromDatabase; now rewrite Hdb |].
  intros Hpool. unfold getPool. run_M. now rewrite Hpool, Hurl.
Qed.

Lemma missing_connection_string_witness :
  isDatabaseEnabled unconfigured_world = false
  /\ tools_GET unconfigured_world initial_process
     = (Normal (reply_tools [] "localStorage"), initial_process).
Proof.
  destruct (missing_connection_string_disables_database unconfigured_world
              initial_process eq_refl eq_refl) as (H1 & _ & H3 & _).
  split; [exact H1 | exact H3].
Defined.

(** C8, as stated, fails: selecting the database without a connection string
    raises nothing when the server starts; the process goes on as if the
    database had not been selected. *)
Lemma unconfigured_database_starts_silently :
  env_USEDB unconfigured_world = Some "true"
  /\ env_DATABASE_URL unconfigured_world = None
  /\ fst (initializeServer unconfigured_world initial_process) = Normal tt
  /\ console (snd (initializeServer unconfigured_world initial_process)) = []
  /\ initializeDatabase unconfigured_world initial_process = (Normal tt, initial_process)
  /\ tools_GET unconfigured_world initial_process
     = tools_GET local_world initial_process
  /\ loadCustomTools unconfigured_world false initial_process
     = loadCustomTools local_world false initial_process.
Proof. vm_compute. repeat split. Qed.

(** ** Script runner *)




(** [executeCustomLogic], case by case. *)
Lemma executeCustomLogic_eq (w : World) (tool : CustomTool)
    (params : Props JsValue) (s : Process) :
  executeCustomLogic w tool params s
  = if no_logic (customLogic tool)
    then (Normal (Some (no_logic_result w tool params)), s)
    else
      (Normal (script_answer w tool (script_run w tool params s)),
       after_script tool (script_run w tool params s) s).
Proof.
  unfold executeCustomLogic, run_script, script_answer, after_script, script_run. run_M.
  destruct (no_logic (customLogic tool)); [reflexivity |].
  cbn zeta.
  change (script_runs (tick_script s)) with (S (script_runs s)).
  destruct (script_outcome
              (run_function w (script_runs s) (default "" (customLogic tool)) params))
    as [[value | error] |]; reflexivity.
Qed.


(** It writes on the console and counts the run, and nothing else. *)
Lemma executeCustomLogic_frame (w : World) (tool : CustomTool)
    (params : Props JsValue) (s : Process) :
  same_but_console s (snd (executeCustomLogic w tool params s)).
Proof.
  rewrite executeCustomLogic_eq.
  destruct (no_logic (customLogic tool)); repeat split.
Qed.

(** ** Registration on the server *)

Lemma server_tool_eq (w : World) (name description : string)
    (params : list (string * Zod.ZodType)) (callback : Handler)
    (object : option ObjectId) (s : Process) :
  server_tool w name description params callback object s
  = let entry := {| reg_description := description; reg_params := params;
                    reg_callback := callback; reg_object := object |} in
    match registeredTools s !! name with
    | None => (Normal tt, bind_tool name entry s)
    | Some _ =>
        match on_duplicate w with
        | reject_duplicate =>
            (Throw (ErrorInstance ("Tool " ++ name ++ " is already registered")), s)
        | replace_existing => (Normal tt, bind_tool name entry s)
        | keep_existing => (Normal tt, s)
        end
    end.
Proof.
  unfold server_tool. run_M.
  destruct (registeredTools s !! name); [destruct (on_duplicate w) |]; reflexivity.
Qed.

Lemma register_one_eq (w : World) (forceReload : bool) (snapshot index : nat)
    (tool : CustomTool) (s : Process) :
  register_one w forceReload snapshot (index, tool) s
  = if negb forceReload && bool_decide (tool_name tool ∈ registered (toolsCache s))
    then (Normal tt, s)
    else
      match registeredTools s !! tool_name tool with
      | None =>
          (Normal tt,
           push_console (registered_line tool)
             (mark_registered (tool_name tool)
                (bind_tool (tool_name tool) (custom_entry (snapshot, index) tool) s)))
      | Some _ =>
          match on_duplicate w with
          | reject_duplicate => (Normal tt, push_console (failed_line tool) s)
          | replace_existing =>
              (Normal tt,
               push_console (registered_line tool)
                 (mark_registered (tool_name tool)
                    (bind_tool (tool_name tool) (custom_entry (snapshot, index) tool) s)))
          | keep_existing =>
              (Normal tt,
               push_console (registered_line tool) (mark_registered (tool_name tool) s))
          end
      end.
Proof.
  unfold register_one. run_M.
  destruct (negb forceReload && bool_decide (tool_name tool ∈ registered (toolsCache s)));
    [reflexivity |].
  rewrite server_tool_eq. cbn zeta. fold (custom_entry (snapshot, index) tool).
  destruct (registeredTools s !! tool_name tool); [destruct (on_duplicate w) |]; reflexivity.
Qed.

Lemma register_one_normal (w : World) (forceReload : bool) (snapshot : nat)
    (entry : nat * CustomTool) (s : Process) :
  fst (register_one w forceReload snapshot entry s) = Normal tt.
Proof.
  destruct entry as [index tool]. rewrite register_one_eq.
  destruct (negb forceReload && bool_decide (tool_name tool ∈ registered (toolsCache s)));
    [reflexivity |].
  destruct (registeredTools s !! tool_name tool); [destruct (on_duplicate w) |]; reflexivity.
Qed.

Lemma forEach_normal {A} (f : A -> M unit) (l : list A) (s : Process) :
  (forall x s', fst (f x s') = Normal tt) ->
  forEach l f s = (Normal tt, fold_left (fun s' x => snd (f x s')) l s).
Proof.
  intros Hf. revert s. induction l as [| x rest IH]; intros s; cbn; [reflexivity |].
  run_M. specialize (Hf x s). destruct (f x s) as [[[] | e] s']; cbn in *; [| discriminate].
  apply IH.
Qed.

Lemma loadCustomTools_returns (w : World) (forceReload : bool) (s : Process) :
  exists tools, fst (loadCustomTools w forceReload s) = Normal tools.
Proof.
  rewrite loadCustomTools_eq.
  destruct (negb forceReload && is_fresh (toolsCache s) (Date_now w (clock_reads s)));
    [eexists; reflexivity |].
  destruct (isDatabaseEnabled w); [| eexists; reflexivity].
  destruct (store_select w (store_calls s)); eexists; reflexivity.
Qed.

Lemma loadCustomTools_registeredTools (w : World) (forceReload : bool) (s : Process) :
  registeredTools (snd (loadCustomTools w forceReload s)) = registeredTools s.
Proof.
  rewrite loadCustomTools_eq.
  destruct (negb forceReload && is_fresh (toolsCache s) (Date_now w (clock_reads s)));
    [reflexivity |].
  destruct (isDatabaseEnabled w); [| reflexivity].
  destruct (store_select w (store_calls s)); cbn; now rewrite with_pool_registeredTools.
Qed.

Lemma registerCustomTools_eq (w : World) (forceReload : bool) (s : Process) :
  exists tools,
    fst (loadCustomTools w forceReload s) = Normal tools
    /\ registerCustomTools w forceReload s
       = (Normal tt,
          (if (0 <? length tools)%nat then push_console (loaded_line w tools) else id)
            (fold_left
               (register_step w forceReload
                  (snapshot_id (snd (loadCustomTools w forceReload s))))
               (indexed_from 0 tools)
               (snd (loadCustomTools w forceReload s)))).
Proof.
  destruct (loadCustomTools_returns w forceReload s) as [tools Htools].
  exists tools. split; [exact Htools |].
  unfold registerCustomTools. run_M.
  destruct (loadCustomTools w forceReload s) as [r s1]. cbn in Htools. subst r.
  cbn [snd].
  rewrite (forEach_normal _ _ _ (register_one_normal w forceReload (snapshot_id s1))).
  fold (register_step w forceReload (snapshot_id s1)).
  now destruct (0 <? length tools)%nat.
Qed.

Lemma register_step_keeps (w : World) (forceReload : bool) (snapshot : nat)
    (entry : nat * CustomTool) :
  on_duplicate w = reject_duplicate ->
  keeps_registrations (fun s => register_step w forceReload snapshot s entry).
Proof.
  intros Hpol s name bound Hname. destruct entry as [index tool].
  unfold register_step. rewrite register_one_eq.
  destruct (negb forceReload && bool_decide (tool_name tool ∈ registered (toolsCache s)));
    [exact Hname |].
  destruct (registeredTools s !! tool_name tool) eqn:E.
  - rewrite Hpol. exact Hname.
  - cbn. rewrite lookup_insert_ne; [exact Hname | congruence].
Qed.

Lemma fold_keeps {A} (f : Process -> A -> Process) (l : list A) :
  (forall x, keeps_registrations (fun s => f s x)) ->
  keeps_registrations (fun s => fold_left f l s).
Proof.
  intros Hf. induction l as [| x rest IH]; intros s name entry Hname; cbn; [exact Hname |].
  apply IH. now apply Hf.
Qed.

Lemma registerCustomTools_keeps (w : World) (forceReload : bool) :
  on_duplicate w = reject_duplicate ->
  keeps_registrations (fun s => snd (registerCustomTools w forceReload s)).
Proof.
  intros Hpol s name entry Hname.
  destruct (registerCustomTools_eq w forceReload s) as (tools & _ & ->). cbn [snd].
  set (s1 := snd (loadCustomTools w forceReload s)).
  assert (H : registeredTools
                (fold_left (register_step w forceReload (snapshot_id s1))
                   (indexed_from 0 tools) s1) !! name = Some entry).
  { apply (fold_keeps (register_step w forceReload (snapshot_id s1))).
    - intros x. now apply register_step_keeps.
    - subst s1. now rewrite loadCustomTools_registeredTools. }
  now destruct (0 <? length tools)%nat.
Qed.

(** Registering a tool with another name neither binds [name] nor marks it. *)
Lemma register_step_other (w : World) (snapshot : nat) (entry : nat * CustomTool)
    (name : string) (s : Process) :
  on_duplicate w = reject_duplicate ->
  tool_name (snd entry) <> name ->
  registeredTools s !! name = None ->
  name ∉ registered (toolsCache s) ->
  registeredTools (register_step w false snapshot s entry) !! name = None
  /\ name ∉ registered (toolsCache (register_step w false snapshot s entry)).
Proof.
  destruct entry as [index tool]. cbn [snd].
  intros Hpol Hne Hfree Hmark. unfold register_step. rewrite register_one_eq.
  destruct (negb false && bool_decide (tool_name tool ∈ registered (toolsCache s)));
    [now split |].
  destruct (registeredTools s !! tool_name tool).
  - rewrite Hpol. now split.
  - cbn. split.
    + rewrite lookup_insert_ne; [exact Hfree | exact Hne].
    + rewrite elem_of_union, elem_of_singleton. intros [H | H]; [congruence | contradiction].
Qed.

(** On a process where [name] is free and unmarked, registering the custom
    tools binds [name] to the first tool of the list that bears it. *)
Lemma fold_register_binds_first (w : World) (snapshot : nat)
    (l : list (nat * CustomTool)) (name : string) (index : nat) (tool : CustomTool)
    (s : Process) :
  on_duplicate w = reject_duplicate ->
  registeredTools s !! name = None ->
  name ∉ registered (toolsCache s) ->
  find (fun entry => named name (snd entry)) l = Some (index, tool) ->
  registeredTools (fold_left (register_step w false snapshot) l s) !! name
  = Some (custom_entry (snapshot, index) tool).
Proof.
  intros Hpol. revert s.
  induction l as [| [i t] rest IH]; intros s Hfree Hmark Hfind; [discriminate |].
  cbn [find snd] in Hfind. cbn [fold_left]. unfold named at 1 in Hfind.
  destruct (String.eqb_spec (tool_name t) name) as [Heq | Hne].
  - injection Hfind as <- <-.
    apply (fold_keeps (register_step w false snapshot) rest).
    + intros x. now apply register_step_keeps.
    + unfold register_step. rewrite register_one_eq. cbn [negb andb].
      rewrite bool_decide_eq_false_2 by (now rewrite Heq).
      rewrite Heq, Hfree. cbn. rewrite <- Heq. apply lookup_insert_eq.
  - destruct (register_step_other w snapshot (i, t) name s Hpol Hne Hfree Hmark)
      as [H1 H2].
    now apply IH.
Qed.

(** The first tool of a name is the same with and without the positions. *)
Lemma find_indexed_from (name : string) (l : list CustomTool) (k : nat) (tool : CustomTool) :
  find (named name) l = Some tool ->
  exists index,
    find (fun entry => named name (snd entry)) (indexed_from k l) = Some (index, tool).
Proof.
  revert k. induction l as [| t rest IH]; intros k Hfind; [discriminate |].
  cbn [find indexed_from snd] in *.
  destruct (named name t); [injection Hfind as <-; eauto | now apply IH].
Qed.

Lemma builtin_loop_keeps (w : World) (l : list (string * string)) :
  on_duplicate w = reject_duplicate ->
  keeps_registrations (fun s => snd (forEach l (register_builtin w) s)).
Proof.
  intros Hpol. induction l as [| [n d] rest IH]; intros s name entry Hname;
    [exact Hname |].
  cbn [forEach]. run_M. unfold register_builtin at 1. rewrite server_tool_eq. cbn zeta.
  destruct (registeredTools s !! n) eqn:E.
  - rewrite Hpol. exact Hname.
  - cbn [fst snd]. apply IH. cbn. rewrite lookup_insert_ne; [exact Hname | congruence].
Qed.

Lemma builtin_loop_throws (w : World) (l : list (string * string)) (s : Process)
    (name : string) :
  on_duplicate w = reject_duplicate ->
  In name (map fst l) ->
  is_Some (registeredTools s !! name) ->
  exists other,
    In other (map fst l)
    /\ fst (forEach l (register_builtin w) s)
       = Throw (ErrorInstance ("Tool " ++ other ++ " is already registered")).
Proof.
  intros Hpol. revert s.
  induction l as [| [n d] rest IH]; intros s Hin Hbound; [contradiction |].
  cbn [forEach]. run_M. unfold register_builtin at 1. rewrite server_tool_eq. cbn zeta.
  destruct (registeredTools s !! n) eqn:E.
  - rewrite Hpol. exists n. split; [now left | reflexivity].
  - cbn [fst snd]. destruct Hin as [Heq | Hin].
    + cbn in Heq. subst n. rewrite E in Hbound. now destruct Hbound.
    + destruct (IH (bind_tool n
                      {| reg_description := d; reg_params := [];
                         reg_callback := builtin_handler n; reg_object := None |} s) Hin)
        as (other & Hother & Hthrow).
      * destruct Hbound as [entry Hentry]. exists entry. cbn.
        rewrite lookup_insert_ne; [exact Hentry | congruence].
      * exists other. split; [now right | exact Hthrow].
Qed.

Lemma find_named_exists (rows : list Row) (name : string) :
  In name (map row_name rows) ->
  exists tool, find (named name) (map row_to_tool rows) = Some tool
               /\ tool_name tool = name.
Proof.
  induction rows as [| r rest IH]; intros Hin; [contradiction |].
  cbn [map find]. unfold named at 1. cbn [row_to_tool tool_name].
  destruct (String.eqb_spec (row_name r) name) as [Heq | Hne].
  - eexists. split; [reflexivity | exact Heq].
  - destruct Hin as [Heq | Hin]; [contradiction |]. now apply IH.
Qed.

Lemma startup_collision (w : World) (rows : list Row) (name : string) :
  on_duplicate w = reject_duplicate ->
  isDatabaseEnabled w = true ->
  store_select w 0 = Normal rows ->
  In name BUILTIN_NAMES ->
  In name (map row_name rows) ->
  exists tool other,
    find (named name) (map row_to_tool rows) = Some tool
    /\ resolve (snd (initializeServer w initial_process)) name = Some (custom_handler tool)
    /\ In other BUILTIN_NAMES
    /\ fst (initializeServer w initial_process)
       = Throw (ErrorInstance ("Tool " ++ other ++ " is already registered")).
Proof.
  intros Hpol Hdb Hsel Hbuiltin Hcustom.
  destruct (find_named_exists rows name Hcustom) as (tool & Hfind & _).
  destruct (find_indexed_from name _ 0 tool Hfind) as [index Hindex].
  unfold initializeServer. run_M.
  destruct (registerCustomTools_eq w false initial_process) as (tools & Htools & ->).
  rewrite loadCustomTools_eq in Htools. rewrite loadCustomTools_eq.
  cbn [negb andb initial_process toolsCache] in *.
  change (is_fresh initial_toolsCache (Date_now w (clock_reads initial_process)))
    with false in *.
  rewrite Hdb in *. cbn [store_calls initial_process] in *. rewrite Hsel in *.
  cbn [fst snd] in *. injection Htools as <-.
  set (s1 := install _ _).
  set (s2 := (if (0 <? length (map row_to_tool rows))%nat then _ else id) _).
  assert (Hbound : registeredTools s2 !! name
                   = Some (custom_entry (snapshot_id s1, index) tool)).
  { assert (H : registeredTools
                  (fold_left (register_step w false (snapshot_id s1))
                     (indexed_from 0 (map row_to_tool rows)) s1)
                !! name = Some (custom_entry (snapshot_id s1, index) tool)).
    { apply fold_register_binds_first; try assumption.
      - subst s1. cbn [install next_snapshot set_toolsCache registeredTools tick_store].
        rewrite with_pool_registeredTools. apply lookup_empty.
      - subst s1. cbn [install next_snapshot set_toolsCache toolsCache refreshed registered].
        apply not_elem_of_empty. }
    subst s2. now destruct (0 <? length (map row_to_tool rows))%nat. }
  destruct (builtin_loop_throws w BUILTIN_TOOLS s2 name Hpol Hbuiltin)
    as (other & Hother & Hthrow); [rewrite Hbound; eexists; reflexivity |].
  exists tool, other. split; [exact Hfind |]. split; [| split; assumption].
  unfold resolve. rewrite (builtin_loop_keeps w BUILTIN_TOOLS Hpol s2 name _ Hbound).
  reflexivity.
Qed.

(** [executeApiTool], case by case. *)
Lemma executeApiTool_eq (w : World) (object : ObjectId) (tool : CustomTool)
    (params : list (string * JsValue)) (s : Process) :
  executeApiTool w object tool params s
  = match apiConfig tool with
    | None => (Throw (ErrorInstance "API configuration missing"), s)
    | Some loaded =>
        let config := current_config (written s) object loaded in
        let request := build_request w tool config params in
        match fetch w (fetch_calls s) request with
        | Normal response =>
            (Normal (api_result w response), after_request object config request s)
        | Throw e => (Throw e, after_request object config request s)
        end
    end.
Proof.
  unfold executeApiTool, after_request. run_M. run_M.
  destruct (apiConfig tool) as [loaded |]; [| reflexivity].
  cbn zeta.
  destruct (writes_header _ _); cbn [fst snd fetch_calls mark_written];
    destruct (fetch w _ _); reflexivity.
Qed.

Lemma executeApiTool_registeredTools (w : World) (object : ObjectId) (tool : CustomTool)
    (params : list (string * JsValue)) (s : Process) :
  registeredTools (snd (executeApiTool w object tool params s)) = registeredTools s.
Proof.
  rewrite executeApiTool_eq.
  destruct (apiConfig tool) as [loaded |]; [| reflexivity].
  cbn zeta. unfold after_request.
  destruct (fetch w _ _); cbn [snd]; destruct (writes_header _ _); reflexivity.
Qed.

Lemma run_tool_registeredTools (w : World) (object : ObjectId) (tool : CustomTool)
    (params : list (string * JsValue)) (s : Process) :
  registeredTools (snd (run_tool w object tool params s)) = registeredTools s.
Proof.
  unfold run_tool.
  destruct (customType tool) as [[|] |];
    try (destruct (executeCustomLogic_frame w tool params s) as (_ & _ & H & _); exact H).
  run_M. pose proof (executeApiTool_registeredTools w object tool params s) as H.
  destruct (executeApiTool w object tool params s) as [[r | e] s']; exact H.
Qed.

Lemma refresh_callback_keeps (w : World) :
  on_duplicate w = reject_duplicate ->
  keeps_registrations (fun s => snd (refresh_custom_tools_callback w s)).
Proof.
  intros Hpol s name entry Hname.
  unfold refresh_custom_tools_callback. run_M.
  pose proof (registerCustomTools_keeps w true Hpol (invalidate s) name entry Hname) as H.
  destruct (registerCustomTools_eq w true (invalidate s)) as (tools & _ & Heq).
  cbv beta in H. rewrite Heq in H. rewrite Heq. cbn [fst snd] in *.
  set (s2 := (if (0 <? length tools)%nat then _ else id) _) in *.
  rewrite <- (loadCustomTools_registeredTools w true s2) in H.
  destruct (loadCustomTools_returns w true s2) as [current Hcurrent].
  destruct (loadCustomTools w true s2) as [r s3]. cbn in Hcurrent. subst r.
  exact H.
Qed.

(** The callback of a custom tool, step by step: the reload of a stale
    snapshot, the load, then the tool is run. *)
Lemma custom_tool_callback_eq (w : World) (object : ObjectId) (tool : CustomTool)
    (params : list (string * JsValue)) (s : Process) :
  let stale := (timestamp (toolsCache s) =? 0)
               || (CACHE_DURATION <=? Date_now w (clock_reads s) - timestamp (toolsCache s)) in
  let s1 := if stale then snd (registerCustomTools w true (tick_clock s))
            else tick_clock s in
  let s2 := snd (loadCustomTools w false s1) in
  let current := current_object object tool (snapshot_id s2) (tools (toolsCache s2)) in
  custom_tool_callback w object tool params s
  = run_tool w (fst current) (snd current) params s2.
Proof.
  intros stale s1 s2 current.
  unfold custom_tool_callback, Date_now_read. run_M.
  change (toolsCache (tick_clock s)) with (toolsCache s). fold stale.
  assert (H1 : (if stale then registerCustomTools w true else λ s0, (Normal tt, s0))
                 (tick_clock s) = (Normal tt, s1)).
  { subst s1. destruct stale; [| reflexivity].
    destruct (registerCustomTools_eq w true (tick_clock s)) as (loaded & _ & ->).
    reflexivity. }
  rewrite H1.
  pose proof (loadCustomTools_returns_cache w false s1) as Hret. fold s2 in Hret.
  destruct (loadCustomTools w false s1) as [r s2'] eqn:E. cbn [fst snd] in *.
  subst s2 r. cbn [snd] in *. subst current.
  destruct (current_object object tool (snapshot_id s2') (tools (toolsCache s2')))
    as [currentObject currentTool].
  reflexivity.
Qed.

Lemma custom_callback_keeps (w : World) (object : ObjectId) (tool : CustomTool)
    (params : list (string * JsValue)) :
  on_duplicate w = reject_duplicate ->
  keeps_registrations (fun s => snd (custom_tool_callback w object tool params s)).
Proof.
  intros Hpol s name entry Hname. cbv beta.
  rewrite custom_tool_callback_eq. cbv zeta.
  rewrite run_tool_registeredTools, loadCustomTools_registeredTools.
  destruct (_ || _); [| exact Hname].
  now apply (registerCustomTools_keeps w true Hpol (tick_clock s)).
Qed.

(** C1 (amended). The server keeps one table of tools, filled in the order of
    the calls to [server.tool], and refuses a name it already holds.  The
    initializer registers the custom tools of the snapshot before the
    builtins: on a fresh process, a name borne by a stored custom tool and by
    a builtin resolves to the custom tool, and the initializer stops with
    [Tool ... is already registered] at a builtin.  Once a name is in the
    table, no later registration of custom tools, by a refresh or from a
    custom tool's callback, binds it to something else. *)
Theorem registration_order_decides_collisions (w : World) :
  on_duplicate w = reject_duplicate ->
  (forall rows name,
      isDatabaseEnabled w = true ->
      store_select w 0 = Normal rows ->
      In name BUILTIN_NAMES ->
      In name (map row_name rows) ->
      exists tool other,
        find (named name) (map row_to_tool rows) = Some tool
        /\ resolve (snd (initializeServer w initial_process)) name
           = Some (custom_handler tool)
        /\ In other BUILTIN_NAMES
        /\ fst (initializeServer w initial_process)
           = Throw (ErrorInstance ("Tool " ++ other ++ " is already registered")))
  /\ (forall forceReload,
         keeps_registrations (fun s => snd (registerCustomTools w forceReload s)))
  /\ keeps_registrations (fun s => snd (refresh_custom_tools_callback w s))
  /\ (forall object tool params,
         keeps_registrations (fun s => snd (custom_tool_callback w object tool params s))).
Proof.
  intros Hpol. split; [| split; [| split]].
  - intros rows name. now apply startup_collision.
  - intros forceReload. now apply registerCustomTools_keeps.
  - now apply refresh_callback_keeps.
  - intros object tool params. now apply custom_callback_keeps.
Qed.

Lemma registration_order_witness :
  (exists tool other,
      find (named "url_validator") (map row_to_tool [shadow_row]) = Some tool
      /\ resolve (snd (initializeServer (shadow_world reject_duplicate) initial_process))
           "url_validator"
         = Some (custom_handler tool)
      /\ In other BUILTIN_NAMES
      /\ fst (initializeServer (shadow_world reject_duplicate) initial_process)
         = Throw (ErrorInstance ("Tool " ++ other ++ " is already registered")))
  /\ keeps_registrations
       (fun s => snd (refresh_custom_tools_callback (shadow_world reject_duplicate) s)).
Proof.
  destruct (registration_order_decides_collisions (shadow_world reject_duplicate) eq_refl)
    as (H1 & _ & H3 & _).
  split; [| exact H3].
  apply (H1 [shadow_row] "url_validator"); try reflexivity.
  - right. left. reflexivity.
  - left. reflexivity.
Defined.

(** C1, as stated, fails: a stored custom tool named [url_validator] is
    registered before the builtin of that name and keeps the name. *)
Lemma custom_tool_takes_builtin_name :
  includes BUILTIN_NAMES "url_validator" = true
  /\ fst (loadCustomTools (shadow_world reject_duplicate) false initial_process)
     = Normal [row_to_tool shadow_row]
  /\ resolve (snd (initializeServer (shadow_world reject_duplicate) initial_process))
       "url_validator"
     = Some (custom_handler (row_to_tool shadow_row))
  /\ fst (initializeServer (shadow_world reject_duplicate) initial_process)
     = Throw (ErrorInstance "Tool url_validator is already registered").
Proof. vm_compute. repeat split. Qed.

(** The same collision under the two silent treatments of a duplicate name.
    If the server kept the first registration without complaint, the custom
    tool would hold the name just the same. *)
Lemma collision_when_server_keeps_first :
  resolve (snd (initializeServer (shadow_world keep_existing) initial_process))
    "url_validator"
  = Some (custom_handler (row_to_tool shadow_row))
  /\ fst (initializeServer (shadow_world keep_existing) initial_process) = Normal tt.
Proof. vm_compute. repeat split. Qed.

(** If the server let the last registration win, the builtin would hold the
    name after start-up, and lose it to a custom tool stored later on, at the
    next refresh. *)
Lemma collision_when_server_keeps_last :
  resolve (snd (initializeServer (late_shadow_world replace_existing) initial_process))
    "url_validator"
  = Some (builtin_handler "url_validator")
  /\ resolve
       (snd (refresh_custom_tools_callback (late_shadow_world replace_existing)
               (snd (initializeServer (late_shadow_world replace_existing)
                       initial_process))))
       "url_validator"
     = Some (custom_handler (row_to_tool shadow_row)).
Proof. vm_compute. repeat split. Qed.

(** With the server refusing duplicates, a custom tool stored after start-up
    under a builtin's name does not replace the builtin. *)
Lemma late_custom_tool_does_not_replace_builtin :
  resolve
    (snd (refresh_custom_tools_callback (late_shadow_world reject_duplicate)
            (snd (initializeServer (late_shadow_world reject_duplicate)
                    initial_process))))
    "url_validator"
  = Some (builtin_handler "url_validator").
Proof. vm_compute. reflexivity. Qed.

(** ** Script errors and the dispatcher *)

Lemma registerCustomTools_returns (w : World) (forceReload : bool) (s : Process) :
  fst (registerCustomTools w forceReload s) = Normal tt.
Proof.
  destruct (registerCustomTools_eq w forceReload s) as (tools & _ & ->). reflexivity.
Qed.





(** A script that writes on the console before it throws leaves its line
    there, under the name of the tool; a script that loops leaves the call
    without result. *)
Example script_that_logs_and_script_that_loops :
  console (snd (executeCustomLogic plain_world (script_tool "explode" log_and_boom_source)
                  [] initial_process))
  = [(level_log, "[explode]")]
  /\ fst (executeCustomLogic plain_world (script_tool "explode" log_and_boom_source)
            [] initial_process)
     = Normal (Some (text_result (script_error_text (ErrorInstance "boom"))))
  /\ fst (executeCustomLogic plain_world (script_tool "spin" loop_source)
            [] initial_process)
     = Normal None.
Proof. vm_compute. repeat split. Qed.

(** * Further properties of the server *)

(** ** Schema compiler: numbers and omitted arguments *)

Lemma number_checks_pass (param : ParameterSchema) (v : Q) :
  flat_map (Zod.run_check v) (number_bounds param) = [] <-> within_bounds param v.
Proof.
  unfold number_bounds, within_bounds.
  destruct (param_minimum param) as [a |], (param_maximum param) as [b |]; cbn;
    repeat match goal with
           | |- context [Qle_bool ?x ?y] =>
               let E := fresh "E" in
               destruct (Qle_bool x y) eqn:E;
               [apply Qle_bool_iff in E
               | assert (~ (x <= y)%Q) by (rewrite <- Qle_bool_iff; congruence)]
           end; cbn; split; try discriminate; try tauto;
    try (intros _; split; intros ? [= <-]; assumption);
    try (intros _; split; intros ? [=]);
    try (intros [H1 H2]; exfalso;
         first [ now (specialize (H1 _ eq_refl)) | now (specialize (H2 _ eq_refl)) ]).
Qed.

(** X1. A parameter of type [number]: a provided number is returned unchanged
    exactly when it lies between [minimum] and [maximum], bounds included
    (a bound that is not declared does not constrain); any other provided
    value is rejected. *)
Theorem number_validator_checks_bounds (param : ParameterSchema) (v : JsValue) :
  param_type param = "number" ->
  v <> JsUndefined ->
  (Zod.safeParse (parameterToZodSchema param) v = Zod.success v
   <-> exists q, v = JsNumber q /\ within_bounds param q)
  /\ ((forall q, v <> JsNumber q) ->
      Zod.safeParse (parameterToZodSchema param) v
      = Zod.failure [Zod.issue_type Zod.pt_number (Zod.getParsedType v)]).
Proof.
  intros Ht Hv. unfold parameterToZodSchema. rewrite Ht.
  cbn [String.eqb Ascii.eqb Bool.eqb].
  rewrite (safeParse_wrappers param (Zod.number_ (number_bounds param)) v Hv).
  split.
  - destruct v as [| | b | q | s | items | fields]; cbn;
      try (split; [discriminate | intros (q' & Hq & _); discriminate]).
    destruct (flat_map (Zod.run_check q) (number_bounds param)) eqn:E.
    + split; [intros _; exists q; split; [reflexivity | now apply number_checks_pass]
             | reflexivity].
    + split; [discriminate |].
      intros (q' & [= <-] & Hb). apply number_checks_pass in Hb. congruence.
  - intros Hn. destruct v; cbn; try reflexivity. now destruct (Hn q).
Qed.

Lemma number_validator_witness :
  Zod.safeParse (parameterToZodSchema (bounded_param "number")) (JsNumber (10 # 1))
  = Zod.success (JsNumber (10 # 1))
  /\ Zod.safeParse (parameterToZodSchema (bounded_param "number")) (JsString "5")
     = Zod.failure [Zod.issue_type Zod.pt_number Zod.pt_string].
Proof.
  destruct (number_validator_checks_bounds (bounded_param "number") (JsNumber (10 # 1))
              eq_refl) as [H1 _]; [discriminate |].
  destruct (number_validator_checks_bounds (bounded_param "number") (JsString "5")
              eq_refl) as [_ H2]; [discriminate |].
  split.
  - apply H1. exists (10 # 1). split; [reflexivity |].
    split; intros x [= <-]; discriminate.
  - apply H2. discriminate.
Defined.

(** [is_integer] holds of the rationals that are integers. *)
Lemma is_integer_spec (q : Q) :
  Zod.is_integer q = true <-> exists z : Z, (q == inject_Z z)%Q.
Proof.
  unfold Zod.is_integer, Qeq. destruct q as [n d]. cbn. rewrite Z.eqb_eq. split.
  - intros H. exists (n / Z.pos d). rewrite Z.mul_1_r.
    rewrite (Z.div_mod n (Z.pos d)) at 1 by discriminate. rewrite H. lia.
  - intros [z Hz]. rewrite Z.mul_1_r in Hz. subst n. apply Z.mod_mul. discriminate.
Qed.

(** X2. A parameter of type [integer]: a provided value is returned unchanged
    exactly when it is a number without fractional part that lies between
    [minimum] and [maximum], bounds included. *)
Theorem integer_validator_checks_integrality_and_bounds
    (param : ParameterSchema) (v : JsValue) :
  param_type param = "integer" ->
  v <> JsUndefined ->
  Zod.safeParse (parameterToZodSchema param) v = Zod.success v
  <-> exists q, v = JsNumber q
                /\ (exists z : Z, (q == inject_Z z)%Q)
                /\ within_bounds param q.
Proof.
  intros Ht Hv. unfold parameterToZodSchema. rewrite Ht.
  cbn [String.eqb Ascii.eqb Bool.eqb].
  rewrite (safeParse_wrappers param
             (Zod.number_ (Zod.check_int :: number_bounds param)) v Hv).
  destruct v as [| | b | q | s | items | fields]; cbn [Zod.safeParse];
    try (split; [discriminate | intros (q' & Hq & _); discriminate]).
  cbn [flat_map Zod.run_check].
  destruct (Zod.is_integer q) eqn:Hi.
  - cbn [app]. destruct (flat_map (Zod.run_check q) (number_bounds param)) eqn:E.
    + split; [| reflexivity]. intros _. exists q. split; [reflexivity |].
      split; [now apply is_integer_spec | now apply number_checks_pass].
    + split; [discriminate |].
      intros (q' & [= <-] & _ & Hb). apply number_checks_pass in Hb. congruence.
  - split; [discriminate |].
    intros (q' & [= <-] & Hz & _). apply is_integer_spec in Hz. congruence.
Qed.

Lemma integer_validator_witness :
  Zod.safeParse (parameterToZodSchema (bounded_param "integer")) (JsNumber (1 # 1))
  = Zod.success (JsNumber (1 # 1)).
Proof.
  apply (integer_validator_checks_integrality_and_bounds (bounded_param "integer")
           (JsNumber (1 # 1)) eq_refl); [discriminate |].
  exists (1 # 1). split; [reflexivity |]. split.
  - exists 1%Z. reflexivity.
  - split; intros x [= <-]; discriminate.
Defined.

(** Examples: a fraction and a value out of range are rejected, each by the
    check it fails. *)
Example integer_validator_rejections :
  Zod.safeParse (parameterToZodSchema (bounded_param "integer")) (JsNumber (3 # 2))
  = Zod.failure [Zod.issue_int (3 # 2)]
  /\ Zod.safeParse (parameterToZodSchema (bounded_param "integer")) (JsNumber (11 # 1))
     = Zod.failure [Zod.issue_max (10 # 1) (11 # 1)]
  /\ Zod.safeParse (parameterToZodSchema (bounded_param "number")) (JsNumber (1 # 2))
     = Zod.failure [Zod.issue_min (1 # 1) (1 # 2)].
Proof. repeat split. Qed.

(** *** [buildZodSchema] *)

Lemma fold_set_prop_fresh {A V} (f : A -> V) (key_of : A -> string) (l : list A)
    (acc : list (string * V)) :
  NoDup (map key_of l) ->
  (forall x, x ∈ l -> key_of x ∉ Object_keys acc) ->
  fold_left (fun obj x => set_prop (key_of x) (f x) obj) l acc
  = (acc ++ map (fun x => (key_of x, f x)) l)%list.
Proof.
  revert acc. induction l as [| x rest IH]; intros acc Hnd Hfresh; cbn.
  - now rewrite app_nil_r.
  - apply NoDup_cons in Hnd as [Hx Hnd].
    rewrite set_prop_fresh by (apply Hfresh; left).
    rewrite IH; [now rewrite <- app_assoc | assumption |].
    intros y Hy Hin. rewrite keys_app in Hin. apply elem_of_app in Hin as [Hin | Hin].
    + apply (Hfresh y); [now right | exact Hin].
    + cbn in Hin. apply list_elem_of_singleton in Hin.
      apply Hx. rewrite <- Hin. now apply list_elem_of_fmap_2.
Qed.

(** A run of assignments under distinct names the object does not have
    appends the properties, those named [__proto__] left out. *)
Lemma fold_assign_fresh {A V} (f : A -> V) (key_of : A -> string) (l : list A)
    (acc : list (string * V)) :
  NoDup (map key_of l) ->
  (forall x, x ∈ l -> key_of x ∉ Object_keys acc) ->
  fold_left (fun obj x => assign (key_of x) (f x) obj) l acc
  = (acc ++ map (fun x => (key_of x, f x))
              (List.filter (fun x => storable (key_of x)) l))%list.
Proof.
  revert acc. induction l as [| x rest IH]; intros acc Hnd Hfresh; cbn.
  - now rewrite app_nil_r.
  - apply NoDup_cons in Hnd as [Hx Hnd].
    rewrite assign_fresh by (apply Hfresh; left).
    destruct (storable (key_of x)) eqn:E.
    + rewrite IH; [cbn; now rewrite <- app_assoc | assumption |].
      intros y Hy Hin. rewrite keys_app in Hin. apply elem_of_app in Hin as [Hin | Hin].
      * apply (Hfresh y); [now right | exact Hin].
      * cbn in Hin. apply list_elem_of_singleton in Hin.
        apply Hx. rewrite <- Hin. now apply list_elem_of_fmap_2.
    + apply IH; [assumption |]. intros y Hy. apply Hfresh. now right.
Qed.

Lemma buildZodSchema_map (ts : ToolSchema) (properties : list (string * ParameterSchema)) :
  schema_properties ts = Some properties ->
  NoDup (Object_keys properties) ->
  buildZodSchema (Some ts)
  = map (fun entry => (fst entry, compiled_property ts (fst entry) (snd entry)))
      (List.filter (fun entry => storable (fst entry)) properties).
Proof.
  intros Hp Hnd. unfold buildZodSchema. rewrite Hp.
  transitivity
    (fold_left
       (fun obj entry =>
          assign (fst entry) (compiled_property ts (fst entry) (snd entry)) obj)
       properties ([] : list (string * Zod.ZodType))).
  - clear Hp Hnd. generalize ([] : list (string * Zod.ZodType)).
    induction properties as [| [key param] rest IH]; intros acc; [reflexivity |].
    cbn [fold_left]. apply IH.
  - rewrite (fold_assign_fresh
               (fun entry => compiled_property ts (fst entry) (snd entry)) fst
               properties [] Hnd); [reflexivity |].
    intros x _. apply not_elem_of_nil.
Qed.

Lemma get_prop_map {V W} (f : string -> V -> W) (key : string) (obj : list (string * V)) :
  get_prop key (map (fun entry => (fst entry, f (fst entry) (snd entry))) obj)
  = f key <$> get_prop key obj.
Proof.
  induction obj as [| [k v] rest IH]; cbn; [reflexivity |].
  destruct (String.eqb_spec k key) as [-> | _]; [reflexivity | exact IH].
Qed.

Lemma get_prop_storable {V} (key : string) (obj : list (string * V)) :
  get_prop key (List.filter (fun entry => storable (fst entry)) obj)
  = if storable key then get_prop key obj else None.
Proof.
  induction obj as [| [k v] rest IH]; cbn [List.filter get_prop fst].
  - now destruct (storable key).
  - destruct (storable k) eqn:Ek; cbn [get_prop];
      destruct (String.eqb_spec k key) as [-> | Hne]; rewrite ?IH, ?Ek; reflexivity.
Qed.

Lemma base_validator_rejects_undefined (param : ParameterSchema) :
  param_default param = None ->
  is_failure (Zod.safeParse (parameterToZodSchema param) JsUndefined).
Proof.
  intros Hd. unfold parameterToZodSchema. rewrite Hd.
  destruct (truthy_string (param_description param)); cbn [Zod.safeParse];
    repeat match goal with
           | |- context [if ?b then _ else _] => destruct b
           | |- context [match param_enum param with _ => _ end] =>
               destruct (param_enum param)
           end; eexists; reflexivity.
Qed.

(** X3. For a schema whose properties bear distinct names, [buildZodSchema]
    holds the validator of every declared name but [__proto__], and none for
    any other name: a parameter declared under the name [__proto__] is left
    without validator, required or not.  A provided value is validated as
    the parameter's own validator does.  For a parameter without default, an
    omitted value is accepted (and stays omitted) when the name is not listed
    in [required], and rejected when it is. *)
Theorem buildZodSchema_required_and_optional
    (ts : ToolSchema) (properties : list (string * ParameterSchema)) (key : string) :
  schema_properties ts = Some properties ->
  NoDup (Object_keys properties) ->
  (key <> "__proto__" ->
   get_prop key (buildZodSchema (Some ts))
   = compiled_property ts key <$> get_prop key properties)
  /\ get_prop "__proto__" (buildZodSchema (Some ts)) = None
  /\ forall param,
       get_prop key properties = Some param ->
       (forall v, v <> JsUndefined ->
          Zod.safeParse (compiled_property ts key param) v
          = Zod.safeParse (parameterToZodSchema param) v)
       /\ (includes (default [] (schema_required ts)) key = false ->
           param_default param = None ->
           Zod.safeParse (compiled_property ts key param) JsUndefined
           = Zod.success JsUndefined)
       /\ (includes (default [] (schema_required ts)) key = true ->
           param_default param = None ->
           is_failure (Zod.safeParse (compiled_property ts key param) JsUndefined)).
Proof.
  intros Hp Hnd. rewrite (buildZodSchema_map ts properties Hp Hnd).
  rewrite !get_prop_map, !get_prop_storable. split; [| split].
  - intros Hne. unfold storable.
    destruct (String.eqb_spec key "__proto__"); [contradiction | reflexivity].
  - reflexivity.
  - intros param _. unfold compiled_property. split; [| split].
    + intros v Hv. destruct (includes _ key); [reflexivity |].
      cbn. now destruct v.
    + intros -> _. reflexivity.
    + intros -> Hd. now apply base_validator_rejects_undefined.
Qed.

Lemma buildZodSchema_witness :
  get_prop "count" (buildZodSchema (Some count_schema))
  = Some (parameterToZodSchema (bounded_param "integer"))
  /\ get_prop "other" (buildZodSchema (Some count_schema)) = None.
Proof.
  assert (Hnd : NoDup (Object_keys [("count", bounded_param "integer");
                                    ("label", {| param_type := "string";
                                                 param_description := None;
                                                 param_enum := None;
                                                 param_minimum := None;
                                                 param_maximum := None;
                                                 param_default := None |})])).
  { cbn. repeat (apply NoDup_cons_2 || apply NoDup_nil_2);
      rewrite ?not_elem_of_cons; repeat split; try discriminate; apply not_elem_of_nil. }
  split.
  - destruct (buildZodSchema_required_and_optional count_schema _ "count" eq_refl Hnd)
      as [H _]. apply H. discriminate.
  - destruct (buildZodSchema_required_and_optional count_schema _ "other" eq_refl Hnd)
      as [H _]. apply H. discriminate.
Defined.

(** A required parameter declared under the name [__proto__] gets no
    validator. *)
Example required_proto_is_not_validated :
  buildZodSchema
    (Some {| schema_properties := Some [("__proto__", bounded_param "integer")];
             schema_required := Some ["__proto__"] |})
  = [].
Proof. reflexivity. Qed.

(** ** Registry cache: refresh and invalidation *)

Lemma invalidate_is_stale (s : Process) (now : Z) :
  is_fresh (toolsCache (invalidate s)) now = false.
Proof. reflexivity. Qed.

(** X4. With the database enabled and answering, a forced load and a load
    that follows an invalidation both return the stored tools, whatever the
    clock says; the cache then holds them, stamped with the time read, with
    no name marked as registered, and one query was sent. *)
Theorem load_after_invalidation_reads_store
    (w : World) (s : Process) (rows : list Row) :
  isDatabaseEnabled w = true ->
  store_select w (store_calls s) = Normal rows ->
  (fst (loadCustomTools w true s) = Normal (map row_to_tool rows)
   /\ toolsCache (snd (loadCustomTools w true s))
      = {| tools := map row_to_tool rows; timestamp := Date_now w (clock_reads s);
           registered := ∅ |}
   /\ store_calls (snd (loadCustomTools w true s)) = S (store_calls s))
  /\ (fst (loadCustomTools w false (invalidate s)) = Normal (map row_to_tool rows)
      /\ toolsCache (snd (loadCustomTools w false (invalidate s)))
         = {| tools := map row_to_tool rows; timestamp := Date_now w (clock_reads s);
              registered := ∅ |}
      /\ store_calls (snd (loadCustomTools w false (invalidate s))) = S (store_calls s)).
Proof.
  intros Hdb Hsel. split.
  - rewrite loadCustomTools_eq. cbn [negb andb]. rewrite Hdb, Hsel. cbn.
    now rewrite with_pool_store_calls.
  - rewrite loadCustomTools_eq. cbn [negb andb]. rewrite invalidate_is_stale, Hdb.
    change (store_calls (invalidate s)) with (store_calls s). rewrite Hsel. cbn.
    now rewrite with_pool_store_calls.
Qed.

Lemma load_after_invalidation_witness :
  fst (loadCustomTools ping_world false (invalidate started_process))
  = Normal [row_to_tool ping_row].
Proof.
  destruct (load_after_invalidation_reads_store ping_world started_process [ping_row]
              eq_refl eq_refl) as [_ [H _]].
  exact H.
Defined.


Lemma loadCustomTools_store_calls (w : World) (forceReload : bool) (s : Process) :
  store_calls (snd (loadCustomTools w forceReload s))
  = (store_calls s
     + if negb forceReload && is_fresh (toolsCache s) (Date_now w (clock_reads s))
       then 0 else if isDatabaseEnabled w then 1 else 0)%nat.
Proof.
  rewrite loadCustomTools_eq.
  destruct (negb forceReload && is_fresh (toolsCache s) (Date_now w (clock_reads s)));
    [cbn; lia |].
  destruct (isDatabaseEnabled w); [| cbn; lia].
  destruct (store_select w (store_calls s)); cbn; rewrite with_pool_store_calls; cbn; lia.
Qed.

Lemma register_step_store_calls (w : World) (forceReload : bool) (snapshot : nat)
    (s : Process) (entry : nat * CustomTool) :
  store_calls (register_step w forceReload snapshot s entry) = store_calls s.
Proof.
  destruct entry as [index tool]. unfold register_step. rewrite register_one_eq.
  destruct (negb forceReload && bool_decide (tool_name tool ∈ registered (toolsCache s)));
    [reflexivity |].
  destruct (registeredTools s !! tool_name tool); [destruct (on_duplicate w) |]; reflexivity.
Qed.

Lemma register_step_tools (w : World) (forceReload : bool) (snapshot : nat)
    (s : Process) (entry : nat * CustomTool) :
  tools (toolsCache (register_step w forceReload snapshot s entry)) = tools (toolsCache s).
Proof.
  destruct entry as [index tool]. unfold register_step. rewrite register_one_eq.
  destruct (negb forceReload && bool_decide (tool_name tool ∈ registered (toolsCache s)));
    [reflexivity |].
  destruct (registeredTools s !! tool_name tool); [destruct (on_duplicate w) |]; reflexivity.
Qed.

(** A quantity that no round of the registration loop changes is the same
    after the loop. *)
Lemma fold_register_invariant {A} (w : World) (forceReload : bool) (snapshot : nat)
    (f : Process -> A) (l : list (nat * CustomTool)) (s : Process) :
  (forall s' entry, f (register_step w forceReload snapshot s' entry) = f s') ->
  f (fold_left (register_step w forceReload snapshot) l s) = f s.
Proof.
  intros Hf. revert s. induction l as [| t rest IH]; intros s; [reflexivity |].
  cbn [fold_left]. now rewrite IH, Hf.
Qed.

(** What [registerCustomTools] leaves untouched: the queries counted by the
    load it starts with, and the snapshot that load installed. *)
Lemma registerCustomTools_frame (w : World) (forceReload : bool) (s : Process) :
  store_calls (snd (registerCustomTools w forceReload s))
  = store_calls (snd (loadCustomTools w forceReload s))
  /\ tools (toolsCache (snd (registerCustomTools w forceReload s)))
     = tools (toolsCache (snd (loadCustomTools w forceReload s))).
Proof.
  destruct (registerCustomTools_eq w forceReload s) as (loaded & _ & ->). cbn [snd].
  set (s1 := snd (loadCustomTools w forceReload s)).
  split.
  - transitivity (store_calls (fold_left (register_step w forceReload (snapshot_id s1))
                                 (indexed_from 0 loaded) s1)).
    + now destruct (0 <? length loaded)%nat.
    + apply (fold_register_invariant w forceReload (snapshot_id s1) store_calls).
      intros s' entry. apply register_step_store_calls.
  - transitivity (tools (toolsCache (fold_left (register_step w forceReload (snapshot_id s1))
                                       (indexed_from 0 loaded) s1))).
    + now destruct (0 <? length loaded)%nat.
    + apply (fold_register_invariant w forceReload (snapshot_id s1)
               (fun s' => tools (toolsCache s'))).
      intros s' entry. apply register_step_tools.
Qed.

(** X5. [refresh_custom_tools] never throws: it answers with a text result
    that lists the snapshot the cache holds afterwards.  It reads the store
    twice when the database is enabled (once to register, once to report) and
    not at all otherwise. *)
Theorem refresh_reports_the_cached_snapshot (w : World) (s : Process) :
  fst (refresh_custom_tools_callback w s)
  = Normal (text_result
              (refresh_report w
                 (tools (toolsCache (snd (refresh_custom_tools_callback w s))))))
  /\ store_calls (snd (refresh_custom_tools_callback w s))
     = (store_calls s + if isDatabaseEnabled w then 2 else 0)%nat.
Proof.
  unfold refresh_custom_tools_callback. run_M.
  destruct (registerCustomTools_frame w true (invalidate s)) as [Hcalls _].
  rewrite loadCustomTools_store_calls in Hcalls. cbn [negb andb] in Hcalls.
  change (store_calls (invalidate s)) with (store_calls s) in Hcalls.
  destruct (registerCustomTools_eq w true (invalidate s)) as (loaded & _ & Heq).
  rewrite Heq in Hcalls. rewrite Heq. cbn [fst snd] in *.
  set (s2 := (if (0 <? length loaded)%nat then _ else id) _) in *.
  pose proof (loadCustomTools_returns_cache w true s2) as Hret.
  pose proof (loadCustomTools_store_calls w true s2) as Hcalls2.
  cbn [negb andb] in Hcalls2.
  destruct (loadCustomTools w true s2) as [r s3]. cbn [fst snd] in *. subst r.
  split; [reflexivity |]. cbn [snd].
  rewrite Hcalls2, Hcalls. destruct (isDatabaseEnabled w); lia.
Qed.

(** *** Which names the registration loop binds *)

Lemma register_step_keeps_bound (w : World) (forceReload : bool) (snapshot : nat)
    (s : Process) (entry : nat * CustomTool) (name : string) :
  is_Some (registeredTools s !! name) ->
  is_Some (registeredTools (register_step w forceReload snapshot s entry) !! name).
Proof.
  intros Hb. destruct entry as [index tool]. unfold register_step. rewrite register_one_eq.
  destruct (negb forceReload && bool_decide (tool_name tool ∈ registered (toolsCache s)));
    [exact Hb |].
  destruct (registeredTools s !! tool_name tool); [destruct (on_duplicate w) |]; cbn;
    try exact Hb;
    (destruct (decide (tool_name tool = name)) as [-> | Hne];
     [rewrite lookup_insert_eq; eauto | now rewrite lookup_insert_ne]).
Qed.

Lemma register_step_forced_binds (w : World) (snapshot : nat) (s : Process)
    (entry : nat * CustomTool) :
  is_Some (registeredTools (register_step w true snapshot s entry)
           !! tool_name (snd entry)).
Proof.
  destruct entry as [index tool]. cbn [snd].
  unfold register_step. rewrite register_one_eq. cbn [negb andb].
  destruct (registeredTools s !! tool_name tool) eqn:E;
    [destruct (on_duplicate w) |]; cbn; rewrite ?lookup_insert_eq, ?E; eauto.
Qed.

Lemma fold_forced_binds_all (w : World) (snapshot : nat) (l : list (nat * CustomTool))
    (s : Process) (entry : nat * CustomTool) :
  In entry l ->
  is_Some (registeredTools (fold_left (register_step w true snapshot) l s)
           !! tool_name (snd entry)).
Proof.
  revert s. induction l as [| t rest IH]; intros s Hin; [contradiction |].
  cbn [fold_left]. destruct Hin as [-> | Hin]; [| now apply IH].
  generalize (register_step_forced_binds w snapshot s entry).
  generalize (register_step w true snapshot s entry). clear.
  induction rest as [| t rest IH]; intros s Hb; [exact Hb |].
  cbn [fold_left]. apply IH. now apply register_step_keeps_bound.
Qed.

Lemma In_indexed_from {A} (l : list A) (k : nat) (x : A) :
  In x l -> exists index, In (index, x) (indexed_from k l).
Proof.
  revert k. induction l as [| y rest IH]; intros k Hin; [contradiction |].
  destruct Hin as [-> | Hin].
  - exists k. now left.
  - destruct (IH (S k) Hin) as [index Hindex]. exists index. now right.
Qed.

(** X6. After a forced registration ([registerCustomTools(server, true)]),
    every tool of the snapshot held by the cache has its name in the server's
    table, however the server treats a name registered twice. *)
Theorem forced_registration_covers_snapshot
    (w : World) (s : Process) (tool : CustomTool) :
  In tool (tools (toolsCache (snd (registerCustomTools w true s)))) ->
  is_Some (resolve (snd (registerCustomTools w true s)) (tool_name tool)).
Proof.
  intros Hin.
  destruct (registerCustomTools_frame w true s) as [_ Htools]. rewrite Htools in Hin.
  destruct (registerCustomTools_eq w true s) as (loaded & Hloaded & ->). cbn [snd].
  rewrite loadCustomTools_returns_cache in Hloaded. injection Hloaded as <-.
  unfold resolve. apply fmap_is_Some.
  destruct (In_indexed_from _ 0 tool Hin) as [index Hindex].
  pose proof (fold_forced_binds_all w (snapshot_id (snd (loadCustomTools w true s))) _
                (snd (loadCustomTools w true s)) (index, tool) Hindex) as H.
  cbn [snd] in H.
  now destruct (0 <? length _)%nat.
Qed.

Lemma forced_registration_witness :
  is_Some (resolve (snd (registerCustomTools ping_world true initial_process)) "ping").
Proof.
  apply (forced_registration_covers_snapshot ping_world initial_process
           (row_to_tool ping_row)).
  left. reflexivity.
Defined.

Lemma In_indexed_from_inv {A} (l : list A) (k index : nat) (x : A) :
  In (index, x) (indexed_from k l) -> In x l.
Proof.
  revert k. induction l as [| y rest IH]; intros k Hin; [contradiction |].
  destruct Hin as [[= _ <-] | Hin]; [now left | right; now apply (IH (S k))].
Qed.

(** X7. While the snapshot is fresh and all its tools are marked as
    registered, an unforced registration ([registerCustomTools(server)], as
    run by the initializer) reads nothing from the store and leaves the
    server's table as it is: a table that lacks the custom tools still lacks
    them afterwards. *)
Theorem unforced_registration_skips_marked_tools (w : World) (s : Process) :
  is_fresh (toolsCache s) (Date_now w (clock_reads s)) = true ->
  (forall tool, In tool (tools (toolsCache s)) ->
                tool_name tool ∈ registered (toolsCache s)) ->
  registeredTools (snd (registerCustomTools w false s)) = registeredTools s
  /\ toolsCache (snd (registerCustomTools w false s)) = toolsCache s
  /\ store_calls (snd (registerCustomTools w false s)) = store_calls s.
Proof.
  intros Hfresh Hmarked.
  destruct (registerCustomTools_eq w false s) as (loaded & Hloaded & ->). cbn [snd].
  rewrite loadCustomTools_eq in *. cbn [negb andb] in *. rewrite Hfresh in *.
  cbn [fst snd] in *. injection Hloaded as <-.
  assert (Hfold : forall snapshot l s',
             (forall entry, In entry l ->
                            tool_name (snd entry) ∈ registered (toolsCache s')) ->
             fold_left (register_step w false snapshot) l s' = s').
  { intros snapshot. induction l as [| [i t] rest IH]; intros s' Hm; [reflexivity |].
    cbn [fold_left]. unfold register_step at 2. rewrite register_one_eq. cbn [negb andb].
    rewrite bool_decide_eq_true_2 by (apply (Hm (i, t)); now left).
    cbn [snd]. apply IH. intros entry Hin. apply Hm. now right. }
  rewrite (Hfold _ (indexed_from 0 (tools (toolsCache s))) (tick_clock s)).
  - now destruct (0 <? length (tools (toolsCache s)))%nat.
  - intros [index tool] Hin. cbn [snd]. apply Hmarked.
    now apply In_indexed_from_inv in Hin.
Qed.

Lemma unforced_registration_witness :
  registeredTools (snd (registerCustomTools ping_world false (new_server started_process)))
  = ∅
  /\ resolve (snd (initializeServer ping_world (new_server started_process))) "ping"
     = None.
Proof.
  destruct (unforced_registration_skips_marked_tools ping_world
              (new_server started_process) eq_refl) as (H & _ & _).
  - intros tool [<- | []]. vm_compute. set_solver.
  - split; [exact H | vm_compute; reflexivity].
Defined.

(** ** The callback of a custom tool *)

Lemma find_from_find (name : string) (k : nat) (l : list CustomTool) :
  snd <$> find_from name k l = find (named name) l.
Proof.
  revert k. induction l as [| t rest IH]; intros k; [reflexivity |].
  cbn [find_from find]. unfold named at 1.
  destruct (String.eqb (tool_name t) name); [reflexivity | apply IH].
Qed.

Lemma find_from_lookup (name : string) (k index : nat) (l : list CustomTool)
    (tool : CustomTool) :
  find_from name k l = Some (index, tool) ->
  exists j : nat, index = (k + j)%nat /\ l !! j = Some tool.
Proof.
  revert k. induction l as [| t rest IH]; intros k Hfind; [discriminate |].
  cbn [find_from] in Hfind.
  destruct (String.eqb (tool_name t) name).
  - injection Hfind as <- <-. exists 0%nat. split; [lia | reflexivity].
  - destruct (IH (S k) Hfind) as (j & -> & Hj). exists (S j). split; [lia | exact Hj].
Qed.

(** The descriptor the callback goes on with is the one [find] gives. *)
Lemma current_object_definition (object : ObjectId) (tool : CustomTool)
    (snapshot : nat) (currentTools : list CustomTool) :
  snd (current_object object tool snapshot currentTools)
  = current_definition tool currentTools.
Proof.
  unfold current_object, current_definition.
  change (λ t, String.eqb (tool_name t) (tool_name tool)) with (named (tool_name tool)).
  rewrite <- find_from_find with (k := 0%nat).
  now destruct (find_from (tool_name tool) 0 currentTools) as [[index found] |].
Qed.

(** X8. Called while the snapshot is fresh, the callback of a custom tool
    reads nothing from the store and runs the snapshot's tool of the same
    name, by that tool's own type; when the snapshot has no tool of that name
    any more, it runs the tool it was registered with.  The descriptor it
    works on is the object in the snapshot in the first case, and the object
    it closes over in the second. *)
Theorem custom_callback_runs_current_definition
    (w : World) (object : ObjectId) (tool : CustomTool)
    (params : list (string * JsValue)) (s : Process) :
  is_fresh (toolsCache s) (Date_now w (clock_reads s)) = true ->
  is_fresh (toolsCache s) (Date_now w (S (clock_reads s))) = true ->
  custom_tool_callback w object tool params s
  = run_tool w
      (fst (current_object object tool (snapshot_id s) (tools (toolsCache s))))
      (current_definition tool (tools (toolsCache s))) params
      (tick_clock (tick_clock s))
  /\ (find (named (tool_name tool)) (tools (toolsCache s)) = None ->
      current_definition tool (tools (toolsCache s)) = tool
      /\ fst (current_object object tool (snapshot_id s) (tools (toolsCache s)))
         = object)
  /\ (forall stored,
        find (named (tool_name tool)) (tools (toolsCache s)) = Some stored ->
        current_definition tool (tools (toolsCache s)) = stored
        /\ tool_name stored = tool_name tool
        /\ exists index,
             fst (current_object object tool (snapshot_id s) (tools (toolsCache s)))
             = (snapshot_id s, index)
             /\ tools (toolsCache s) !! index = Some stored).
Proof.
  intros Hf1 Hf2. split; [| split].
  - rewrite custom_tool_callback_eq. cbv zeta.
    unfold is_fresh in Hf1. apply andb_true_iff in Hf1 as [Hpos Hage].
    apply Z.ltb_lt in Hpos. apply Z.ltb_lt in Hage.
    replace (timestamp (toolsCache s) =? 0) with false by (symmetry; apply Z.eqb_neq; lia).
    replace (CACHE_DURATION <=? Date_now w (clock_reads s) - timestamp (toolsCache s))
      with false by (symmetry; apply Z.leb_gt; lia).
    cbn [orb]. rewrite loadCustomTools_eq. cbn [negb andb].
    change (toolsCache (tick_clock s)) with (toolsCache s).
    change (clock_reads (tick_clock s)) with (S (clock_reads s)).
    rewrite Hf2. cbn [fst snd].
    now rewrite current_object_definition.
  - intros Hfind. unfold current_definition, current_object.
    change (λ t, String.eqb (tool_name t) (tool_name tool)) with (named (tool_name tool)).
    rewrite Hfind. rewrite <- find_from_find with (k := 0%nat) in Hfind.
    destruct (find_from (tool_name tool) 0 (tools (toolsCache s))); [discriminate |].
    now split.
  - intros stored Hfind. unfold current_definition, current_object.
    change (λ t, String.eqb (tool_name t) (tool_name tool)) with (named (tool_name tool)).
    rewrite Hfind. split; [reflexivity |]. split.
    + apply find_some in Hfind as [_ Heq]. now apply String.eqb_eq in Heq.
    + rewrite <- find_from_find with (k := 0%nat) in Hfind.
      destruct (find_from (tool_name tool) 0 (tools (toolsCache s)))
        as [[index found] |] eqn:E; [| discriminate].
      injection Hfind as ->.
      destruct (find_from_lookup _ _ _ _ _ E) as (j & -> & Hj).
      exists j. split; [reflexivity | exact Hj].
Qed.

Lemma custom_callback_witness :
  custom_tool_callback ping_world (0%nat, 7%nat) (script_tool "gone" boom_source) []
    started_process
  = run_tool ping_world (0%nat, 7%nat) (script_tool "gone" boom_source) []
      (tick_clock (tick_clock started_process))
  /\ custom_tool_callback ping_world (0%nat, 7%nat) (script_tool "ping" boom_source) []
       started_process
     = run_tool ping_world (1%nat, 0%nat) (row_to_tool ping_row) []
         (tick_clock (tick_clock started_process)).
Proof.
  destruct (custom_callback_runs_current_definition ping_world (0%nat, 7%nat)
              (script_tool "gone" boom_source) [] started_process eq_refl eq_refl)
    as (H1 & H2 & _).
  destruct (custom_callback_runs_current_definition ping_world (0%nat, 7%nat)
              (script_tool "ping" boom_source) [] started_process eq_refl eq_refl)
    as (H3 & _ & H4).
  split.
  - rewrite H1. destruct (H2 eq_refl) as [-> ->]. reflexivity.
  - rewrite H3. destruct (H4 (row_to_tool ping_row) eq_refl) as [-> _]. reflexivity.
Defined.

(** ** The executors of custom tools *)

Lemma text_result_is_envelope (text : string) : is_envelope (text_result text).
Proof. eexists. split; reflexivity. Qed.


Lemma api_result_not_ok (w : World) (response : HttpResponse) :
  resp_ok response = false ->
  api_result w response = error_result (api_error_text w response).
Proof.
  intros Hok. unfold api_result, api_error_text. rewrite Hok. cbn [negb].
  now destruct (JSON_parse w (resp_text response)) as [[| | | | | |] |].
Qed.

Lemma api_result_ok (w : World) (response : HttpResponse) :
  resp_ok response = true -> is_envelope (api_result w response).
Proof.
  intros Hok. unfold api_result. rewrite Hok. cbn [negb].
  destruct (JSON_parse w (resp_text response)) as [[| | | | | | fields] |];
    try apply text_result_is_envelope.
  destruct (has_content_array fields) eqn:E;
    [now exists fields | apply text_result_is_envelope].
Qed.

(** The headers of a descriptor that was written into carry
    [Content-Type: application/json]. *)
Lemma written_config_headers (marks : gset ObjectId) (object : ObjectId)
    (loaded : ApiConfig) (headers : list (string * string)) :
  object ∈ marks ->
  api_headers loaded = Some headers ->
  api_headers (current_config marks object loaded)
  = Some (set_prop "Content-Type" "application/json" headers).
Proof.
  intros Hin Hh. unfold current_config. rewrite bool_decide_eq_true_2 by exact Hin.
  cbn. now rewrite Hh.
Qed.

(** X10. What a call to an API tool does.  Without [apiConfig] it throws [API
    configuration missing] and touches nothing.  Otherwise it sends one
    request, built from the descriptor as the call finds it: an exception of
    [fetch] is passed on to the caller; a response that is not [ok] becomes a
    result flagged [isError: true] whose text carries the status and the
    body; a response that is [ok] becomes an envelope.  When the request has
    a body and the descriptor has headers of its own, the call writes
    [Content-Type] into them, and every later request built for that
    descriptor carries [Content-Type: application/json], with or without a
    body. *)
Theorem api_tool_outcomes
    (w : World) (object : ObjectId) (tool : CustomTool)
    (params : list (string * JsValue)) (s : Process) :
  (apiConfig tool = None ->
   executeApiTool w object tool params s
   = (Throw (ErrorInstance "API configuration missing"), s))
  /\ (forall loaded config request,
        apiConfig tool = Some loaded ->
        config = current_config (written s) object loaded ->
        request = build_request w tool config params ->
        (forall e,
            fetch w (fetch_calls s) request = Throw e ->
            executeApiTool w object tool params s
            = (Throw e, after_request object config request s))
        /\ (forall response,
              fetch w (fetch_calls s) request = Normal response ->
              resp_ok response = false ->
              executeApiTool w object tool params s
              = (Normal (error_result (api_error_text w response)),
                 after_request object config request s)
              /\ isError_of (error_result (api_error_text w response))
                 = Some (JsBoolean true))
        /\ (forall response,
              fetch w (fetch_calls s) request = Normal response ->
              resp_ok response = true ->
              exists result,
                executeApiTool w object tool params s
                = (Normal result, after_request object config request s)
                /\ is_envelope result)
        /\ (req_body request = None \/ api_headers loaded = None ->
            written (after_request object config request s) = written s)
        /\ (forall headers params',
              req_body request <> None ->
              api_headers loaded = Some headers ->
              object ∈ written (after_request object config request s)
              /\ get_prop "Content-Type"
                   (req_headers
                      (build_request w tool
                         (current_config (written (after_request object config request s))
                            object loaded)
                         params'))
                 = Some "application/json")).
Proof.
  split.
  - intros H. now rewrite executeApiTool_eq, H.
  - intros loaded config request Hconfig -> ->.
    rewrite executeApiTool_eq, Hconfig. cbn zeta.
    split; [| split; [| split; [| split]]].
    + now intros e ->.
    + intros response -> Hok. now rewrite (api_result_not_ok w response Hok).
    + intros response -> Hok. eexists. split; [reflexivity | now apply api_result_ok].
    + intros Hnone. unfold after_request, writes_header.
      assert (Hh : api_headers loaded = None ->
                   api_headers (current_config (written s) object loaded) = None).
      { intros Hl. unfold current_config. destruct (bool_decide _); cbn; now rewrite Hl. }
      destruct Hnone as [-> | Hl]; [reflexivity |].
      rewrite (Hh Hl). now destruct (req_body _).
    + intros headers params' Hbody Hheaders.
      assert (Hw : writes_header (current_config (written s) object loaded)
                     (build_request w tool (current_config (written s) object loaded)
                        params) = true).
      { unfold writes_header.
        destruct (req_body _); [| contradiction].
        unfold current_config. destruct (bool_decide _); cbn; now rewrite Hheaders. }
      unfold after_request. rewrite Hw. cbn [written tick_fetch mark_written].
      assert (Hin : object ∈ {[ object ]} ∪ written s) by set_solver.
      split; [exact Hin |].
      unfold build_request.
      rewrite (written_config_headers _ object loaded headers Hin Hheaders).
      destruct (distribute_params tool _ params') as [q b]. cbn [default].
      destruct (negb (is_GET _) && (0 <? length (Object_keys b))%nat);
        cbn [req_headers].
      * rewrite assign_ordinary by discriminate. apply get_prop_set_prop_eq.
      * apply get_prop_set_prop_eq.
Qed.

Example api_tool_unavailable :
  fst (executeApiTool unavailable_world (1%nat, 0%nat) router_tool router_args
         initial_process)
  = Normal (error_result ("API Error 503: Service Unavailable" ++ newline ++ "down"))
  /\ executeApiTool unavailable_world (1%nat, 0%nat) (script_tool "no_config" "") []
       initial_process
     = (Throw (ErrorInstance "API configuration missing"), initial_process).
Proof. split; reflexivity. Qed.

(** The descriptor [router_tool] declares [Content-Type: text/plain].  A
    first call with arguments for the body leaves [application/json] in its
    place, and a second call without any argument, which has no body, sends
    it. *)
Example content_type_outlives_the_request :
  req_headers
    (build_request plain_world router_tool
       (current_config (written initial_process) (1%nat, 0%nat) router_config) [])
  = [("Content-Type", "text/plain"); ("X-API-Key", "k")]
  /\ req_body
       (build_request plain_world router_tool
          (current_config
             (written (snd (executeApiTool plain_world (1%nat, 0%nat) router_tool
                              router_args initial_process)))
             (1%nat, 0%nat) router_config) [])
     = None
  /\ req_headers
       (build_request plain_world router_tool
          (current_config
             (written (snd (executeApiTool plain_world (1%nat, 0%nat) router_tool
                              router_args initial_process)))
             (1%nat, 0%nat) router_config) [])
     = [("Content-Type", "application/json"); ("X-API-Key", "k")].
Proof. vm_compute. repeat split. Qed.

(** *** The request of an API tool *)

Lemma search_params_map (w : World) (queryParams : list (string * JsValue)) :
  NoDup (Object_keys queryParams) ->
  search_params w queryParams
  = map (fun entry => (fst entry, String_ w (snd entry))) queryParams.
Proof.
  intros Hnd. unfold search_params.
  transitivity
    (fold_left (fun obj entry => set_prop (fst entry) (String_ w (snd entry)) obj)
       queryParams ([] : list (string * string))).
  - clear Hnd. generalize ([] : list (string * string)).
    induction queryParams as [| [key value] rest IH]; intros acc; [reflexivity |].
    cbn [fold_left]. apply IH.
  - rewrite (fold_set_prop_fresh (fun entry => String_ w (snd entry)) fst
               queryParams [] Hnd); [reflexivity |].
    intros x _. apply not_elem_of_nil.
Qed.

Lemma append_empty_r (s : string) : s ++ "" = s.
Proof.
  induction s as [| c s IH]; [reflexivity |].
  change (String c (s ++ "") = String c s). now rewrite IH.
Qed.

(** The request, read off the two filters of the argument list. *)
Lemma build_request_eq (w : World) (tool : CustomTool) (config : ApiConfig)
    (params : list (string * JsValue)) :
  NoDup (Object_keys params) ->
  build_request w tool config params
  = let queryParams := List.filter (lands_in_query tool (api_method config)) params in
    let bodyParams := List.filter (lands_in_body tool (api_method config)) params in
    let sends_body :=
      negb (is_GET (api_method config)) && (0 <? length bodyParams)%nat in
    {| req_url := before_question_mark (api_url config) ++ query_string w queryParams;
       req_method := api_method config;
       req_headers :=
         if sends_body
         then set_prop "Content-Type" "application/json" (default [] (api_headers config))
         else default [] (api_headers config);
       req_body :=
         if sends_body then Some (JSON_stringify w (JsObject bodyParams)) else None |}.
Proof.
  intros Hnd. unfold build_request.
  rewrite (distribute_params_filter tool (api_method config) params Hnd). cbn zeta.
  set (q := List.filter (lands_in_query tool (api_method config)) params).
  set (b := List.filter (lands_in_body tool (api_method config)) params).
  rewrite (search_params_map w q) by (now apply NoDup_keys_filter).
  unfold Object_keys. rewrite !length_map.
  assert (Hurl : (if (0 <? length q)%nat
                  then before_question_mark (api_url config) ++ "?"
                       ++ URLSearchParams_toString w
                            (map (fun entry => (fst entry, String_ w (snd entry))) q)
                  else before_question_mark (api_url config))
                 = before_question_mark (api_url config) ++ query_string w q).
  { clearbody q. destruct q; cbn [length Nat.ltb Nat.leb query_string];
      [now rewrite append_empty_r | reflexivity]. }
  rewrite Hurl. rewrite assign_ordinary by discriminate.
  now destruct (negb (is_GET (api_method config)) && (0 <? length b)%nat).
Qed.

Lemma filter_filter_same {A} (f : A -> bool) (l : list A) :
  List.filter f (List.filter f l) = List.filter f l.
Proof.
  induction l as [| x rest IH]; cbn; [reflexivity |].
  destruct (f x) eqn:E; cbn; rewrite ?E, IH; reflexivity.
Qed.

(** Filtering by the rule and then by what lands is filtering by what
    lands. *)
Lemma filter_lands_in_query (tool : CustomTool) (method : HttpMethod)
    (l : list (string * JsValue)) :
  List.filter (lands_in_query tool method) (List.filter (goes_to_query tool method) l)
  = List.filter (lands_in_query tool method) l.
Proof.
  induction l as [| x rest IH]; cbn [List.filter]; [reflexivity |].
  unfold lands_in_query at 2.
  destruct (goes_to_query tool method x) eqn:E; cbn [andb List.filter].
  - unfold lands_in_query at 1. rewrite E. cbn [andb].
    destruct (storable (fst x)); now rewrite IH.
  - exact IH.
Qed.

(** X11. A GET request never has a body and carries the declared headers as
    they are: the arguments routed to the body bucket (those declared in
    [inputSchema] and not in [querySchema]) are not sent at all.  The request
    is the one built from the query-routed arguments alone. *)
Theorem get_request_drops_body_arguments
    (w : World) (tool : CustomTool) (config : ApiConfig)
    (params : list (string * JsValue)) :
  NoDup (Object_keys params) ->
  is_GET (api_method config) = true ->
  req_body (build_request w tool config params) = None
  /\ req_headers (build_request w tool config params) = default [] (api_headers config)
  /\ build_request w tool config params
     = build_request w tool config
         (List.filter (goes_to_query tool (api_method config)) params).
Proof.
  intros Hnd Hget.
  rewrite (build_request_eq w tool config params Hnd).
  rewrite (build_request_eq w tool config
             (List.filter (goes_to_query tool (api_method config)) params))
    by (now apply NoDup_keys_filter).
  cbn zeta. rewrite Hget. cbn [negb andb req_body req_headers].
  rewrite filter_lands_in_query. repeat split.
Qed.

Lemma get_request_witness :
  req_body (build_request plain_world get_tool get_config
              [("a", JsNumber (1 # 1)); ("b", JsNumber (2 # 1))]) = None
  /\ build_request plain_world get_tool get_config
       [("a", JsNumber (1 # 1)); ("b", JsNumber (2 # 1))]
     = build_request plain_world get_tool get_config [("a", JsNumber (1 # 1))].
Proof.
  destruct (get_request_drops_body_arguments plain_world get_tool get_config
              [("a", JsNumber (1 # 1)); ("b", JsNumber (2 # 1))]) as (H1 & _ & H3).
  - cbn. repeat (apply NoDup_cons_2 || apply NoDup_nil_2);
      rewrite ?not_elem_of_cons; repeat split; try discriminate; apply not_elem_of_nil.
  - reflexivity.
  - split; [exact H1 | exact H3].
Defined.

Lemma before_question_mark_has_none (url : string) :
  string_includes "?" (before_question_mark url) = false.
Proof.
  induction url as [| c rest IH]; [reflexivity |].
  cbn [before_question_mark].
  destruct (Ascii.eqb_spec c "?"%char) as [-> | Hne]; [reflexivity |].
  cbn [string_includes String.prefix]. rewrite IH.
  destruct (Ascii.ascii_dec "?" c) as [E | _]; [congruence | reflexivity].
Qed.

Lemma before_question_mark_prefix (url : string) :
  exists rest,
    url = before_question_mark url ++ rest /\ (rest = "" \/ exists r, rest = "?" ++ r).
Proof.
  induction url as [| c url IH]; [exists ""; split; [reflexivity | now left] |].
  cbn [before_question_mark].
  destruct (Ascii.eqb_spec c "?"%char) as [-> | Hne].
  - exists (String "?" url). split; [reflexivity | right; now exists url].
  - destruct IH as (rest & Heq & Hrest). exists rest. split; [| exact Hrest].
    change (String c url = String c (before_question_mark url ++ rest)).
    now rewrite <- Heq.
Qed.

(** X12. The query string written in the descriptor's URL is never sent: the
    request goes to the part of the URL before its first question mark,
    followed by a query string made of the arguments that landed in the query
    bucket (the query-routed ones, an argument named [__proto__] left out),
    each value passed through [String]; with no such argument the URL has no
    query string at all. *)
Theorem declared_query_string_is_discarded
    (w : World) (tool : CustomTool) (config : ApiConfig)
    (params : list (string * JsValue)) :
  NoDup (Object_keys params) ->
  req_url (build_request w tool config params)
  = before_question_mark (api_url config)
    ++ query_string w (List.filter (lands_in_query tool (api_method config)) params)
  /\ string_includes "?" (before_question_mark (api_url config)) = false
  /\ exists rest,
       api_url config = before_question_mark (api_url config) ++ rest
       /\ (rest = "" \/ exists r, rest = "?" ++ r).
Proof.
  intros Hnd. rewrite (build_request_eq w tool config params Hnd). cbn zeta.
  split; [reflexivity |].
  split; [apply before_question_mark_has_none | apply before_question_mark_prefix].
Qed.

Lemma declared_query_string_witness :
  req_url (build_request plain_world router_tool router_config router_args)
  = "https://example.test/items?query"
  /\ req_url (build_request plain_world router_tool router_config []) 
     = "https://example.test/items".
Proof.
  destruct (declared_query_string_is_discarded plain_world router_tool router_config
              router_args) as (H1 & _ & _).
  - cbn. repeat (apply NoDup_cons_2 || apply NoDup_nil_2);
      rewrite ?not_elem_of_cons; repeat split; try discriminate; apply not_elem_of_nil.
  - destruct (declared_query_string_is_discarded plain_world router_tool router_config
                []) as (H2 & _ & _); [constructor |].
    split; [exact H1 | exact H2].
Defined.

(** A GET request whose only argument is named [__proto__] has no query
    string. *)
Example proto_argument_is_not_sent :
  req_url (build_request plain_world get_tool get_config [("__proto__", JsNumber (1 # 1))])
  = "https://example.test/items".
Proof. reflexivity. Qed.

(** ** The tools API and the statements that write *)

Lemma with_pool_dbInitialized (w : World) (s : Process) :
  dbInitialized (with_pool w s) = dbInitialized s.
Proof. unfold with_pool. now destruct (pool s). Qed.

Lemma with_pool_store_statements (w : World) (s : Process) :
  store_statements (with_pool w s) = store_statements s.
Proof. unfold with_pool. now destruct (pool s). Qed.

Lemma with_pool_idem (w : World) (s : Process) :
  with_pool w (with_pool w s) = with_pool w s.
Proof. unfold with_pool. destruct (pool s) eqn:E; cbn; now rewrite ?E. Qed.

(** A writing function, case by case: the values are computed first, and a
    failure to compute them is logged like a failure of the statement. *)
Lemma database_write_eq (w : World) (db : WriteOracle) (statement : M Statement)
    (failure : string) (s : Process) :
  database_write w db statement failure s
  = if isDatabaseEnabled w then
      match statement (with_pool w s) with
      | (Normal st, s1) =>
          match db (store_statements s1) st with
          | Normal _ => (Normal tt, tick_statements s1)
          | Throw e => (Throw e, push_console (level_error, failure) (tick_statements s1))
          end
      | (Throw e, s1) => (Throw e, push_console (level_error, failure) s1)
      end
    else (Throw (ErrorInstance "Database is not enabled"), s).
Proof.
  unfold database_write. destruct (isDatabaseEnabled w) eqn:Hdb; [| reflexivity].
  cbn [negb]. unfold client_write. run_M.
  destruct (getPool_enabled w s Hdb) as [p ->].
  destruct (statement (with_pool w s)) as [[st | e] s1]; [| reflexivity].
  now destruct (db (store_statements s1) st) as [[] | e].
Qed.

Lemma bound_values_eq (w : World) (tool : JsValue) (s : Process) :
  bound_values w tool s
  = if nullish tool
    then (Throw (ErrorInstance (TypeError_message w (reads_property_of tool "name"))), s)
    else (Normal (saved_values w tool), s).
Proof. unfold bound_values, member. now destruct (nullish tool). Qed.

Lemma database_write_outcomes
    (w : World) (db : WriteOracle) (statement : M Statement) (st : Statement)
    (failure : string) (s : Process) (e : Thrown) :
  (forall s', statement s' = (Normal st, s')) ->
  (isDatabaseEnabled w = false ->
   database_write w db statement failure s
   = (Throw (ErrorInstance "Database is not enabled"), s))
  /\ (isDatabaseEnabled w = true ->
      db (store_statements s) st = Throw e ->
      fst (database_write w db statement failure s) = Throw e
      /\ store_statements (snd (database_write w db statement failure s))
         = S (store_statements s)
      /\ console (snd (database_write w db statement failure s))
         = (console s ++ [(level_error, failure)])%list)
  /\ (isDatabaseEnabled w = true ->
      db (store_statements s) st = Normal tt ->
      fst (database_write w db statement failure s) = Normal tt
      /\ store_statements (snd (database_write w db statement failure s))
         = S (store_statements s)
      /\ console (snd (database_write w db statement failure s)) = console s).
Proof.
  intros Hst. rewrite database_write_eq, Hst.
  rewrite with_pool_store_statements. split; [| split].
  - now intros ->.
  - intros -> ->. cbn. now rewrite with_pool_store_statements, with_pool_console.
  - intros -> ->. cbn. now rewrite with_pool_store_statements, with_pool_console.
Qed.

Lemma database_write_unreadable
    (w : World) (db : WriteOracle) (statement : M Statement) (error : Thrown)
    (failure : string) (s : Process) :
  (forall s', statement s' = (Throw error, s')) ->
  isDatabaseEnabled w = true ->
  fst (database_write w db statement failure s) = Throw error
  /\ store_statements (snd (database_write w db statement failure s)) = store_statements s
  /\ console (snd (database_write w db statement failure s))
     = (console s ++ [(level_error, failure)])%list.
Proof.
  intros Hst Hdb. rewrite database_write_eq, Hst, Hdb. cbn.
  now rewrite with_pool_store_statements, with_pool_console.
Qed.

(** X13. Each of the three writing functions of database.ts
    ([saveToolToDatabase], [deleteToolFromDatabase], [updateToolInDatabase])
    sends exactly one statement when the database is enabled, and passes a
    failure of that statement on to its caller after logging it under its
    own heading; when the database is not enabled it throws
    [Database is not enabled] and sends nothing.  The values of the statement
    are read from the tool inside the [try]: for a tool that is [null] or
    [undefined] (which the handlers never pass on) the two functions that
    read it send nothing and pass on the [TypeError], logged under the same
    heading. *)
Theorem database_writes_propagate_failures
    (w : World) (db : WriteOracle) (tool oldName : JsValue) (toolName : string)
    (s : Process) (e : Thrown) :
  Forall
    (fun '(call, statement, failure, readable) =>
       (isDatabaseEnabled w = false ->
        call s = (Throw (ErrorInstance "Database is not enabled"), s))
       /\ (isDatabaseEnabled w = true ->
           readable = true ->
           db (store_statements s) statement = Throw e ->
           fst (call s) = Throw e
           /\ store_statements (snd (call s)) = S (store_statements s)
           /\ console (snd (call s)) = (console s ++ [(level_error, failure)])%list)
       /\ (isDatabaseEnabled w = true ->
           readable = true ->
           db (store_statements s) statement = Normal tt ->
           fst (call s) = Normal tt
           /\ store_statements (snd (call s)) = S (store_statements s)
           /\ console (snd (call s)) = console s)
       /\ (isDatabaseEnabled w = true ->
           readable = false ->
           fst (call s)
           = Throw (ErrorInstance (TypeError_message w (reads_property_of tool "name")))
           /\ store_statements (snd (call s)) = store_statements s
           /\ console (snd (call s)) = (console s ++ [(level_error, failure)])%list))
    [ (saveToolToDatabase w db tool,
       insert_or_update (saved_values w tool),
       "Error saving tool to database:",
       negb (nullish tool));
      (deleteToolFromDatabase w db toolName,
       delete_by_name toolName,
       "Error deleting tool from database:",
       true);
      (updateToolInDatabase w db oldName tool,
       update_by_name (saved_values w tool) oldName,
       "Error updating tool in database:",
       negb (nullish tool)) ].
Proof.
  unfold saveToolToDatabase, deleteToolFromDatabase, updateToolInDatabase.
  constructor; [| constructor; [| constructor; [| constructor]]].
  - destruct (nullish tool) eqn:Hn; cbn [negb].
    + split; [| split; [| split]]; try discriminate.
      * intros Hdb. unfold database_write. now rewrite Hdb.
      * intros Hdb _. apply database_write_unreadable; [| exact Hdb].
        intros s'. run_M. now rewrite bound_values_eq, Hn.
    + destruct (database_write_outcomes w db
                  (values ← bound_values w tool; mret (insert_or_update values))
                  (insert_or_update (saved_values w tool))
                  "Error saving tool to database:" s e) as (H1 & H2 & H3).
      { intros s'. run_M. now rewrite bound_values_eq, Hn. }
      split; [exact H1 | split; [| split]]; try discriminate.
      * intros Hdb _. now apply H2.
      * intros Hdb _. now apply H3.
  - destruct (database_write_outcomes w db (mret (delete_by_name toolName))
                (delete_by_name toolName) "Error deleting tool from database:" s e)
      as (H1 & H2 & H3); [reflexivity |].
    split; [exact H1 | split; [| split]]; try discriminate.
    + intros Hdb _. now apply H2.
    + intros Hdb _. now apply H3.
  - destruct (nullish tool) eqn:Hn; cbn [negb].
    + split; [| split; [| split]]; try discriminate.
      * intros Hdb. unfold database_write. now rewrite Hdb.
      * intros Hdb _. apply database_write_unreadable; [| exact Hdb].
        intros s'. run_M. now rewrite bound_values_eq, Hn.
    + destruct (database_write_outcomes w db
                  (values ← bound_values w tool; mret (update_by_name values oldName))
                  (update_by_name (saved_values w tool) oldName)
                  "Error updating tool in database:" s e) as (H1 & H2 & H3).
      { intros s'. run_M. now rewrite bound_values_eq, Hn. }
      split; [exact H1 | split; [| split]]; try discriminate.
      * intros Hdb _. now apply H2.
      * intros Hdb _. now apply H3.
Qed.

(** A tool nobody can read is not written. *)
Example null_tool_is_not_written :
  fst (saveToolToDatabase plain_world accepting_db JsNull initial_process)
  = Throw (ErrorInstance "Cannot read properties of null (reading 'name')")
  /\ store_statements
       (snd (saveToolToDatabase plain_world accepting_db JsNull initial_process))
     = 0%nat.
Proof. split; reflexivity. Qed.

(** A value with a name is neither [null] nor [undefined]. *)
Lemma is_name_not_nullish (key : string) (value : JsValue) :
  is_name (member_of key value) -> nullish value = false.
Proof. intros (text & H & _). now destruct value as [| | | | | |]. Qed.

Lemma is_blank_no_name (w : World) (value : JsValue) (s : Process) :
  no_name value -> is_blank w value s = (Normal true, s).
Proof.
  intros [-> | [-> | (text & -> & Hb)]]; cbn [is_blank]; [reflexivity .. |].
  now rewrite Hb.
Qed.

Lemma is_blank_is_name (w : World) (value : JsValue) (s : Process) :
  is_name value -> is_blank w value s = (Normal false, s).
Proof. intros (text & -> & Hb). cbn [is_blank]. now rewrite Hb. Qed.

Lemma is_blank_cannot_trim (w : World) (value : JsValue) (s : Process) :
  cannot_trim value ->
  is_blank w value s
  = (Throw (ErrorInstance (TypeError_message w (calls_trim_of value))), s).
Proof.
  intros [Hn Hs]. destruct value as [| | b | q | text | items | fields];
    try discriminate; try reflexivity.
  now destruct (Hs text).
Qed.

(** [POST], by what the body is. *)
Lemma tools_POST_eq (w : World) (db : WriteOracle) (tool : JsValue) (s : Process) :
  tools_POST w db (Normal tool) s
  = handled "Error saving tool:" "Failed to save tool"
      (if nullish tool
       then throw (ErrorInstance (TypeError_message w (reads_property_of tool "name")))
       else
         nameless ← is_blank w (member_of "name" tool);
         if (nameless : bool) then mret (reply_rejected 400 "Tool name is required")
         else if isDatabaseEnabled w then
           ensureDbInitialized w;;
           saveToolToDatabase w db tool;;
           mret (reply_done "Tool saved successfully" (Some tool) "database")
         else mret (reply_done "Tool received (localStorage mode)" (Some tool)
                      "localStorage")) s.
Proof.
  unfold tools_POST, handled, member. run_M. run_M. now destruct (nullish tool).
Qed.

(** [PUT], by what the body is. *)
Lemma tools_PUT_eq (w : World) (db : WriteOracle) (request : JsValue) (s : Process) :
  tools_PUT w db (Normal request) s
  = handled "Error updating tool:" "Failed to update tool"
      (if nullish request
       then throw (ErrorInstance (TypeError_message w (destructures request)))
       else
         unnamed ← is_blank w (member_of "oldName" request);
         nameless ← (if (unnamed : bool) then mret true
                     else name ← member w "name" (member_of "tool" request);
                          is_blank w name);
         if (nameless : bool)
         then mret (reply_rejected 400 "Old name and new tool name are required")
         else if isDatabaseEnabled w then
           ensureDbInitialized w;;
           updateToolInDatabase w db (member_of "oldName" request)
             (member_of "tool" request);;
           mret (reply_done "Tool updated successfully" (Some (member_of "tool" request))
                   "database")
         else mret (reply_done "Tool update received (localStorage mode)"
                      (Some (member_of "tool" request)) "localStorage")) s.
Proof.
  unfold tools_PUT, handled, destructured. run_M. run_M.
  now destruct (nullish request).
Qed.

(** X14. The writing handlers check the request before anything else, and
    nothing is sent to the database for a request that does not pass.  A name
    that is missing, [null] or blank (for PUT, either name) is answered with
    status 400 and the process is left untouched.  A request that makes the
    check itself throw is answered with status 500 and the [TypeError]'s
    message, after a line on the console: a POST body that is [null], a PUT
    body that is [null], a PUT body with a usable [oldName] and no [tool],
    and a name that is neither a string nor nullish.  A body that cannot be
    read is answered with status 500 as well. *)
Theorem write_requests_are_checked_first
    (w : World) (db : WriteOracle) (s : Process) :
  (forall tool,
      nullish tool = false ->
      no_name (member_of "name" tool) ->
      tools_POST w db (Normal tool) s
      = (Normal (reply_rejected 400 "Tool name is required"), s))
  /\ (forall tool,
        nullish tool = true ->
        tools_POST w db (Normal tool) s
        = (Normal (reply_failed 500 "Failed to save tool"
                     (TypeError_message w (reads_property_of tool "name"))),
           push_console (level_error, "Error saving tool:") s))
  /\ (forall tool,
        cannot_trim (member_of "name" tool) ->
        tools_POST w db (Normal tool) s
        = (Normal (reply_failed 500 "Failed to save tool"
                     (TypeError_message w (calls_trim_of (member_of "name" tool)))),
           push_console (level_error, "Error saving tool:") s))
  /\ (forall request,
        nullish request = false ->
        no_name (member_of "oldName" request) ->
        tools_PUT w db (Normal request) s
        = (Normal (reply_rejected 400 "Old name and new tool name are required"), s))
  /\ (forall request,
        is_name (member_of "oldName" request) ->
        nullish (member_of "tool" request) = false ->
        no_name (member_of "name" (member_of "tool" request)) ->
        tools_PUT w db (Normal request) s
        = (Normal (reply_rejected 400 "Old name and new tool name are required"), s))
  /\ (forall request,
        is_name (member_of "oldName" request) ->
        nullish (member_of "tool" request) = true ->
        tools_PUT w db (Normal request) s
        = (Normal (reply_failed 500 "Failed to update tool"
                     (TypeError_message w
                        (reads_property_of (member_of "tool" request) "name"))),
           push_console (level_error, "Error updating tool:") s))
  /\ (forall request,
        is_name (member_of "oldName" request) ->
        cannot_trim (member_of "name" (member_of "tool" request)) ->
        tools_PUT w db (Normal request) s
        = (Normal (reply_failed 500 "Failed to update tool"
                     (TypeError_message w
                        (calls_trim_of (member_of "name" (member_of "tool" request))))),
           push_console (level_error, "Error updating tool:") s))
  /\ (forall request,
        nullish request = true ->
        tools_PUT w db (Normal request) s
        = (Normal (reply_failed 500 "Failed to update tool"
                     (TypeError_message w (destructures request))),
           push_console (level_error, "Error updating tool:") s))
  /\ (forall request,
        cannot_trim (member_of "oldName" request) ->
        tools_PUT w db (Normal request) s
        = (Normal (reply_failed 500 "Failed to update tool"
                     (TypeError_message w (calls_trim_of (member_of "oldName" request)))),
           push_console (level_error, "Error updating tool:") s))
  /\ (forall toolName,
        toolName = None \/ (exists name, toolName = Some name /\ blank name = true) ->
        tools_DELETE w db toolName s
        = (Normal (reply_rejected 400 "Tool name is required"), s))
  /\ (forall e,
        tools_POST w db (Throw e) s
        = (Normal (reply_failed 500 "Failed to save tool" (message_or_unknown e)),
           push_console (level_error, "Error saving tool:") s)
        /\ tools_PUT w db (Throw e) s
           = (Normal (reply_failed 500 "Failed to update tool" (message_or_unknown e)),
              push_console (level_error, "Error updating tool:") s)).
Proof.
  repeat match goal with |- _ /\ _ => split end.
  - intros tool Hn Hname. rewrite tools_POST_eq, Hn. unfold handled. run_M.
    now rewrite (is_blank_no_name w _ s Hname).
  - intros tool Hn. rewrite tools_POST_eq, Hn. reflexivity.
  - intros tool Hname. rewrite tools_POST_eq.
    assert (Hn : nullish tool = false).
    { destruct Hname as [Hn _]. now destruct tool as [| | | | | |]. }
    rewrite Hn. unfold handled. run_M.
    now rewrite (is_blank_cannot_trim w _ s Hname).
  - intros request Hn Hold. rewrite tools_PUT_eq, Hn. unfold handled. run_M.
    now rewrite (is_blank_no_name w _ s Hold).
  - intros request Hold Hn Hname. rewrite tools_PUT_eq.
    rewrite (is_name_not_nullish _ _ Hold). unfold handled, member. run_M.
    rewrite (is_blank_is_name w _ s Hold). cbn [fst snd]. rewrite Hn. cbn [fst snd].
    now rewrite (is_blank_no_name w _ s Hname).
  - intros request Hold Hn. rewrite tools_PUT_eq.
    rewrite (is_name_not_nullish _ _ Hold). unfold handled, member. run_M.
    rewrite (is_blank_is_name w _ s Hold). cbn [fst snd]. now rewrite Hn.
  - intros request Hold Hname. rewrite tools_PUT_eq.
    rewrite (is_name_not_nullish _ _ Hold). unfold handled, member. run_M.
    rewrite (is_blank_is_name w _ s Hold). cbn [fst snd].
    assert (Hn : nullish (member_of "tool" request) = false).
    { destruct Hname as [Hn _].
      now destruct (member_of "tool" request) as [| | | | | |]. }
    rewrite Hn. cbn [fst snd].
    now rewrite (is_blank_cannot_trim w _ s Hname).
  - intros request Hn. rewrite tools_PUT_eq, Hn. reflexivity.
  - intros request Hold. rewrite tools_PUT_eq.
    assert (Hn : nullish request = false).
    { destruct Hold as [Hn _]. now destruct request as [| | | | | |]. }
    rewrite Hn. unfold handled. run_M.
    now rewrite (is_blank_cannot_trim w _ s Hold).
  - intros toolName [-> | (name & -> & Hb)]; unfold tools_DELETE, handled; run_M;
      [reflexivity | now rewrite Hb].
  - intros e. split; reflexivity.
Qed.

Example blank_names_are_rejected :
  tools_POST plain_world accepting_db (Normal (tool_body "   " "return 1"))
    initial_process
  = (Normal (reply_rejected 400 "Tool name is required"), initial_process)
  /\ tools_DELETE plain_world accepting_db None initial_process
     = (Normal (reply_rejected 400 "Tool name is required"), initial_process).
Proof. split; reflexivity. Qed.

(** A PUT request that names the tool to replace and carries no [tool], and a
    POST request whose body is [null], are answered with status 500. *)
Example incomplete_bodies_fail :
  fst (tools_PUT plain_world accepting_db
         (Normal (JsObject [("oldName", JsString "ping")])) initial_process)
  = Normal (reply_failed 500 "Failed to update tool"
              "Cannot read properties of undefined (reading 'name')")
  /\ fst (tools_POST plain_world accepting_db (Normal JsNull) initial_process)
     = Normal (reply_failed 500 "Failed to save tool"
                 "Cannot read properties of null (reading 'name')")
  /\ fst (tools_POST plain_world accepting_db
            (Normal (JsObject [("name", JsNumber (5 # 1))])) initial_process)
     = Normal (reply_failed 500 "Failed to save tool" "trim is not a function").
Proof. repeat split. Qed.

(** [initializeDatabase] with the database enabled: two statements, the
    second only if the first went through. *)
Lemma initializeDatabase_enabled (w : World) (s : Process) :
  isDatabaseEnabled w = true ->
  initializeDatabase w s
  = match store_execute w (store_statements s) with
    | Throw e =>
        (Throw e,
         push_console (level_error, "Error initializing database:")
           (tick_statements (with_pool w s)))
    | Normal _ =>
        match store_execute w (S (store_statements s)) with
        | Throw e =>
            (Throw e,
             push_console (level_error, "Error initializing database:")
               (tick_statements (tick_statements (with_pool w s))))
        | Normal _ =>
            (Normal tt,
             push_console (level_log, "Database initialized successfully")
               (tick_statements (tick_statements (with_pool w s))))
        end
    end.
Proof.
  intros Hdb. unfold initializeDatabase. rewrite Hdb. cbn [negb].
  unfold client_execute. run_M.
  destruct (getPool_enabled w s Hdb) as [p ->].
  rewrite with_pool_store_statements.
  destruct (store_execute w (store_statements s)) as [[] | e]; [| reflexivity].
  cbn. rewrite with_pool_store_statements.
  now destruct (store_execute w (S (store_statements s))) as [[] | e].
Qed.

(** The process once the table has been created. *)
Lemma ensureDbInitialized_enabled (w : World) (s : Process) :
  isDatabaseEnabled w = true ->
  ensureDbInitialized w s
  = if dbInitialized s then (Normal tt, s)
    else
      match initializeDatabase w s with
      | (Normal _, s') => (Normal tt, set_dbInitialized true s')
      | (Throw e, s') =>
          (Throw e, push_console (level_error, "Failed to initialize database:") s')
      end.
Proof.
  intros Hdb. unfold ensureDbInitialized. run_M. rewrite Hdb.
  destruct (dbInitialized s); [reflexivity |]. cbn [negb andb].
  now destruct (initializeDatabase w s) as [[[] | e] s'].
Qed.

(** The three writing functions once the values are read. *)
Lemma saveToolToDatabase_eq (w : World) (db : WriteOracle) (tool : JsValue) (s : Process) :
  nullish tool = false ->
  saveToolToDatabase w db tool s
  = database_write w db (mret (insert_or_update (saved_values w tool)))
      "Error saving tool to database:" s.
Proof.
  intros Hn. unfold saveToolToDatabase. rewrite !database_write_eq.
  destruct (isDatabaseEnabled w); [| reflexivity].
  run_M. now rewrite bound_values_eq, Hn.
Qed.

Lemma updateToolInDatabase_eq (w : World) (db : WriteOracle) (oldName tool : JsValue)
    (s : Process) :
  nullish tool = false ->
  updateToolInDatabase w db oldName tool s
  = database_write w db (mret (update_by_name (saved_values w tool) oldName))
      "Error updating tool in database:" s.
Proof.
  intros Hn. unfold updateToolInDatabase. rewrite !database_write_eq.
  destruct (isDatabaseEnabled w); [| reflexivity].
  run_M. now rewrite bound_values_eq, Hn.
Qed.

(** The handlers on a request that passes the check. *)
Lemma tools_POST_named (w : World) (db : WriteOracle) (tool : JsValue) (s : Process) :
  is_name (member_of "name" tool) ->
  tools_POST w db (Normal tool) s
  = handled "Error saving tool:" "Failed to save tool"
      (if isDatabaseEnabled w then
         ensureDbInitialized w;;
         database_write w db (mret (insert_or_update (saved_values w tool)))
           "Error saving tool to database:";;
         mret (reply_done "Tool saved successfully" (Some tool) "database")
       else mret (reply_done "Tool received (localStorage mode)" (Some tool)
                    "localStorage")) s.
Proof.
  intros Hname. rewrite tools_POST_eq.
  pose proof (is_name_not_nullish _ _ Hname) as Hn. rewrite Hn.
  unfold handled. run_M. rewrite (is_blank_is_name w _ s Hname). cbn [fst snd].
  destruct (isDatabaseEnabled w); [| reflexivity].
  destruct (ensureDbInitialized w s) as [[[] | e] s1]; [| reflexivity].
  now rewrite (saveToolToDatabase_eq w db tool s1 Hn).
Qed.

Lemma tools_PUT_named (w : World) (db : WriteOracle) (request : JsValue) (s : Process) :
  is_name (member_of "oldName" request) ->
  is_name (member_of "name" (member_of "tool" request)) ->
  tools_PUT w db (Normal request) s
  = handled "Error updating tool:" "Failed to update tool"
      (if isDatabaseEnabled w then
         ensureDbInitialized w;;
         database_write w db
           (mret (update_by_name (saved_values w (member_of "tool" request))
                    (member_of "oldName" request)))
           "Error updating tool in database:";;
         mret (reply_done "Tool updated successfully" (Some (member_of "tool" request))
                 "database")
       else mret (reply_done "Tool update received (localStorage mode)"
                    (Some (member_of "tool" request)) "localStorage")) s.
Proof.
  intros Hold Hname. rewrite tools_PUT_eq.
  rewrite (is_name_not_nullish _ _ Hold).
  pose proof (is_name_not_nullish _ _ Hname) as Hn.
  unfold handled, member. run_M.
  rewrite (is_blank_is_name w _ s Hold). cbn [fst snd]. rewrite Hn. cbn [fst snd].
  rewrite (is_blank_is_name w _ s Hname). cbn [fst snd].
  destruct (isDatabaseEnabled w); [| reflexivity].
  destruct (ensureDbInitialized w s) as [[[] | e] s1]; [| reflexivity].
  now rewrite (updateToolInDatabase_eq w db _ _ s1 Hn).
Qed.

(** X15. With the database enabled and its table in place, a statement that
    the database refuses never escapes a writing handler: the handler logs
    the failure and answers with status 500 and the error's message.  This
    holds of every request that passes the check: a POST body with a name, a
    PUT body with an [oldName] and a tool with a name, a DELETE with a
    name. *)
Theorem refused_write_is_answered_with_500
    (w : World) (db : WriteOracle) (s : Process) (e : Thrown) :
  isDatabaseEnabled w = true ->
  dbInitialized s = true ->
  (forall statement, db (store_statements s) statement = Throw e) ->
  (forall tool,
      is_name (member_of "name" tool) ->
      fst (tools_POST w db (Normal tool) s)
      = Normal (reply_failed 500 "Failed to save tool" (message_or_unknown e)))
  /\ (forall request,
        is_name (member_of "oldName" request) ->
        is_name (member_of "name" (member_of "tool" request)) ->
        fst (tools_PUT w db (Normal request) s)
        = Normal (reply_failed 500 "Failed to update tool" (message_or_unknown e)))
  /\ (forall name,
        blank name = false ->
        fst (tools_DELETE w db (Some name) s)
        = Normal (reply_failed 500 "Failed to delete tool" (message_or_unknown e))).
Proof.
  intros Hdb Hinit Hrefuse. split; [| split].
  - intros tool Hname. rewrite (tools_POST_named w db tool s Hname), Hdb.
    unfold handled. run_M.
    rewrite (ensureDbInitialized_enabled w s Hdb), Hinit.
    rewrite database_write_eq, Hdb. run_M.
    rewrite with_pool_store_statements, Hrefuse. reflexivity.
  - intros request Hold Hname. rewrite (tools_PUT_named w db request s Hold Hname), Hdb.
    unfold handled. run_M.
    rewrite (ensureDbInitialized_enabled w s Hdb), Hinit.
    rewrite database_write_eq, Hdb. run_M.
    rewrite with_pool_store_statements, Hrefuse. reflexivity.
  - intros name Hb. unfold tools_DELETE, handled, deleteToolFromDatabase. run_M.
    rewrite Hb, Hdb. cbn beta iota.
    rewrite (ensureDbInitialized_enabled w s Hdb), Hinit.
    rewrite database_write_eq, Hdb. run_M.
    rewrite with_pool_store_statements, Hrefuse. reflexivity.
Qed.

Lemma tool_body_is_named (name source : string) :
  blank name = false -> is_name (member_of "name" (tool_body name source)).
Proof. intros Hb. now exists name. Qed.

Lemma refused_write_witness :
  fst (tools_POST plain_world refusing_db (Normal (tool_body "ping" "return 'pong'"))
         (set_dbInitialized true initial_process))
  = Normal (reply_failed 500 "Failed to save tool" "disk full").
Proof.
  destruct (refused_write_is_answered_with_500 plain_world refusing_db
              (set_dbInitialized true initial_process) (ErrorInstance "disk full")
              eq_refl eq_refl (fun _ => eq_refl)) as [H _].
  exact (H (tool_body "ping" "return 'pong'")
           (tool_body_is_named "ping" "return 'pong'" eq_refl)).
Defined.

(** X16. The table is created once.  With the database enabled and accepting
    every statement, the first write sends three statements (the two that
    create the table and its index, then its own) and records that the table
    exists; a write made after that sends one statement only.  If creating
    the table fails, the request is answered with status 500 and the table is
    still recorded as missing, so the next request tries again. *)
Theorem table_is_created_once
    (w : World) (db : WriteOracle) (tool : JsValue) (s : Process) :
  isDatabaseEnabled w = true ->
  is_name (member_of "name" tool) ->
  (forall k statement, db k statement = Normal tt) ->
  ((forall k, store_execute w k = Normal tt) ->
   fst (tools_POST w db (Normal tool) s)
   = Normal (reply_done "Tool saved successfully" (Some tool) "database")
   /\ dbInitialized (snd (tools_POST w db (Normal tool) s)) = true
   /\ store_statements (snd (tools_POST w db (Normal tool) s))
      = (store_statements s + if dbInitialized s then 1 else 3)%nat)
  /\ (forall e,
        dbInitialized s = false ->
        store_execute w (store_statements s) = Throw e ->
        fst (tools_POST w db (Normal tool) s)
        = Normal (reply_failed 500 "Failed to save tool" (message_or_unknown e))
        /\ dbInitialized (snd (tools_POST w db (Normal tool) s)) = false).
Proof.
  intros Hdb Hname Haccept. rewrite (tools_POST_named w db tool s Hname), Hdb.
  unfold handled. split.
  - intros Hddl. run_M.
    rewrite (ensureDbInitialized_enabled w s Hdb).
    destruct (dbInitialized s) eqn:Hinit.
    + rewrite database_write_eq, Hdb. run_M. rewrite Haccept. cbn.
      rewrite with_pool_dbInitialized, with_pool_store_statements, Hinit.
      repeat split. lia.
    + rewrite (initializeDatabase_enabled w s Hdb), !Hddl.
      rewrite database_write_eq, Hdb. run_M. rewrite Haccept. cbn.
      rewrite with_pool_store_statements, with_pool_dbInitialized. cbn.
      rewrite with_pool_store_statements. repeat split. lia.
  - intros e Hinit Hfail. run_M.
    rewrite (ensureDbInitialized_enabled w s Hdb), Hinit.
    rewrite (initializeDatabase_enabled w s Hdb), Hfail. cbn.
    now rewrite with_pool_dbInitialized.
Qed.

Lemma table_is_created_once_witness :
  store_statements
    (snd (tools_POST plain_world accepting_db (Normal (tool_body "ping" "return 1"))
            initial_process)) = 3%nat
  /\ store_statements
       (snd (tools_POST plain_world accepting_db (Normal (tool_body "pong" "return 2"))
               (snd (tools_POST plain_world accepting_db
                       (Normal (tool_body "ping" "return 1")) initial_process))))
     = 4%nat.
Proof.
  destruct (table_is_created_once plain_world accepting_db (tool_body "ping" "return 1")
              initial_process eq_refl (tool_body_is_named "ping" "return 1" eq_refl)
              (fun _ _ => eq_refl)) as [H1 _].
  destruct (H1 (fun _ => eq_refl)) as (_ & _ & Hfirst).
  destruct (table_is_created_once plain_world accepting_db (tool_body "pong" "return 2")
              (snd (tools_POST plain_world accepting_db
                      (Normal (tool_body "ping" "return 1")) initial_process))
              eq_refl (tool_body_is_named "pong" "return 2" eq_refl)
              (fun _ _ => eq_refl)) as [H2 _].
  destruct (H2 (fun _ => eq_refl)) as (_ & _ & Hsecond).
  split; [exact Hfirst | exact Hsecond].
Defined.

(** X17. In local-storage mode (database not enabled) the server stores
    nothing: the writing handlers acknowledge a request that passes the
    check, echo the tool they were sent and leave the process as it was, and
    the listing that follows is still empty. *)
Theorem local_mode_acknowledges_without_storing
    (w : World) (db : WriteOracle) (s : Process) :
  isDatabaseEnabled w = false ->
  (forall tool,
      is_name (member_of "name" tool) ->
      tools_POST w db (Normal tool) s
      = (Normal (reply_done "Tool received (localStorage mode)" (Some tool)
                   "localStorage"), s))
  /\ (forall request,
        is_name (member_of "oldName" request) ->
        is_name (member_of "name" (member_of "tool" request)) ->
        tools_PUT w db (Normal request) s
        = (Normal (reply_done "Tool update received (localStorage mode)"
                     (Some (member_of "tool" request)) "localStorage"), s))
  /\ (forall name,
        blank name = false ->
        tools_DELETE w db (Some name) s
        = (Normal (reply_done "Tool deletion received (localStorage mode)" None
                     "localStorage"), s))
  /\ tools_GET w s = (Normal (reply_tools [] "localStorage"), s).
Proof.
  intros Hdb. split; [| split; [| split]].
  - intros tool Hname. now rewrite (tools_POST_named w db tool s Hname), Hdb.
  - intros request Hold Hname.
    now rewrite (tools_PUT_named w db request s Hold Hname), Hdb.
  - intros name Hb. unfold tools_DELETE, handled. run_M. now rewrite Hb, Hdb.
  - unfold tools_GET. run_M. now rewrite Hdb.
Qed.

Lemma local_mode_witness :
  tools_POST local_world accepting_db (Normal (tool_body "ping" "return 1"))
    initial_process
  = (Normal (reply_done "Tool received (localStorage mode)"
               (Some (tool_body "ping" "return 1")) "localStorage"),
     initial_process)
  /\ tools_GET local_world initial_process
     = (Normal (reply_tools [] "localStorage"), initial_process).
Proof.
  destruct (local_mode_acknowledges_without_storing local_world accepting_db
              initial_process eq_refl) as (H1 & _ & _ & H4).
  split; [exact (H1 (tool_body "ping" "return 1")
                   (tool_body_is_named "ping" "return 1" eq_refl)) | exact H4].
Defined.

(** ** The tools kept in the browser *)

(** X18. Adding a tool appends it, marked [isCustom], to the stored list, and
    the listing that follows returns the old list followed by it.  A stored
    text that cannot be read counts as the empty list, so adding over it
    leaves the new tool alone in store.  When the browser refuses the write,
    the store is left as it was and the failure is only logged. *)
Theorem added_tool_is_listed_last
    (accepts : list CustomTool -> bool) (tool : CustomTool) (b : Browser) :
  (accepts (fst (getCustomTools b) ++ [as_custom tool])%list = true ->
   fst (getCustomTools (addCustomTool accepts tool b))
   = (fst (getCustomTools b) ++ [as_custom tool])%list)
  /\ (customTools_entry b = entry_corrupt ->
      accepts [as_custom tool] = true ->
      customTools_entry (addCustomTool accepts tool b) = entry_tools [as_custom tool])
  /\ (accepts (fst (getCustomTools b) ++ [as_custom tool])%list = false ->
      customTools_entry (addCustomTool accepts tool b) = customTools_entry b).
Proof.
  unfold getCustomTools, addCustomTool, loadFromLocalStorage, saveToLocalStorage.
  destruct (customTools_entry b) eqn:E; cbn [fst]; split; try split;
    try discriminate; intros; cbn in *;
    repeat match goal with H : accepts _ = _ |- _ => rewrite H; clear H end; cbn;
    rewrite ?E; reflexivity.
Qed.

Lemma filter_negb_eqb_idem (name : string) (tools : list CustomTool) :
  List.filter (fun t => negb (String.eqb (tool_name t) name))
    (List.filter (fun t => negb (String.eqb (tool_name t) name)) tools)
  = List.filter (fun t => negb (String.eqb (tool_name t) name)) tools.
Proof. apply filter_filter_same. Qed.

(** X19. Deleting by name removes every stored tool of that name and keeps
    the others in their order; no tool of that name is listed afterwards, and
    deleting again changes nothing. *)
Theorem deleted_tool_is_gone
    (accepts : list CustomTool -> bool) (name : string) (b : Browser) :
  (forall tools, accepts tools = true) ->
  fst (getCustomTools (deleteCustomTool accepts name b))
  = List.filter (fun t => negb (String.eqb (tool_name t) name)) (fst (getCustomTools b))
  /\ (forall t, In t (fst (getCustomTools (deleteCustomTool accepts name b))) ->
                tool_name t <> name /\ In t (fst (getCustomTools b)))
  /\ customTools_entry (deleteCustomTool accepts name (deleteCustomTool accepts name b))
     = customTools_entry (deleteCustomTool accepts name b).
Proof.
  intros Hroom.
  assert (Hfirst : fst (getCustomTools (deleteCustomTool accepts name b))
                   = List.filter (fun t => negb (String.eqb (tool_name t) name))
                       (fst (getCustomTools b))).
  { unfold getCustomTools, deleteCustomTool, loadFromLocalStorage, saveToLocalStorage.
    destruct (customTools_entry b); cbn; rewrite Hroom; reflexivity. }
  split; [exact Hfirst | split].
  - intros t Hin. rewrite Hfirst in Hin. apply filter_In in Hin as [Hin Hne].
    split; [| exact Hin].
    apply negb_true_iff in Hne. now apply String.eqb_neq in Hne.
  - unfold deleteCustomTool, loadFromLocalStorage, saveToLocalStorage.
    destruct (customTools_entry b); cbn; rewrite !Hroom; cbn; rewrite ?Hroom;
      now rewrite ?filter_negb_eqb_idem.
Qed.

Lemma deleted_tool_witness :
  fst (getCustomTools (deleteCustomTool roomy "ping" two_tools_browser))
  = [as_custom (script_tool "echo" "return params.text")].
Proof.
  destruct (deleted_tool_is_gone roomy "ping" two_tools_browser (fun _ => eq_refl))
    as [H _].
  exact H.
Defined.

Lemma findIndex_Some (name : string) (tools : list CustomTool) (index : nat) :
  findIndex name tools = Some index ->
  (exists t, tools !! index = Some t /\ tool_name t = name)
  /\ forall j t, (j < index)%nat -> tools !! j = Some t -> tool_name t <> name.
Proof.
  revert index. induction tools as [| t rest IH]; intros index H; [discriminate |].
  cbn [findIndex] in H. destruct (String.eqb_spec (tool_name t) name) as [Heq | Hne].
  - injection H as <-. split; [exists t; now split | intros j t' Hj; lia].
  - destruct (findIndex name rest) as [i |] eqn:E; [| discriminate].
    injection H as <-. destruct (IH i eq_refl) as [(t' & Ht' & Hname) Hbefore].
    split; [exists t'; now split |].
    intros [| j] t'' Hj Hl; cbn in Hl.
    + now injection Hl as <-.
    + apply (Hbefore j); [lia | exact Hl].
Qed.

Lemma findIndex_None (name : string) (tools : list CustomTool) :
  findIndex name tools = None <-> forall t, In t tools -> tool_name t <> name.
Proof.
  induction tools as [| t rest IH]; cbn [findIndex]; [split; [intros _ ? [] | reflexivity] |].
  destruct (String.eqb_spec (tool_name t) name) as [Heq | Hne].
  - split; [discriminate | intros H; exfalso; now apply (H t); [left |]].
  - destruct (findIndex name rest) as [i |]; cbn.
    + split; [discriminate |]. intros H. exfalso.
      assert (Some i = None) as Habs; [| discriminate].
      apply IH. intros t' Hin. apply H. now right.
    + split; [| reflexivity]. intros _ t' [<- | Hin]; [exact Hne |].
      now apply IH.
Qed.

(** X20. Updating by name replaces the first stored tool of that name by the
    new definition (marked [isCustom]) and leaves every other position as it
    was; when no stored tool has that name, nothing is written. *)
Theorem update_replaces_first_match
    (accepts : list CustomTool -> bool) (oldName : string) (tool : CustomTool)
    (b : Browser) :
  (forall tools, accepts tools = true) ->
  (forall index,
      findIndex oldName (fst (getCustomTools b)) = Some index ->
      fst (getCustomTools (updateCustomTool accepts oldName tool b))
      = <[index := as_custom tool]> (fst (getCustomTools b))
      /\ fst (getCustomTools (updateCustomTool accepts oldName tool b)) !! index
         = Some (as_custom tool)
      /\ (exists old, fst (getCustomTools b) !! index = Some old
                      /\ tool_name old = oldName)
      /\ (forall j t, (j < index)%nat -> fst (getCustomTools b) !! j = Some t ->
                      tool_name t <> oldName))
  /\ ((forall t, In t (fst (getCustomTools b)) -> tool_name t <> oldName) ->
      updateCustomTool accepts oldName tool b = snd (getCustomTools b)).
Proof.
  intros Hroom. split.
  - intros index Hfind.
    assert (Hfirst : fst (getCustomTools (updateCustomTool accepts oldName tool b))
                     = <[index := as_custom tool]> (fst (getCustomTools b))).
    { revert Hfind.
      unfold getCustomTools, updateCustomTool, loadFromLocalStorage, saveToLocalStorage.
      destruct (customTools_entry b); cbn; try discriminate.
      intros ->. now rewrite Hroom. }
    destruct (findIndex_Some _ _ _ Hfind) as [(old & Hold & Hname) Hbefore].
    split; [exact Hfirst | split; [| split]].
    + rewrite Hfirst. apply list_lookup_insert_eq. now apply lookup_lt_Some in Hold.
    + now exists old.
    + exact Hbefore.
  - intros Hnone. apply findIndex_None in Hnone. revert Hnone.
    unfold getCustomTools, updateCustomTool, loadFromLocalStorage.
    destruct (customTools_entry b); cbn; intros H; rewrite ?H; reflexivity.
Qed.

Lemma update_witness :
  fst (getCustomTools
         (updateCustomTool roomy "echo" (script_tool "echo2" "return 2") two_tools_browser))
  = [as_custom (script_tool "ping" "return 'pong'");
     as_custom (script_tool "echo2" "return 2")]
  /\ updateCustomTool roomy "nobody" (script_tool "echo2" "return 2") two_tools_browser
     = two_tools_browser.
Proof.
  destruct (update_replaces_first_match roomy "echo" (script_tool "echo2" "return 2")
              two_tools_browser (fun _ => eq_refl)) as [H1 _].
  destruct (H1 1%nat eq_refl) as [H _].
  destruct (update_replaces_first_match roomy "nobody" (script_tool "echo2" "return 2")
              two_tools_browser (fun _ => eq_refl)) as [_ H2].
  split; [exact H | apply H2].
  intros t [<- | [<- | []]]; discriminate.
Defined.

(** ** The parameter builder *)

Example form_parameter_enum :
  param_enum (form_parameter color_form) = Some ["red"; "green"; "blue"]
  /\ param_description (form_parameter color_form) = None.
Proof. split; reflexivity. Qed.

Lemma keys_set_prop {V} (key : string) (value : V) (obj : list (string * V)) :
  Object_keys (set_prop key value obj)
  = if includes (Object_keys obj) key then Object_keys obj
    else (Object_keys obj ++ [key])%list.
Proof.
  induction obj as [| [k v] rest IH]; [reflexivity |].
  cbn [set_prop Object_keys map fst includes existsb].
  rewrite (String.eqb_sym key k).
  destruct (String.eqb_spec k key) as [-> | Hne]; cbn [orb]; [reflexivity |].
  cbn [Object_keys map fst]. fold (Object_keys (set_prop key value rest)).
  rewrite IH. fold (Object_keys rest). fold (includes (Object_keys rest) key).
  now destruct (includes (Object_keys rest) key).
Qed.

Lemma keys_delete_prop {V} (key : string) (obj : list (string * V)) :
  Object_keys (delete_prop key obj)
  = List.filter (fun k => negb (String.eqb k key)) (Object_keys obj).
Proof.
  unfold delete_prop, Object_keys.
  induction obj as [| [k v] rest IH]; [reflexivity |].
  cbn. destruct (String.eqb k key); cbn; now rewrite IH.
Qed.

Lemma NoDup_filter_strings (f : string -> bool) (l : list string) :
  NoDup l -> NoDup (List.filter f l).
Proof.
  induction l as [| x rest IH]; intros Hnd; [constructor |].
  apply NoDup_cons in Hnd as [Hx Hnd]. cbn. destruct (f x); [| now apply IH].
  apply NoDup_cons. split; [| now apply IH].
  intros Hin. apply Hx. apply list_elem_of_In in Hin. apply filter_In in Hin as [Hin _].
  now apply list_elem_of_In.
Qed.

Lemma NoDup_snoc_strings (l : list string) (x : string) :
  NoDup l -> ~ In x l -> NoDup (l ++ [x])%list.
Proof.
  intros Hnd Hx. apply NoDup_app. split; [exact Hnd |]. split.
  - intros y Hy Hin. apply list_elem_of_singleton in Hin. subst y.
    apply Hx. now apply list_elem_of_In.
  - apply NoDup_singleton.
Qed.

(** X21. The parameter builder and the well-formedness of the schema (every
    required name is a declared parameter, no name is declared or required
    twice).  [removeParameter] keeps it.  [addParameter] keeps it for every
    name but one: a parameter named [__proto__] that the schema does not
    declare yet is not stored by the assignment, and when its box is ticked
    the name is added to [required] all the same, which leaves a required
    name that is not declared. *)
Theorem parameter_builder_keeps_schema_well_formed
    (form : ParameterForm) (name : string) (schema : FormSchema) :
  well_formed schema ->
  well_formed (removeParameter name schema)
  /\ (paramName form <> "__proto__"
      \/ In "__proto__" (Object_keys (form_properties schema))
      \/ paramRequired form = false ->
      well_formed (addParameter form schema))
  /\ (paramName form = "__proto__" ->
      ~ In "__proto__" (Object_keys (form_properties schema)) ->
      paramRequired form = true ->
      form_properties (addParameter form schema) = form_properties schema
      /\ form_required (addParameter form schema)
         = (form_required schema ++ ["__proto__"])%list
      /\ ~ well_formed (addParameter form schema)).
Proof.
  intros (Hreq & Hprops & Hnd). split; [| split].
  - unfold removeParameter, well_formed. cbn [form_properties form_required].
    rewrite keys_delete_prop. split; [| split].
    + intros n Hn. apply filter_In in Hn as [Hn Hne].
      apply filter_In. split; [now apply Hreq | exact Hne].
    + now apply NoDup_filter_strings.
    + now apply NoDup_filter_strings.
  - intros Hcond. unfold addParameter.
    destruct (String.eqb (trim (paramName form)) ""); [now repeat split |].
    unfold well_formed, assign. cbn [form_properties form_required].
    destruct (String.eqb (paramName form) "__proto__"
              && negb (includes (Object_keys (form_properties schema)) (paramName form)))
      eqn:Hskip.
    + apply andb_true_iff in Hskip as [Hproto Hfresh].
      apply String.eqb_eq in Hproto. apply negb_true_iff, includes_not_In in Hfresh.
      destruct Hcond as [Hne | [Hin | Hoff]];
        [contradiction | now rewrite Hproto in Hfresh |].
      rewrite Hoff. cbn [andb]. now repeat split.
    + rewrite keys_set_prop.
      assert (Hkey : In (paramName form)
                       (if includes (Object_keys (form_properties schema)) (paramName form)
                        then Object_keys (form_properties schema)
                        else (Object_keys (form_properties schema)
                              ++ [paramName form])%list)).
      { destruct (includes (Object_keys (form_properties schema)) (paramName form)) eqn:E.
        - now apply includes_In.
        - apply in_or_app. right. now left. }
      assert (Hold : forall n, In n (Object_keys (form_properties schema)) ->
                       In n (if includes (Object_keys (form_properties schema))
                                  (paramName form)
                             then Object_keys (form_properties schema)
                             else (Object_keys (form_properties schema)
                                   ++ [paramName form])%list)).
      { intros n Hn. destruct (includes _ (paramName form)); [exact Hn |].
        apply in_or_app. now left. }
      split; [| split].
      * intros n Hn.
        destruct (paramRequired form
                  && negb (includes (form_required schema) (paramName form)));
          [| now apply Hold, Hreq].
        apply in_app_or in Hn as [Hn | [<- | []]]; [now apply Hold, Hreq | exact Hkey].
      * destruct (includes (Object_keys (form_properties schema)) (paramName form)) eqn:E;
          [exact Hprops |].
        apply NoDup_snoc_strings; [exact Hprops | now apply includes_not_In].
      * destruct (paramRequired form); cbn [andb]; [| exact Hnd].
        destruct (includes (form_required schema) (paramName form)) eqn:E; [exact Hnd |].
        apply NoDup_snoc_strings; [exact Hnd | now apply includes_not_In].
  - intros Hproto Hfresh Hon.
    assert (Hnot_required : includes (form_required schema) "__proto__" = false).
    { apply includes_not_In. intros Hin. now apply Hfresh, Hreq. }
    assert (Hnot_declared :
              includes (Object_keys (form_properties schema)) "__proto__" = false)
      by (now apply includes_not_In).
    assert (Hadd : addParameter form schema
                   = {| form_properties := form_properties schema;
                        form_required := (form_required schema ++ ["__proto__"])%list |}).
    { unfold addParameter, assign. rewrite Hproto, Hon, Hnot_required, Hnot_declared.
      reflexivity. }
    rewrite Hadd. cbn [form_properties form_required].
    split; [reflexivity | split; [reflexivity |]].
    intros (Hreq' & _ & _). cbn [form_properties form_required] in Hreq'.
    apply Hfresh, Hreq'. apply in_or_app. right. now left.
Qed.

Lemma parameter_builder_witness :
  well_formed (removeParameter "color" empty_form_schema)
  /\ well_formed (addParameter color_form empty_form_schema)
  /\ form_required (addParameter proto_form empty_form_schema) = ["__proto__"]
  /\ form_properties (addParameter proto_form empty_form_schema) = [].
Proof.
  destruct (parameter_builder_keeps_schema_well_formed color_form "color"
              empty_form_schema) as (H1 & H2 & _);
    [split; [intros n [] | split; constructor] |].
  destruct (parameter_builder_keeps_schema_well_formed proto_form "color"
              empty_form_schema) as (_ & _ & H3);
    [split; [intros n [] | split; constructor] |].
  destruct (H3 eq_refl (fun H => H) eq_refl) as (Hp & Hr & _).
  split; [exact H1 | split; [apply H2; left; discriminate | split; [exact Hr | exact Hp]]].
Defined.

Lemma filter_all_true {A} (f : A -> bool) (l : list A) :
  (forall x, In x l -> f x = true) -> List.filter f l = l.
Proof.
  induction l as [| x rest IH]; intros H; [reflexivity |].
  cbn. rewrite (H x) by now left. f_equal. apply IH. intros y Hy. apply H. now right.
Qed.

(** X22. Removing a parameter that was just added under a new name gives the
    schema back as it was.  A parameter added again under a name that is
    already required stays required, whether the box is ticked or not. *)
Theorem added_parameter_can_be_removed (form : ParameterForm) (schema : FormSchema) :
  well_formed schema ->
  ~ In (paramName form) (Object_keys (form_properties schema)) ->
  removeParameter (paramName form) (addParameter form schema) = schema
  /\ forall other,
       In (paramName other) (form_required schema) ->
       In (paramName other) (form_required (addParameter other schema)).
Proof.
  intros (Hreq & Hprops & Hnd) Hnew. split.
  - assert (Hnot_required : ~ In (paramName form) (form_required schema))
      by (intros H; now apply Hnew, Hreq).
    assert (Hprops_same :
              delete_prop (paramName form) (form_properties schema)
              = form_properties schema).
    { apply filter_all_true. intros [k v] Hin. cbn.
      apply negb_true_iff, String.eqb_neq. intros ->. apply Hnew.
      change (paramName form) with (fst (paramName form, v)). now apply in_map. }
    assert (Hreq_same :
              List.filter (fun n => negb (String.eqb n (paramName form)))
                (form_required schema) = form_required schema).
    { apply filter_all_true. intros n Hin.
      apply negb_true_iff, String.eqb_neq. now intros ->. }
    unfold addParameter.
    destruct (String.eqb (trim (paramName form)) "").
    + unfold removeParameter. rewrite Hprops_same, Hreq_same. now destruct schema.
    + unfold removeParameter. cbn [form_properties form_required].
      rewrite assign_fresh by (now rewrite list_elem_of_In).
      assert (Hprops_back :
                delete_prop (paramName form)
                  (if storable (paramName form)
                   then (form_properties schema
                         ++ [(paramName form, form_parameter form)])%list
                   else form_properties schema)
                = form_properties schema).
      { destruct (storable (paramName form)); [| exact Hprops_same].
        unfold delete_prop in *. rewrite List.filter_app, Hprops_same.
        cbn [List.filter fst]. rewrite String.eqb_refl. cbn [negb]. apply app_nil_r. }
      rewrite Hprops_back.
      destruct (paramRequired form
                && negb (includes (form_required schema) (paramName form))).
      * rewrite List.filter_app, Hreq_same. cbn [List.filter].
        rewrite String.eqb_refl. cbn [negb]. rewrite app_nil_r. now destruct schema.
      * rewrite Hreq_same. now destruct schema.
  - intros other Hin. unfold addParameter.
    destruct (String.eqb (trim (paramName other)) ""); [exact Hin |].
    cbn [form_required].
    destruct (paramRequired other
              && negb (includes (form_required schema) (paramName other)));
      [apply in_or_app; now left | exact Hin].
Qed.

Lemma added_parameter_witness :
  removeParameter "color" (addParameter color_form empty_form_schema) = empty_form_schema.
Proof.
  destruct (added_parameter_can_be_removed color_form empty_form_schema) as [H _].
  - split; [intros n [] | split; constructor].
  - intros [].
  - exact H.
Defined.

(** ** The generators *)

Lemma random_below_range (random : nat -> Q) (k : nat) (n : Z) :
  in_unit_interval random -> (0 < n)%Z ->
  (0 <= random_below random k n < n)%Z.
Proof.
  intros Hunit Hn. destruct (Hunit k) as [H0 H1]. unfold random_below.
  assert (Hpos : (0 < inject_Z n)%Q) by (unfold Qlt; cbn; lia).
  split.
  - change 0%Z with (Qfloor 0). apply Qfloor_resp_le.
    apply Qmult_le_0_compat; [exact H0 | now apply Qlt_le_weak].
  - pose proof (Qmult_lt_compat_r _ _ _ Hpos H1) as Hlt. rewrite Qmult_1_l in Hlt.
    pose proof (Qfloor_le (random k * inject_Z n)) as Hfl.
    assert (Hz : (inject_Z (Qfloor (random k * inject_Z n)) < inject_Z n)%Q)
      by (eapply Qle_lt_trans; eassumption).
    now rewrite <- Zlt_Qlt in Hz.
Qed.

Lemma chars_append (a b : string) :
  list_ascii_of_string (a ++ b) = (list_ascii_of_string a ++ list_ascii_of_string b)%list.
Proof.
  induction a as [| c a IH]; [reflexivity |].
  change (c :: list_ascii_of_string (a ++ b)
          = (c :: list_ascii_of_string a ++ list_ascii_of_string b)%list).
  now rewrite IH.
Qed.

Lemma length_chars (a : string) : length (list_ascii_of_string a) = String.length a.
Proof. induction a as [| c a IH]; cbn; [reflexivity | now rewrite IH]. Qed.

Lemma get_in_range (text : string) (n : nat) :
  (n < String.length text)%nat ->
  exists c, String.get n text = Some c /\ In c (list_ascii_of_string text).
Proof.
  revert n. induction text as [| c text IH]; intros n Hn; cbn in Hn; [lia |].
  destruct n as [| n]; cbn.
  - exists c. split; [reflexivity | now left].
  - destruct (IH n) as (c' & Hget & Hin); [lia |].
    exists c'. split; [exact Hget | now right].
Qed.

Lemma charAt_in_range (text : string) (index : Z) :
  (0 <= index < Z.of_nat (String.length text))%Z ->
  exists c, charAt text index = String c EmptyString
            /\ In c (list_ascii_of_string text).
Proof.
  intros Hi. unfold charAt.
  destruct (Z.ltb_spec index 0) as [Hneg | _]; [lia |].
  destruct (get_in_range text (Z.to_nat index)) as (c & -> & Hin); [lia |].
  now exists c.
Qed.

Lemma password_loop_draws (random : nat -> Q) (charset : string) :
  in_unit_interval random ->
  charset <> "" ->
  forall rounds k password,
    exists drawn,
      password_loop random charset rounds k password = password ++ drawn
      /\ String.length drawn = rounds
      /\ forall c, In c (list_ascii_of_string drawn) ->
                   In c (list_ascii_of_string charset).
Proof.
  intros Hunit Hne. induction rounds as [| rounds IH]; intros k password.
  - exists "". split; [| split]; [| reflexivity | intros c []].
    cbn [password_loop]. clear. induction password as [| c p IHp]; [reflexivity |].
    change (String c p = String c (p ++ "")). now rewrite <- IHp.
  - cbn [password_loop].
    destruct (charAt_in_range charset
                (random_below random k (Z.of_nat (String.length charset))))
      as (c & Hc & Hin).
    { apply random_below_range; [exact Hunit |].
      destruct charset; [contradiction | cbn; lia]. }
    rewrite Hc.
    destruct (IH (S k) (password ++ String c "")) as (drawn & Heq & Hlen & Hall).
    exists (String c drawn). split; [| split].
    + rewrite Heq. clear. induction password as [| p ps IHp]; [reflexivity |].
      change (String p ((ps ++ String c "") ++ drawn) = String p (ps ++ String c drawn)).
      now rewrite IHp.
    + cbn. now rewrite Hlen.
    + intros c' [<- | Hc']; [exact Hin | now apply Hall].
Qed.

(** X23. [generate_password]: when no character class is selected the answer
    is the error text, whatever the length; otherwise the password has
    exactly the requested number of characters (none for a length that is not
    positive) and each of them comes from the selected classes. *)
Theorem password_has_length_and_alphabet
    (random : nat -> Q) (length : Z) (numbers symbols uppercase lowercase : bool) :
  in_unit_interval random ->
  (numbers || symbols || uppercase || lowercase = false ->
   generate_password random length numbers symbols uppercase lowercase
   = text_result "❌ Error: At least one character type must be selected")
  /\ (numbers || symbols || uppercase || lowercase = true ->
      exists password,
        generate_password random length numbers symbols uppercase lowercase
        = text_result ("🔐 Generated password: " ++ password)
        /\ String.length password = Z.to_nat length
        /\ forall c, In c (list_ascii_of_string password) ->
                     In c (list_ascii_of_string
                             (password_charset numbers symbols uppercase lowercase))).
Proof.
  intros Hunit. split.
  - now destruct numbers, symbols, uppercase, lowercase.
  - intros Hsome. unfold generate_password.
    assert (Hne : password_charset numbers symbols uppercase lowercase <> "")
      by (destruct numbers, symbols, uppercase, lowercase; discriminate).
    destruct (String.eqb_spec (password_charset numbers symbols uppercase lowercase) "")
      as [E | _]; [contradiction |].
    destruct (password_loop_draws random _ Hunit Hne (Z.to_nat length) 0%nat "")
      as (drawn & Heq & Hlen & Hall).
    exists drawn. rewrite Heq. split; [reflexivity | split; assumption].
Qed.

Lemma sample_random_in_unit_interval : in_unit_interval sample_random.
Proof.
  intros k. unfold sample_random. destruct (Nat.even k); split; discriminate || reflexivity.
Qed.

Lemma password_witness :
  generate_password sample_random 4 true false false false
  = text_result "🔐 Generated password: 0909"
  /\ generate_password sample_random 16 false false false false
     = text_result "❌ Error: At least one character type must be selected".
Proof.
  destruct (password_has_length_and_alphabet sample_random 16 false false false false
              sample_random_in_unit_interval) as [H _].
  split; [reflexivity | exact (H eq_refl)].
Defined.

Lemma hex_digit_fits (r : Z) :
  (0 <= r < 16)%Z ->
  is_hex (hex_digit r) = true
  /\ existsb (Ascii.eqb (hex_digit (Z.lor (Z.land r 3) 8)))
       (list_ascii_of_string "89ab") = true.
Proof.
  intros Hr.
  assert (H : r = 0 \/ r = 1 \/ r = 2 \/ r = 3 \/ r = 4 \/ r = 5 \/ r = 6 \/ r = 7
              \/ r = 8 \/ r = 9 \/ r = 10 \/ r = 11 \/ r = 12 \/ r = 13 \/ r = 14
              \/ r = 15) by lia.
  repeat (destruct H as [-> | H]; [split; reflexivity |]). subst r. split; reflexivity.
Qed.

Lemma fill_template_matches (random : nat -> Q) (template : string) (k : nat) :
  in_unit_interval random ->
  matches_template template (fill_template random template k) = true.
Proof.
  intros Hunit. revert k. induction template as [| c rest IH]; intros k; [reflexivity |].
  cbn [fill_template].
  destruct (hex_digit_fits (random_below random k 16)) as [Hx Hy];
    [apply random_below_range; [exact Hunit | lia] |].
  destruct (Ascii.eqb c "x") eqn:Ex; [| destruct (Ascii.eqb c "y") eqn:Ey];
    cbn [matches_template]; unfold fits; rewrite ?Ex, ?Ey, ?Hx, ?Hy, ?Ascii.eqb_refl, IH;
    reflexivity.
Qed.

Lemma matches_template_length (template text : string) :
  matches_template template text = true -> String.length text = String.length template.
Proof.
  revert text. induction template as [| t template IH]; intros [| c text] H;
    try discriminate; [reflexivity |].
  cbn in H. apply andb_true_iff in H as [_ H]. cbn. now rewrite (IH text H).
Qed.

(** X24. [generate_uuid]: every identifier produced has the layout of a
    version 4 uuid: 36 characters, hyphens after the 8th, 12th, 16th and 20th
    digit, the digit [4] at the head of the third group, one of [8 9 a b] at
    the head of the fourth, and lower-case hexadecimal digits elsewhere; the
    tool produces as many identifiers as asked. *)
Theorem generated_uuids_are_version_4 (random : nat -> Q) (count : Z) :
  in_unit_interval random ->
  (forall k, matches_template uuid_template (uuid_from random k) = true
             /\ String.length (uuid_from random k) = 36%nat)
  /\ length (uuids_loop random (Z.to_nat count) 0) = Z.to_nat count
  /\ Forall (fun uuid => matches_template uuid_template uuid = true)
       (uuids_loop random (Z.to_nat count) 0).
Proof.
  intros Hunit.
  assert (Hone : forall k, matches_template uuid_template (uuid_from random k) = true)
    by (intros k; now apply fill_template_matches).
  split; [| split].
  - intros k. split; [apply Hone |].
    now rewrite (matches_template_length _ _ (Hone k)).
  - generalize 0%nat. induction (Z.to_nat count) as [| n IH]; intros k; cbn;
      [reflexivity | now rewrite IH].
  - generalize 0%nat. induction (Z.to_nat count) as [| n IH]; intros k; cbn;
      constructor; [apply Hone | apply IH].
Qed.

Lemma uuid_witness :
  matches_template uuid_template (uuid_from sample_random 0) = true
  /\ uuid_from sample_random 0 = "0f0f0f0f-0f0f-40f0-b0f0-f0f0f0f0f0f0".
Proof.
  destruct (generated_uuids_are_version_4 sample_random 1 sample_random_in_unit_interval)
    as [H _].
  split; [exact (proj1 (H 0%nat)) | reflexivity].
Defined.

(** ** The builtin [json_formatter] *)

(** X25. [json_formatter] on a text that [JSON.parse] accepts: [format] and
    [minify] always report valid JSON; [validate] reports it as valid unless
    the text denotes [null], in which case it answers [Invalid JSON] with the
    message of the [TypeError] raised by [Object.keys].  On a text that
    [JSON.parse] refuses, every action answers [Invalid JSON] with the
    parser's message. *)
Theorem json_validate_rejects_null
    (w : World) (host : JsonHost) (json : string) :
  (forall parsed,
      JSON_parse w json = Some parsed ->
      json_formatter w host json "format"
      = text_result ("✅ Valid JSON (Formatted):" ++ newline
                     ++ JSON_stringify_pretty w parsed)
      /\ json_formatter w host json "minify"
         = text_result ("✅ Valid JSON (Minified):" ++ newline ++ JSON_stringify w parsed)
      /\ (parsed = JsNull ->
          json_formatter w host json "validate"
          = invalid_json (null_keys_message host))
      /\ (parsed <> JsNull -> parsed <> JsUndefined ->
          exists count,
            keys_count host parsed = Normal count
            /\ json_formatter w host json "validate"
               = text_result ("✅ JSON is valid!" ++ newline ++ "📊 Object has "
                              ++ String_ w (JsNumber (inject_Z (Z.of_nat count)))
                              ++ " top-level properties")))
  /\ (JSON_parse w json = None ->
      forall action,
        json_formatter w host json action = invalid_json (syntax_error_message host json)).
Proof.
  split.
  - intros parsed Hp. unfold json_formatter. rewrite Hp. cbn [String.eqb Ascii.eqb Bool.eqb].
    split; [reflexivity | split; [reflexivity | split]].
    + now intros ->.
    + intros Hnull Hundef.
      destruct parsed; try contradiction; eexists; split; reflexivity.
  - intros Hp action. unfold json_formatter. now rewrite Hp.
Qed.

Example json_null_example :
  json_formatter json_world json_host "null" "format"
  = text_result ("✅ Valid JSON (Formatted):" ++ newline ++ "{ ... }")
  /\ json_formatter json_world json_host "null" "validate"
     = invalid_json "Cannot convert undefined or null to object"
  /\ json_formatter json_world json_host "{}" "validate"
     = text_result ("✅ JSON is valid!" ++ newline
                    ++ "📊 Object has 0 top-level properties").
Proof. repeat split. Qed.
